(** * WaterMeterAgent: the rule-based extraction pipeline

    A shallow embedding of [water_meter_agent.py] (class [WaterMeterAgent]
    and its tool functions) and of its sibling
    [local_langchain_style_agent.py] (class [LocalLangChainStyleAgent]).

    Conventions of the embedding.
    - Python [str] is [string]; the characters are read as code points and
      the character classes of [re] ([\s], [\w], [\d]) and [str.upper] are
      those of 7-bit ASCII.
    - Python [float] values are the exact rationals they denote, kept in
      lowest terms ([Qred]) so that Leibniz equality is float equality; the
      rounding of IEEE doubles is not modelled.
    - A Python [dict] is an association list in insertion order, which is
      the iteration order of [dict.keys()] and [dict.items()].
    - [datetime.now()] is an explicit argument [now].
    - An exception is a value of [exn]; a call that may raise returns
      [outcome].
    - [print] has no effect on the result and is left out, except that the
      sequence of decisions printed by the loop is returned as a log. *)

From Stdlib Require Import Bool Arith Lia List ZArith QArith Qreduction Qround.
From Stdlib Require Import Ascii String DecimalString.
Import ListNotations.

Local Open Scope string_scope.
Local Open Scope bool_scope.
Local Open Scope nat_scope.

(** ** Python strings *)

Module PyStr.

Definition code (c : ascii) : nat := nat_of_ascii c.

Definition between (lo hi : nat) (c : ascii) : bool :=
  (lo <=? code c) && (code c <=? hi).

(** [str.isspace] on ASCII: tab, LF, VT, FF, CR, the separators
    0x1c..0x1f and the space. *)
Definition is_space (c : ascii) : bool :=
  between 9 13 c || between 28 32 c.

Definition is_digit (c : ascii) : bool := between 48 57 c.
Definition is_upper (c : ascii) : bool := between 65 90 c.
Definition is_lower (c : ascii) : bool := between 97 122 c.

(** [\w] on ASCII: letters, digits and the underscore.  On a [str]
    pattern Python's [\w] also has the letters and digits of the other
    scripts; inputs with such characters are outside the embedding. *)
Definition is_word (c : ascii) : bool :=
  is_digit c || is_upper c || is_lower c || (code c =? 95).

(** [str.upper] on one ASCII character.  Outside ASCII the upper case of
    a character can be several characters, some of them not in [\w]
    (U+01F0 gives "J" and the combining caron U+030C); the embedding does
    not cover such inputs, and a statement that depends on the classes
    names its ASCII domain. *)
Definition to_upper (c : ascii) : ascii :=
  if is_lower c then ascii_of_nat (code c - 32) else c.

Fixpoint map (f : ascii -> ascii) (s : string) : string :=
  match s with
  | EmptyString => EmptyString
  | String c s' => String (f c) (map f s')
  end.

Fixpoint forallb (p : ascii -> bool) (s : string) : bool :=
  match s with
  | EmptyString => true
  | String c s' => p c && forallb p s'
  end.

(** [s.upper()] *)
Definition upper (s : string) : string := map to_upper s.

Fixpoint lstrip (s : string) : string :=
  match s with
  | EmptyString => EmptyString
  | String c s' => if is_space c then lstrip s' else s
  end.

Fixpoint rstrip (s : string) : string :=
  match s with
  | EmptyString => EmptyString
  | String c s' =>
      match rstrip s' with
      | EmptyString => if is_space c then EmptyString else String c EmptyString
      | r => String c r
      end
  end.

(** [s.strip()] *)
Definition strip (s : string) : string := rstrip (lstrip s).

(** [not s.strip()] *)
Definition is_blank (s : string) : bool := String.eqb (strip s) "".

Fixpoint startswith (p s : string) : bool :=
  match p, s with
  | EmptyString, _ => true
  | String _ _, EmptyString => false
  | String a p', String b s' => Ascii.eqb a b && startswith p' s'
  end.

(** [sub in s] *)
Fixpoint contains (sub s : string) : bool :=
  startswith sub s ||
  match s with
  | EmptyString => false
  | String _ s' => contains sub s'
  end.

(** [sep.join(l)] *)
Fixpoint join (sep : string) (l : list string) : string :=
  match l with
  | [] => ""
  | [x] => x
  | x :: l' => x ++ sep ++ join sep l'
  end.

(** [x in l] for a list of strings *)
Definition mem (x : string) (l : list string) : bool :=
  existsb (String.eqb x) l.

(** The decimal numeral of a natural number, as [str(n)] prints it. *)
Definition of_N (n : N) : string := NilZero.string_of_uint (N.to_uint n).

Definition of_nat (n : nat) : string := of_N (N.of_nat n).

Fixpoint zeros (k : nat) (s : string) : string :=
  match k with
  | 0 => s
  | S k' => String "0" (zeros k' s)
  end.

(** A number padded with zeros to width [w], as [%Y], [%m] and [%d] print
    it. *)
Definition zfill (w n : nat) : string :=
  let s := of_nat n in zeros (w - String.length s) s.

End PyStr.

(** ** The regular expressions of the tools *)

Module Re.
Import PyStr.

(** [re.sub(r'\s+', ' ', s)]: every maximal run of whitespace becomes one
    space.  [in_run] tells that the previous character was whitespace. *)
Fixpoint sub_ws_from (in_run : bool) (s : string) : string :=
  match s with
  | EmptyString => EmptyString
  | String c s' =>
      if is_space c
      then if in_run then sub_ws_from true s'
           else String " " (sub_ws_from true s')
      else String c (sub_ws_from false s')
  end.

Definition sub_ws (s : string) : string := sub_ws_from false s.

(** The class [[\w\s\.\-:/]], on 7-bit ASCII: the ASCII letters and
    digits, the underscore, the ASCII whitespace and the four signs. *)
Definition kept (c : ascii) : bool :=
  is_word c || is_space c ||
  Ascii.eqb c "." || Ascii.eqb c "-" || Ascii.eqb c ":" || Ascii.eqb c "/".

(** [re.sub(r'[^\w\s\.\-:/]', ' ', s)] *)
Definition sub_special (s : string) : string :=
  map (fun c => if kept c then c else " "%char) s.

(** A match of [\d+\.?\d*]: the digits before the dot, and the digits
    after it. *)
Record number_match : Type := MkMatch {
  int_digits : list nat;
  frac_digits : list nat
}.

(** The scanner of [re.findall(r'\d+\.?\d*', s)]: leftmost matches, each
    one greedy.  Outside a match a digit opens one; inside the integer part
    digits extend it and a dot moves to the fraction; anything else closes
    the match. *)
Inductive scan_state : Type :=
| Outside
| InInt (ds : list nat)
| InFrac (ds fs : list nat).

Definition digit_val (c : ascii) : nat := code c - 48.

Fixpoint findall_from (st : scan_state) (s : string) : list number_match :=
  match s with
  | EmptyString =>
      match st with
      | Outside => []
      | InInt ds => [MkMatch ds []]
      | InFrac ds fs => [MkMatch ds fs]
      end
  | String c s' =>
      match st with
      | Outside =>
          if is_digit c then findall_from (InInt [digit_val c]) s'
          else findall_from Outside s'
      | InInt ds =>
          if is_digit c then findall_from (InInt (ds ++ [digit_val c])%list) s'
          else if Ascii.eqb c "." then findall_from (InFrac ds []) s'
          else MkMatch ds [] :: findall_from Outside s'
      | InFrac ds fs =>
          if is_digit c then findall_from (InFrac ds (fs ++ [digit_val c])%list) s'
          else MkMatch ds fs :: findall_from Outside s'
      end
  end.

Definition findall_numbers (s : string) : list number_match :=
  findall_from Outside s.

(** Patterns of fixed shape: a sequence of [\d] and literal characters. *)
Inductive atom : Type :=
| D
| C (c : ascii).

Fixpoint match_here (p : list atom) (s : string) : option string :=
  match p with
  | [] => Some ""
  | x :: p' =>
      match s with
      | EmptyString => None
      | String c s' =>
          let ok := match x with D => is_digit c | C d => Ascii.eqb c d end in
          if ok then
            match match_here p' s' with
            | Some m => Some (String c m)
            | None => None
            end
          else None
      end
  end.

Fixpoint first_match (alts : list (list atom)) (s : string) : option string :=
  match alts with
  | [] => None
  | p :: alts' =>
      match match_here p s with
      | Some m => Some m
      | None => first_match alts' s
      end
  end.

(** [re.search]: the leftmost position at which one of the alternatives
    matches, the alternatives tried in backtracking order. *)
Fixpoint search (alts : list (list atom)) (s : string) : option string :=
  match first_match alts s with
  | Some m => Some m
  | None =>
      match s with
      | EmptyString => None
      | String _ s' => search alts s'
      end
  end.

End Re.

(** ** [difflib.SequenceMatcher(None, a, b).ratio()]

    The library's algorithm with [isjunk = None] and [autojunk = True]:
    when [b] has 200 characters or more, the characters that occur more
    than [len(b) // 100 + 1] times are "popular" and are left out of the
    index [b2j]; a match never starts on them and is only extended over
    them. *)

Module Difflib.

Section Matcher.

Variables a b : list ascii.

Definition count_of (c : ascii) : nat :=
  List.length (List.filter (Ascii.eqb c) b).

Definition popular (c : ascii) : bool :=
  (200 <=? List.length b) && (List.length b / 100 + 1 <? count_of c).

Definition at_a (i : nat) : ascii := nth i a zero.
Definition at_b (j : nat) : ascii := nth j b zero.

(** One pass of the inner loop of [find_longest_match] for the element
    [ai]: [newj2len[j] = j2len.get(j-1, 0) + 1] for each [j] of
    [b2j[ai]] with [blo <= j < bhi].  The table [j2len] is a list over the
    positions of [b], with 0 for an absent key; [prev] is that list moved
    by one place, its head being [j2len.get(j-1, 0)]. *)
Fixpoint row (blo bhi : nat) (ai : ascii) (j : nat) (bs : list ascii)
    (prev : list nat) : list nat :=
  match bs with
  | [] => []
  | bj :: bs' =>
      (if (blo <=? j) && (j <? bhi) && Ascii.eqb ai bj && negb (popular ai)
       then S (hd 0 prev) else 0)
      :: row blo bhi ai (S j) bs' (tl prev)
  end.

(** [if k > bestsize: besti, bestj, bestsize = i-k+1, j-k+1, k], for the
    entries of one row in increasing [j]. *)
Fixpoint update_best (i j : nat) (ks : list nat) (best : nat * nat * nat)
    : nat * nat * nat :=
  match ks with
  | [] => best
  | k :: ks' =>
      let '(_, _, bestsize) := best in
      update_best i (S j) ks'
        (if bestsize <? k then (i + 1 - k, j + 1 - k, k) else best)
  end.

(** The outer loop [for i in range(alo, ahi)]; [n] counts the remaining
    iterations. *)
Fixpoint scan (blo bhi : nat) (n i : nat) (j2len : list nat)
    (best : nat * nat * nat) : nat * nat * nat :=
  match n with
  | 0 => best
  | S n' =>
      let newj2len := row blo bhi (at_a i) 0 b (0 :: j2len) in
      scan blo bhi n' (S i) newj2len (update_best i 0 newj2len best)
  end.

(** [while besti > alo and bestj > blo and a[besti-1] == b[bestj-1]] *)
Fixpoint extend_back (alo blo : nat) (besti bestj bestsize : nat)
    : nat * nat * nat :=
  match besti with
  | 0 => (besti, bestj, bestsize)
  | S i' =>
      if (alo <? besti) && (blo <? bestj)
         && Ascii.eqb (at_a i') (at_b (bestj - 1))
      then extend_back alo blo i' (bestj - 1) (S bestsize)
      else (besti, bestj, bestsize)
  end.

(** [while besti+bestsize < ahi and bestj+bestsize < bhi and
     a[besti+bestsize] == b[bestj+bestsize]]; [n] is
    [ahi - (besti+bestsize)]. *)
Fixpoint extend_fwd (bhi : nat) (n : nat) (besti bestj bestsize : nat) : nat :=
  match n with
  | 0 => bestsize
  | S n' =>
      if (bestj + bestsize <? bhi)
         && Ascii.eqb (at_a (besti + bestsize)) (at_b (bestj + bestsize))
      then extend_fwd bhi n' besti bestj (S bestsize)
      else bestsize
  end.

(** [find_longest_match(alo, ahi, blo, bhi)].  The two loops over junk
    elements do nothing, since [isjunk] is [None]. *)
Definition find_longest_match (alo ahi blo bhi : nat) : nat * nat * nat :=
  let '(i0, j0, k0) := scan blo bhi (ahi - alo) alo [] (alo, blo, 0) in
  let '(i1, j1, k1) := extend_back alo blo i0 j0 k0 in
  (i1, j1, extend_fwd bhi (ahi - (i1 + k1)) i1 j1 k1).

(** The sum of the sizes of the blocks of [get_matching_blocks]: the
    longest match of the range, then the ranges on its left and on its
    right.  The queue of the library is a recursion here; [fuel] bounds its
    depth. *)
Fixpoint matches (fuel : nat) (alo ahi blo bhi : nat) : nat :=
  match fuel with
  | 0 => 0
  | S fuel' =>
      let '(i, j, k) := find_longest_match alo ahi blo bhi in
      if k =? 0 then 0
      else
        k
        + (if (alo <? i) && (blo <? j) then matches fuel' alo i blo j else 0)
        + (if (i + k <? ahi) && (j + k <? bhi)
           then matches fuel' (i + k) ahi (j + k) bhi else 0)
  end.

End Matcher.

(** [ratio()]: [2.0 * matches / (len(a) + len(b))], and 1.0 for two empty
    sequences. *)
Definition ratio (x y : string) : Q :=
  let a := list_ascii_of_string x in
  let b := list_ascii_of_string y in
  let la := List.length a in
  let lb := List.length b in
  if la + lb =? 0 then 1%Q
  else
    Qred (Z.of_nat (2 * matches a b (S la) 0 la 0 lb)
          # Pos.of_nat (la + lb)).

End Difflib.

(** ** Python values shared by the two agents *)

Module Py.

(** The exceptions the pipeline can raise. *)
Inductive exn : Type :=
| ValueError (msg : string)
| TypeError (msg : string).

(** [str(e)] *)
Definition str_of_exn (e : exn) : string :=
  match e with
  | ValueError msg => msg
  | TypeError msg => msg
  end.

Inductive outcome (A : Type) : Type :=
| Return (a : A)
| Raise (e : exn).

Arguments Return {A} a.
Arguments Raise {A} e.

Definition bind {A B : Type} (m : outcome A) (f : A -> outcome B)
    : outcome B :=
  match m with
  | Return a => f a
  | Raise e => Raise e
  end.

(** The value of an [and] chain that starts with a string or [None]. *)
Inductive value : Type :=
| PyNone
| PyBool (b : bool)
| PyStr (s : string).

(** Truth value testing. *)
Definition truthy (v : value) : bool :=
  match v with
  | PyNone => false
  | PyBool b => b
  | PyStr s => negb (String.eqb s "")
  end.

Definition Qlt_bool (x y : Q) : bool := negb (Qle_bool y x).

(** [float(s)] for a match of [\d+\.?\d*]. *)
Definition digits_value (ds : list nat) : Z :=
  fold_left (fun acc d => (10 * acc + Z.of_nat d)%Z) ds 0%Z.

Definition float_of_match (m : Re.number_match) : Q :=
  Qred (digits_value (Re.int_digits m ++ Re.frac_digits m)%list
        # Z.to_pos (10 ^ Z.of_nat (List.length (Re.frac_digits m)))).

(** [repr(x)] of a non-negative float, in positional notation: the integer
    part, a dot, and the digits of the fraction ("0" when there are none).
    Python prints the same text for a value of at most 15 significant
    digits between 1e-4 and 1e16, and switches to the shortest round-trip
    digits or to exponent notation outside. *)
Fixpoint fraction_digits (fuel : nat) (r d : Z) : string :=
  match fuel with
  | 0 => ""
  | S fuel' =>
      if (r =? 0)%Z then ""
      else
        String (ascii_of_nat (48 + Z.to_nat (10 * r / d)))
               (fraction_digits fuel' ((10 * r) mod d)%Z d)
  end.

Definition repr_float (x : Q) : string :=
  let n := Qnum x in
  let d := Zpos (Qden x) in
  let r := (n mod d)%Z in
  PyStr.of_N (Z.to_N (n / d)) ++ "." ++
  (if (r =? 0)%Z then "0" else fraction_digits (Pos.size_nat (Qden x)) r d).

(** [f"{x}"] of an optional value: [None] prints as "None". *)
Definition format_opt {A : Type} (f : A -> string) (x : option A) : string :=
  match x with
  | None => "None"
  | Some a => f a
  end.

(** [max(l)] of a non-empty list; the first of equal maxima is kept. *)
Definition max_list (x : Q) (l : list Q) : Q :=
  fold_left (fun m y => if Qlt_bool m y then y else m) l x.

(** [round(x, 2)], half to even. *)
Definition round2 (x : Q) : Q :=
  let y := (x * 100)%Q in
  let f := Qfloor y in
  let r := (y - inject_Z f)%Q in
  let up :=
    match Qcompare r (1 # 2) with
    | Gt => true
    | Eq => Z.odd f
    | Lt => false
    end in
  Qred ((if up then f + 1 else f)%Z # 100).

(** A [datetime], of which the tools use the date only. *)
Record datetime : Type := MkDate {
  year : nat;
  month : nat;
  day : nat
}.

Definition is_leap (y : nat) : bool :=
  ((y mod 4 =? 0) && negb (y mod 100 =? 0)) || (y mod 400 =? 0).

Definition days_in_month (y m : nat) : nat :=
  match m with
  | 2 => if is_leap y then 29 else 28
  | 4 | 6 | 9 | 11 => 30
  | _ => 31
  end.

Definition valid_date (d : datetime) : bool :=
  (1 <=? month d) && (month d <=? 12) &&
  (1 <=? day d) && (day d <=? days_in_month (year d) (month d)).

(** [d.replace(day=v)]: [ValueError] unless [v] is a day of the month. *)
Definition replace_day (d : datetime) (v : nat) : outcome datetime :=
  if (1 <=? v) && (v <=? days_in_month (year d) (month d))
  then Return (MkDate (year d) (month d) v)
  else Raise (ValueError "day is out of range for month").

(** [d.strftime('%Y-%m-%d')] *)
Definition strftime (d : datetime) : string :=
  PyStr.zfill 4 (year d) ++ "-" ++ PyStr.zfill 2 (month d) ++ "-"
  ++ PyStr.zfill 2 (day d).

End Py.

(** ** The tool functions of [water_meter_agent.py] *)

Module Tools.
Import PyStr Re Py.

Definition clean_text_tool (raw_text : string) : string :=
  let cleaned := sub_ws (strip raw_text) in
  let cleaned := sub_special cleaned in
  upper cleaned.

Definition extract_numbers_tool (text : string) : list Q :=
  let matches := findall_numbers text in
  List.map float_of_match matches.

(** The loop of [fuzzy_match_tool] over [dictionary.keys()]. *)
Fixpoint fuzzy_match_loop (text : string) (threshold : Q)
    (keys : list string) (best_match : option string) (best_score : Q)
    : option string :=
  match keys with
  | [] => best_match
  | key :: keys' =>
      if contains key text then Some key
      else
        let score := Difflib.ratio key text in
        if Qlt_bool best_score score && Qle_bool threshold score
        then fuzzy_match_loop text threshold keys' (Some key) score
        else fuzzy_match_loop text threshold keys' best_match best_score
  end.

Definition fuzzy_match_tool (text : string)
    (dictionary : list (string * string)) : option string :=
  fuzzy_match_loop text (6 # 10) (List.map fst dictionary) None 0.

Definition unit_map : list (string * string) :=
  [ ("CU M", "cubic_meters");
    ("CUBIC M", "cubic_meters");
    ("M3", "cubic_meters");
    ("CUBIC METER", "cubic_meters");
    ("CUBIC METERS", "cubic_meters");
    ("GAL", "gallons");
    ("GALLON", "gallons");
    ("GALLONS", "gallons");
    ("L", "liters");
    ("LITER", "liters");
    ("LITERS", "liters") ].

Fixpoint first_variant (items : list (string * string)) (text : string)
    : option string :=
  match items with
  | [] => None
  | (variant, standard) :: items' =>
      if contains variant text then Some standard
      else first_variant items' text
  end.

Definition standardize_unit_tool (text : string) : string :=
  match first_variant unit_map text with
  | Some standard => standard
  | None => "cubic_meters"
  end.

Definition ranges : list (string * (Q * Q * string)) :=
  [ ("cubic_meters", (0, 1000, "Typical home usage: 0-1000 cubic meters"));
    ("gallons", (0, 264000, "Typical home usage: 0-264,000 gallons"));
    ("liters", (0, 1000000, "Typical home usage: 0-1,000,000 liters")) ]%Q.

Fixpoint lookup {A : Type} (key : string) (d : list (string * A))
    : option A :=
  match d with
  | [] => None
  | (k, v) :: d' => if String.eqb k key then Some v else lookup key d'
  end.

Definition validate_range_tool (value : Q) (unit_ : string)
    : bool * string :=
  match lookup unit_ ranges with
  | None => (true, "Unknown unit '" ++ unit_ ++ "' - cannot validate range")
  | Some (min_val, max_val, description) =>
      let is_valid := Qle_bool min_val value && Qle_bool value max_val in
      if is_valid
      then (true, "Value " ++ repr_float value ++ " " ++ unit_
                  ++ " is within expected range")
      else (false, "Value " ++ repr_float value ++ " " ++ unit_
                   ++ " is outside expected range (" ++ description ++ ")")
  end.

Definition d4 : list atom := [D; D; D; D].
Definition d2 : list atom := [D; D].
Definition d1 : list atom := [D].
Definition dash : list atom := [C "-"].
Definition slash : list atom := [C "/"].

(** The four patterns; the third, [\d{1,2}/\d{1,2}/\d{4}], is the list of
    its shapes in the order in which the greedy quantifiers try them. *)
Definition patterns : list (list (list atom)) :=
  [ [ d4 ++ dash ++ d2 ++ dash ++ d2 ];
    [ d2 ++ slash ++ d2 ++ slash ++ d4 ];
    [ d2 ++ slash ++ d2 ++ slash ++ d4;
      d2 ++ slash ++ d1 ++ slash ++ d4;
      d1 ++ slash ++ d2 ++ slash ++ d4;
      d1 ++ slash ++ d1 ++ slash ++ d4 ];
    [ d2 ++ dash ++ d2 ++ dash ++ d4 ] ]%list.

Fixpoint first_pattern (ps : list (list (list atom))) (text : string)
    : option string :=
  match ps with
  | [] => None
  | pattern :: ps' =>
      match search pattern text with
      | Some m => Some m
      | None => first_pattern ps' text
      end
  end.

Definition parse_date_tool (now : datetime) (text : string)
    : outcome string :=
  match first_pattern patterns text with
  | Some m => Return m
  | None =>
      if contains "TODAY" text then Return (strftime now)
      else if contains "YESTERDAY" text then
        bind (replace_day now (day now - 1))
             (fun d => Return (strftime d))
      else Return (strftime now)
  end.

End Tools.

(** ** What the two agents share: the knowledge base, the actions, the
    parsing state and the result *)

Module Agent.
Import PyStr Py.

Definition meter_tags : list (string * string) :=
  [ ("WM001", "Kitchen Water Meter");
    ("WM002", "Bathroom Water Meter");
    ("WM003", "Garden Water Meter");
    ("WM004", "Main Water Supply");
    ("WM005", "Hot Water Heater") ].

Definition name_to_tag : list (string * string) :=
  [ ("KITCHEN", "WM001");
    ("BATH", "WM002");
    ("BATHROOM", "WM002");
    ("GARDEN", "WM003");
    ("YARD", "WM003");
    ("MAIN", "WM004");
    ("SUPPLY", "WM004");
    ("HEATER", "WM005");
    ("HOT", "WM005") ].

(** The action names that [_think] returns and the loop compares. *)
Inductive action : Type :=
| CLEAN_TEXT
| IDENTIFY_METER
| EXTRACT_READING
| IDENTIFY_UNIT
| PARSE_DATE
| VALIDATE
| COMPLETE
| FAIL.

Definition action_eqb (x y : action) : bool :=
  match x, y with
  | CLEAN_TEXT, CLEAN_TEXT | IDENTIFY_METER, IDENTIFY_METER
  | EXTRACT_READING, EXTRACT_READING | IDENTIFY_UNIT, IDENTIFY_UNIT
  | PARSE_DATE, PARSE_DATE | VALIDATE, VALIDATE
  | COMPLETE, COMPLETE | FAIL, FAIL => true
  | _, _ => false
  end.

(** The dict [state] of [parse_reading].  The key ['unit'] is the field
    [unit_]; [tool_calls] exists in the local LangChain-style agent only
    and stays empty in the other. *)
Record state : Type := MkState {
  raw_input : string;
  cleaned_text : option string;
  meter_tag : option string;
  reading_value : option Q;
  unit_ : option string;
  date : option string;
  warnings : list string;
  confidence : Q;
  tool_calls : list (string * string * string)
}.

Definition initial_state (raw : string) : state :=
  MkState raw None None None None None [] 0 [].

Definition set_cleaned_text (st : state) (v : string) : state :=
  MkState (raw_input st) (Some v) (meter_tag st) (reading_value st)
          (unit_ st) (date st) (warnings st) (confidence st) (tool_calls st).

Definition set_meter_tag (st : state) (v : string) : state :=
  MkState (raw_input st) (cleaned_text st) (Some v) (reading_value st)
          (unit_ st) (date st) (warnings st) (confidence st) (tool_calls st).

Definition set_reading_value (st : state) (v : Q) : state :=
  MkState (raw_input st) (cleaned_text st) (meter_tag st) (Some v)
          (unit_ st) (date st) (warnings st) (confidence st) (tool_calls st).

Definition set_unit (st : state) (v : string) : state :=
  MkState (raw_input st) (cleaned_text st) (meter_tag st) (reading_value st)
          (Some v) (date st) (warnings st) (confidence st) (tool_calls st).

Definition set_date (st : state) (v : string) : state :=
  MkState (raw_input st) (cleaned_text st) (meter_tag st) (reading_value st)
          (unit_ st) (Some v) (warnings st) (confidence st) (tool_calls st).

Definition set_warnings (st : state) (ws : list string) : state :=
  MkState (raw_input st) (cleaned_text st) (meter_tag st) (reading_value st)
          (unit_ st) (date st) ws (confidence st) (tool_calls st).

(** [state['warnings'].append(w)] *)
Definition add_warning (st : state) (w : string) : state :=
  set_warnings st (warnings st ++ [w])%list.

(** [state['confidence'] += x] *)
Definition add_confidence (st : state) (x : Q) : state :=
  MkState (raw_input st) (cleaned_text st) (meter_tag st) (reading_value st)
          (unit_ st) (date st) (warnings st) (Qred (confidence st + x))
          (tool_calls st).

(** [state['tool_calls'].append(call)] *)
Definition add_tool_call (st : state) (call : string * string * string)
    : state :=
  MkState (raw_input st) (cleaned_text st) (meter_tag st) (reading_value st)
          (unit_ st) (date st) (warnings st) (confidence st)
          (tool_calls st ++ [call])%list.

(** The text a tool is given; a tool called on [None] raises (the text of
    the message plays no role). *)
Definition text_of (st : state) : outcome string :=
  match cleaned_text st with
  | Some text => Return text
  | None => Raise (TypeError "expected string or bytes-like object")
  end.

(** The part of the result dict that both agents build. *)
Record result : Type := MkResult {
  success : value;
  result_confidence : Q;
  meter_tag_of : option string;
  meter_description : string;
  reading_value_of : option Q;
  reading_unit : option string;
  reading_date : option string;
  result_warnings : list string;
  result_raw_input : string
}.

(** [state['meter_tag'] and state['meter_tag'] != 'UNKNOWN'
     and state['reading_value'] is not None
     and state['reading_value'] > 0] *)
Definition success_of (tag : option string) (v : option Q) : value :=
  match tag with
  | None => PyNone
  | Some t =>
      if String.eqb t "" then PyStr ""
      else if String.eqb t "UNKNOWN" then PyBool false
      else
        match v with
        | None => PyBool false
        | Some x => PyBool (Qlt_bool 0 x)
        end
  end.

(** [self.meter_tags.get(state['meter_tag'], 'Unknown Meter')] *)
Definition description_of (tag : option string) : string :=
  match tag with
  | None => "Unknown Meter"
  | Some t =>
      match Tools.lookup t meter_tags with
      | Some d => d
      | None => "Unknown Meter"
      end
  end.

Definition _generate_result (st : state) : result :=
  MkResult (success_of (meter_tag st) (reading_value st))
           (round2 (confidence st)) (meter_tag st)
           (description_of (meter_tag st)) (reading_value st) (unit_ st)
           (date st) (warnings st) (raw_input st).

(** [max(numbers) if len(numbers) > 1 else numbers[0]], for a non-empty
    list [x :: rest]. *)
Definition choose_reading (x : Q) (rest : list Q) : Q :=
  if 1 <? List.length (x :: rest) then max_list x rest else x.

(** [f"{meter_tag}_{reading_value}_{date}"] *)
Definition reading_signature (tag : option string) (v : option Q)
    (d : option string) : string :=
  format_opt (fun s => s) tag ++ "_" ++ format_opt repr_float v ++ "_"
  ++ format_opt (fun s => s) d.

(** [self.parsing_history[-50:]] *)
Definition last50 (h : list string) : list string :=
  skipn (List.length h - 50) h.

(** The [else] branch of the duplicate check: append the signature and
    keep the history manageable. *)
Definition remember (h : list string) (sig : string) : list string :=
  let h' := (h ++ [sig])%list in
  if 100 <? List.length h' then last50 h' else h'.

End Agent.

(** ** [water_meter_agent.py]: class [WaterMeterAgent] *)

Module WaterMeterAgent.
Import PyStr Py Tools Agent.

(** The instance.  [meter_tags] and [name_to_tag] are never assigned after
    [__init__]; [parsing_history] is the mutable attribute. *)
Record agent : Type := MkAgent {
  parsing_history : list string
}.

(** [WaterMeterAgent()] *)
Definition new : agent := MkAgent [].

Definition _think (st : state) : action :=
  match cleaned_text st with
  | None => CLEAN_TEXT
  | Some text =>
      match meter_tag st with
      | None =>
          if is_blank text then FAIL else IDENTIFY_METER
      | Some _ =>
          match reading_value st with
          | None => EXTRACT_READING
          | Some _ =>
              match unit_ st with
              | None => IDENTIFY_UNIT
              | Some _ =>
                  match date st with
                  | None => PARSE_DATE
                  | Some _ => VALIDATE
                  end
              end
          end
      end
  end.

(** [validate_range_tool(state['reading_value'], state['unit'])] on the
    optional fields: a unit that is not a key of [ranges] is reported
    before the value is looked at; comparing [None] raises. *)
Definition validate_call (v : option Q) (u : option string)
    : outcome (bool * string) :=
  let unit_text := format_opt (fun s => s) u in
  match v with
  | Some x => Return (validate_range_tool x unit_text)
  | None =>
      match lookup unit_text ranges with
      | None => Return (validate_range_tool 0 unit_text)
      | Some _ =>
          Raise (TypeError "'<=' not supported between 'int' and 'NoneType'")
      end
  end.

(** The two lookups of the IDENTIFY_METER branch: the tags, and
    [if not tag] the names.  What is found is a key of the dictionary that
    was searched. *)
Definition find_tag (text : string) : option string :=
  match fuzzy_match_tool text meter_tags with
  | Some tag => Some tag
  | None => fuzzy_match_tool text name_to_tag
  end.

Definition _act (now : datetime) (self : agent) (st : state)
    (decision : action) : outcome (agent * state) :=
  match decision with
  | CLEAN_TEXT =>
      let result := clean_text_tool (raw_input st) in
      Return (self, set_cleaned_text st result)
  | IDENTIFY_METER =>
      bind (text_of st) (fun text =>
        match find_tag text with
        | Some t =>
            Return (self, add_confidence (set_meter_tag st t) (3 # 10))
        | None =>
            Return (self, add_warning (set_meter_tag st "UNKNOWN")
                            "Could not identify meter tag")
        end)
  | EXTRACT_READING =>
      bind (text_of st) (fun text =>
        let numbers := extract_numbers_tool text in
        match numbers with
        | x :: rest =>
            let reading := choose_reading x rest in
            Return (self, add_confidence (set_reading_value st reading)
                            (4 # 10))
        | [] =>
            Return (self, add_warning (set_reading_value st 0)
                            "No numeric reading detected")
        end)
  | IDENTIFY_UNIT =>
      bind (text_of st) (fun text =>
        let unit_ := standardize_unit_tool text in
        Return (self, add_confidence (set_unit st unit_) (2 # 10)))
  | PARSE_DATE =>
      bind (text_of st) (fun text =>
        bind (parse_date_tool now text) (fun date =>
          Return (self, add_confidence (set_date st date) (1 # 10))))
  | VALIDATE =>
      bind (validate_call (reading_value st) (unit_ st))
        (fun '(is_valid, message) =>
          let st := if negb is_valid then add_warning st message else st in
          let signature :=
            reading_signature (meter_tag st) (reading_value st) (date st) in
          if mem signature (parsing_history self)
          then Return (self, add_warning st "Potential duplicate reading")
          else Return (MkAgent (remember (parsing_history self) signature),
                       st))
  | COMPLETE | FAIL => Return (self, st)
  end.

(** What a call leaves behind: the instance after the call, the decisions
    of [_think] in the order the loop printed them, and the value returned
    or the exception that left the call. *)
Record run : Type := MkRun {
  self_after : agent;
  decisions : list action;
  returned : outcome result
}.

(** The loop [for step in range(1, max_steps + 1)]; [steps] counts the
    iterations that remain. *)
Fixpoint react_loop (now : datetime) (steps : nat) (self : agent)
    (st : state) (log : list action) : agent * list action * outcome state :=
  match steps with
  | 0 => (self, log, Return st)
  | S steps' =>
      let decision := _think st in
      let log := (log ++ [decision])%list in
      match decision with
      | COMPLETE => (self, log, Return st)
      | FAIL =>
          (self, log,
           Return (add_warning st "Parsing failed - insufficient data"))
      | _ =>
          match _act now self st decision with
          | Return (self', st') => react_loop now steps' self' st' log
          | Raise e => (self, log, Raise e)
          end
      end
  end.

Definition max_steps : nat := 8.

Definition parse_reading (now : datetime) (self : agent)
    (raw_input : string) : run :=
  let '(self', log, out) :=
    react_loop now max_steps self (initial_state raw_input) [] in
  MkRun self' log (bind out (fun st => Return (_generate_result st))).

End WaterMeterAgent.

(** ** [local_langchain_style_agent.py]: class [LocalLangChainStyleAgent] *)

Module LocalLangChainStyleAgent.
Import PyStr Py Tools Agent.

Record agent : Type := MkAgent {
  parsing_history : list string
}.

(** [LocalLangChainStyleAgent()] *)
Definition new : agent := MkAgent [].

(** The [run] methods of [CleanTextTool], [StandardizeUnitTool] and
    [ParseDateTool] have the bodies of the tool functions of the same
    names. *)
Definition CleanTextTool_run : string -> string := clean_text_tool.
Definition StandardizeUnitTool_run : string -> string := standardize_unit_tool.
Definition ParseDateTool_run : datetime -> string -> outcome string :=
  parse_date_tool.

(** [json.dumps(numbers)] for a list of floats *)
Definition json_dumps (numbers : list Q) : string :=
  "[" ++ join ", " (List.map repr_float numbers) ++ "]".

(** [ExtractNumbersTool.run]: the numbers, and the JSON text that the
    tool returns and that [_act] reads back with [json.loads]. *)
Definition ExtractNumbersTool_run (text : string) : list Q * string :=
  let numbers := extract_numbers_tool text in
  (numbers, json_dumps numbers).

Fixpoint first_key_in (keys : list string) (text : string) : option string :=
  match keys with
  | [] => None
  | key :: keys' =>
      if contains key text then Some key else first_key_in keys' text
  end.

(** The two loops [if score > best_score and score >= threshold]; [image]
    is what is stored for a key: the key itself for the tags, and
    [name_to_tag[name]] for the names. *)
Fixpoint best_fuzzy (image : string -> string) (keys : list string)
    (text : string) (best_match : option string) (best_score : Q)
    : option string * Q :=
  match keys with
  | [] => (best_match, best_score)
  | key :: keys' =>
      let score := Difflib.ratio key text in
      if Qlt_bool best_score score && Qle_bool (6 # 10) score
      then best_fuzzy image keys' text (Some (image key)) score
      else best_fuzzy image keys' text best_match best_score
  end.

Definition tag_of_name (name : string) : string :=
  match lookup name name_to_tag with
  | Some tag => tag
  | None => name
  end.

Definition MeterIdentificationTool_run (text : string) : string :=
  match first_key_in (List.map fst meter_tags) text with
  | Some tag => tag
  | None =>
      let '(best_match, best_score) :=
        best_fuzzy (fun tag => tag) (List.map fst meter_tags) text None 0 in
      match best_match with
      | Some tag => tag
      | None =>
          match first_key_in (List.map fst name_to_tag) text with
          | Some name => tag_of_name name
          | None =>
              let '(best_match, _) :=
                best_fuzzy tag_of_name (List.map fst name_to_tag) text
                           best_match best_score in
              match best_match with
              | Some tag => tag
              | None => "UNKNOWN"
              end
          end
      end
  end.

(** [ValidateRangeTool.run(f"{reading_value},{unit}")].  The tool splits
    the text at the comma and reads the value back with [float]; it is
    given here the two values that were formatted.  [float("None")] fails
    and the bare [except] answers "INVALID_FORMAT". *)
Definition ValidateRangeTool_run (v : option Q) (u : option string)
    : string :=
  match v with
  | None => "INVALID_FORMAT"
  | Some value =>
      match lookup (format_opt (fun s => s) u) ranges with
      | None => "UNKNOWN_UNIT"
      | Some (min_val, max_val, _) =>
          if Qle_bool min_val value && Qle_bool value max_val
          then "VALID" else "OUT_OF_RANGE"
      end
  end.

Definition _think (st : state) : action :=
  match cleaned_text st with
  | None => CLEAN_TEXT
  | Some text =>
      match meter_tag st with
      | None =>
          if is_blank text then FAIL else IDENTIFY_METER
      | Some _ =>
          match reading_value st with
          | None => EXTRACT_READING
          | Some _ =>
              match unit_ st with
              | None => IDENTIFY_UNIT
              | Some _ =>
                  match date st with
                  | None => PARSE_DATE
                  | Some _ =>
                      if negb (existsb
                                 (fun call =>
                                    contains "validate_range" (fst (fst call)))
                                 (tool_calls st))
                      then VALIDATE
                      else COMPLETE
                  end
              end
          end
      end
  end.

Definition _act (now : datetime) (st : state) (action : action)
    : outcome state :=
  match action with
  | CLEAN_TEXT =>
      let result := CleanTextTool_run (raw_input st) in
      let st := set_cleaned_text st result in
      Return (add_tool_call st ("clean_text", raw_input st, result))
  | IDENTIFY_METER =>
      bind (text_of st) (fun text =>
        let result := MeterIdentificationTool_run text in
        let st := set_meter_tag st result in
        let st :=
          if negb (String.eqb result "UNKNOWN")
          then add_confidence st (3 # 10)
          else add_warning st "Could not identify meter tag" in
        Return (add_tool_call st ("identify_meter", text, result)))
  | EXTRACT_READING =>
      bind (text_of st) (fun text =>
        let '(numbers, result) := ExtractNumbersTool_run text in
        let st :=
          match numbers with
          | x :: rest =>
              let reading := choose_reading x rest in
              add_confidence (set_reading_value st reading) (4 # 10)
          | [] =>
              add_warning (set_reading_value st 0)
                          "No numeric reading detected"
          end in
        Return (add_tool_call st ("extract_numbers", text, result)))
  | IDENTIFY_UNIT =>
      bind (text_of st) (fun text =>
        let result := StandardizeUnitTool_run text in
        let st := add_confidence (set_unit st result) (2 # 10) in
        Return (add_tool_call st ("standardize_unit", text, result)))
  | PARSE_DATE =>
      bind (text_of st) (fun text =>
        bind (ParseDateTool_run now text) (fun result =>
          let st := add_confidence (set_date st result) (1 # 10) in
          Return (add_tool_call st ("parse_date", text, result))))
  | VALIDATE =>
      let value_text := format_opt repr_float (reading_value st) in
      let unit_text := format_opt (fun s => s) (unit_ st) in
      let validation_input := value_text ++ "," ++ unit_text in
      let result := ValidateRangeTool_run (reading_value st) (unit_ st) in
      let st :=
        if String.eqb result "OUT_OF_RANGE"
        then add_warning st ("Reading " ++ value_text ++ " " ++ unit_text
                             ++ " is outside expected range")
        else if String.eqb result "UNKNOWN_UNIT"
        then add_warning st ("Unknown unit " ++ unit_text
                             ++ " - cannot validate range")
        else st in
      Return (add_tool_call st ("validate_range", validation_input, result))
  | COMPLETE | FAIL => Return st
  end.

(** [_execute_react_loop] *)
Fixpoint _execute_react_loop (now : datetime) (steps : nat) (st : state)
    (log : list action) : list action * outcome state :=
  match steps with
  | 0 => (log, Return st)
  | S steps' =>
      let action := _think st in
      let log := (log ++ [action])%list in
      match action with
      | COMPLETE => (log, Return st)
      | FAIL =>
          (log, Return (add_warning st "Parsing failed - insufficient data"))
      | _ =>
          match _act now st action with
          | Return st' => _execute_react_loop now steps' st' log
          | Raise e => (log, Raise e)
          end
      end
  end.

Definition max_steps : nat := 8.

Definition available_tools : list string :=
  [ "clean_text"; "extract_numbers"; "identify_meter"; "standardize_unit";
    "validate_range"; "parse_date" ].

(** The dict of [_generate_result]: the fields of [result] and the four
    keys this agent adds. *)
Record full_result : Type := MkFull {
  base : result;
  processing_method : string;
  n_tool_calls : nat;
  execution_trace : list (string * string * string);
  tools : list string
}.

(** The dict that [parse_reading] returns: the one of [_generate_result],
    or the one of the [except] branch, which has the keys ['success'],
    ['error'], ['raw_input'] and ['processing_method'] only. *)
Inductive parse_result : Type :=
| Parsed (r : full_result)
| Fault (success : value) (error : string) (raw_input : string)
        (processing_method : string).

Definition _generate_result (st : state) : full_result :=
  MkFull (Agent._generate_result st) "local_langchain_style"
         (List.length (tool_calls st)) (tool_calls st) available_tools.

(** [result.setdefault('warnings', []).append(w)] *)
Definition with_warning (r : full_result) (w : string) : full_result :=
  let b := base r in
  MkFull (MkResult (success b) (result_confidence b) (meter_tag_of b)
                   (meter_description b) (reading_value_of b)
                   (reading_unit b) (reading_date b)
                   (result_warnings b ++ [w])%list (result_raw_input b))
         (processing_method r) (n_tool_calls r) (execution_trace r)
         (tools r).

(** [_check_duplicates(result)]: the result and the instance after it. *)
Definition _check_duplicates (self : agent) (r : full_result)
    : agent * full_result :=
  if truthy (success (base r)) then
    let signature :=
      reading_signature (meter_tag_of (base r)) (reading_value_of (base r))
                        (reading_date (base r)) in
    if mem signature (parsing_history self)
    then (self, with_warning r "Potential duplicate reading")
    else (MkAgent (remember (parsing_history self) signature), r)
  else (self, r).

Record run : Type := MkRun {
  self_after : agent;
  decisions : list action;
  returned : parse_result
}.

(** [parse_reading]: the body of the [try], and the [except Exception]
    that turns a fault into a result. *)
Definition parse_reading (now : datetime) (self : agent)
    (raw_input : string) : run :=
  let '(log, out) :=
    _execute_react_loop now max_steps (initial_state raw_input) [] in
  match out with
  | Return st =>
      let result := _generate_result st in
      let '(self', result) := _check_duplicates self result in
      MkRun self' log (Parsed result)
  | Raise e =>
      MkRun self log
            (Fault (PyBool false) (str_of_exn e) raw_input
                   "local_langchain_style")
  end.

End LocalLangChainStyleAgent.


(** * Properties *)

Import PyStr Re Py Tools Agent.

(** ** Characters *)

Ltac by_cases_on_char c :=
  destruct c as [[] [] [] [] [] [] [] []]; reflexivity.

Lemma is_space_to_upper (c : ascii) : is_space (to_upper c) = is_space c.
Proof. by_cases_on_char c. Qed.

Lemma kept_to_upper (c : ascii) : kept (to_upper c) = kept c.
Proof. by_cases_on_char c. Qed.

Lemma to_upper_involutive (c : ascii) : to_upper (to_upper c) = to_upper c.
Proof. by_cases_on_char c. Qed.

Lemma is_space_kept (c : ascii) : is_space c = true -> kept c = true.
Proof.
  unfold kept. intros ->. rewrite orb_true_r. reflexivity.
Qed.

(** ** Stripping and collapsing whitespace *)

Lemma lstrip_length (s : string) : String.length (lstrip s) <= String.length s.
Proof.
  induction s as [|c s IH]; simpl; [lia|].
  destruct (is_space c); simpl; lia.
Qed.

Lemma lstrip_fixed_head (c : ascii) (s : string) :
  lstrip (String c s) = String c s -> is_space c = false.
Proof.
  simpl. destruct (is_space c); [|reflexivity].
  intros H. pose proof (lstrip_length s) as L.
  rewrite H in L. simpl in L. lia.
Qed.

Lemma lstrip_idempotent (s : string) : lstrip (lstrip s) = lstrip s.
Proof.
  induction s as [|c s IH]; simpl; [reflexivity|].
  destruct (is_space c) eqn:E; [exact IH|].
  simpl. rewrite E. reflexivity.
Qed.

Lemma rstrip_idempotent (s : string) : rstrip (rstrip s) = rstrip s.
Proof.
  induction s as [|c s IH]; simpl; [reflexivity|].
  destruct (rstrip s) as [|d r] eqn:E.
  - destruct (is_space c) eqn:Ec; simpl; [reflexivity|].
    rewrite Ec. reflexivity.
  - simpl in IH. simpl.
    destruct (match rstrip r with
              | "" => if is_space d then "" else String d ""
              | String a s0 => String d (String a s0)
              end) eqn:E2; [discriminate|].
    rewrite IH. reflexivity.
Qed.

Lemma lstrip_rstrip (s : string) :
  lstrip s = s -> lstrip (rstrip s) = rstrip s.
Proof.
  destruct s as [|c s]; [reflexivity|].
  intros H. apply lstrip_fixed_head in H.
  simpl. destruct (rstrip s); rewrite ?H; simpl; rewrite H; reflexivity.
Qed.

Lemma strip_rstrip_fixed (s : string) : rstrip (strip s) = strip s.
Proof. unfold strip. apply rstrip_idempotent. Qed.

Lemma strip_lstrip_fixed (s : string) : lstrip (strip s) = strip s.
Proof. unfold strip. apply lstrip_rstrip, lstrip_idempotent. Qed.

(** A string that [rstrip] leaves alone is empty or has a tail that
    [rstrip] leaves alone. *)
Lemma rstrip_fixed_inv (c : ascii) (s : string) :
  rstrip (String c s) = String c s ->
  (s = "" /\ is_space c = false) \/ (s <> "" /\ rstrip s = s).
Proof.
  simpl. destruct (rstrip s) as [|d r] eqn:E.
  - destruct (is_space c); [discriminate|].
    intros H. injection H as <-. left. split; reflexivity.
  - intros H. injection H as <-. right. split; [discriminate|reflexivity].
Qed.

Lemma sub_ws_from_nonempty (b : bool) (s : string) :
  rstrip s = s -> s <> "" -> sub_ws_from b s <> "".
Proof.
  revert b. induction s as [|c s IH]; intros b H Hne; [congruence|].
  destruct (rstrip_fixed_inv _ _ H) as [[-> Hc]|[Hs Hr]].
  - simpl. rewrite Hc. discriminate.
  - simpl. destruct (is_space c); [|discriminate].
    destruct b; [apply IH; assumption|discriminate].
Qed.

Lemma rstrip_cons_nonempty (c : ascii) (s : string) :
  s <> "" -> rstrip s = s -> rstrip (String c s) = String c s.
Proof.
  intros Hne H. simpl. rewrite H.
  destruct s; [congruence|reflexivity].
Qed.

Lemma rstrip_sub_ws_from (b : bool) (s : string) :
  rstrip s = s -> rstrip (sub_ws_from b s) = sub_ws_from b s.
Proof.
  revert b. induction s as [|c s IH]; intros b H; [reflexivity|].
  destruct (rstrip_fixed_inv _ _ H) as [[-> Hc]|[Hs Hr]].
  - simpl. rewrite Hc. simpl. rewrite Hc. reflexivity.
  - simpl. destruct (is_space c).
    + destruct b; [apply IH; assumption|].
      apply rstrip_cons_nonempty; [apply sub_ws_from_nonempty|apply IH];
        assumption.
    + apply rstrip_cons_nonempty; [apply sub_ws_from_nonempty|apply IH];
        assumption.
Qed.

Lemma lstrip_sub_ws (s : string) :
  lstrip s = s -> lstrip (sub_ws s) = sub_ws s.
Proof.
  destruct s as [|c s]; [reflexivity|].
  intros H. apply lstrip_fixed_head in H.
  unfold sub_ws. simpl. rewrite H. simpl. rewrite H. reflexivity.
Qed.

Lemma sub_ws_from_idempotent (b : bool) (s : string) :
  sub_ws_from b (sub_ws_from b s) = sub_ws_from b s.
Proof.
  revert b. induction s as [|c s IH]; intros b; [reflexivity|].
  simpl. destruct (is_space c) eqn:E.
  - destruct b; [apply IH|].
    simpl. rewrite IH. reflexivity.
  - simpl. rewrite E, IH. reflexivity.
Qed.

(** The text after the first substitution is a fixed point of [strip] and
    of the substitution. *)
Lemma strip_sub_ws_strip (x : string) :
  strip (sub_ws (strip x)) = sub_ws (strip x).
Proof.
  unfold strip at 1.
  rewrite lstrip_sub_ws by apply strip_lstrip_fixed.
  apply rstrip_sub_ws_from, strip_rstrip_fixed.
Qed.

(** ** Uppercasing commutes with the other steps *)

Lemma lstrip_upper (s : string) : lstrip (upper s) = upper (lstrip s).
Proof.
  induction s as [|c s IH]; [reflexivity|].
  simpl. rewrite is_space_to_upper.
  destruct (is_space c); [exact IH|reflexivity].
Qed.

Lemma rstrip_upper (s : string) : rstrip (upper s) = upper (rstrip s).
Proof.
  induction s as [|c s IH]; [reflexivity|].
  simpl. unfold upper in IH. rewrite IH, is_space_to_upper.
  destruct (rstrip s); simpl; [destruct (is_space c)|]; reflexivity.
Qed.

Lemma strip_upper (s : string) : strip (upper s) = upper (strip s).
Proof. unfold strip. rewrite lstrip_upper, rstrip_upper. reflexivity. Qed.

Lemma sub_ws_from_upper (b : bool) (s : string) :
  sub_ws_from b (upper s) = upper (sub_ws_from b s).
Proof.
  revert b. induction s as [|c s IH]; intros b; [reflexivity|].
  simpl. rewrite is_space_to_upper. unfold upper in IH.
  destruct (is_space c); [destruct b|]; simpl; rewrite IH; reflexivity.
Qed.

Lemma sub_special_upper (s : string) :
  sub_special (upper s) = upper (sub_special s).
Proof.
  induction s as [|c s IH]; [reflexivity|].
  unfold sub_special, upper in *. simpl. rewrite IH, kept_to_upper.
  destruct (kept c); reflexivity.
Qed.

Lemma upper_idempotent (s : string) : upper (upper s) = upper s.
Proof.
  induction s as [|c s IH]; [reflexivity|].
  unfold upper in *. simpl. rewrite IH, to_upper_involutive. reflexivity.
Qed.

(** ** Texts without special characters *)

Lemma sub_special_kept (s : string) :
  PyStr.forallb kept s = true -> sub_special s = s.
Proof.
  induction s as [|c s IH]; [reflexivity|].
  simpl. intros H. apply andb_prop in H as [Hc Hs].
  unfold sub_special in *. simpl. rewrite Hc, IH by assumption. reflexivity.
Qed.

Lemma kept_lstrip (s : string) :
  PyStr.forallb kept s = true -> PyStr.forallb kept (lstrip s) = true.
Proof.
  induction s as [|c s IH]; [reflexivity|].
  simpl. intros H. pose proof H as H'. apply andb_prop in H as [Hc Hs].
  destruct (is_space c); [apply IH; assumption|exact H'].
Qed.

Lemma kept_rstrip (s : string) :
  PyStr.forallb kept s = true -> PyStr.forallb kept (rstrip s) = true.
Proof.
  induction s as [|c s IH]; [reflexivity|].
  simpl. intros H. apply andb_prop in H as [Hc Hs].
  specialize (IH Hs). destruct (rstrip s).
  - destruct (is_space c); simpl; [reflexivity|]. rewrite Hc. reflexivity.
  - simpl in *. rewrite Hc. exact IH.
Qed.

Lemma kept_sub_ws_from (b : bool) (s : string) :
  PyStr.forallb kept s = true -> PyStr.forallb kept (sub_ws_from b s) = true.
Proof.
  revert b. induction s as [|c s IH]; intros b; [reflexivity|].
  simpl. intros H. apply andb_prop in H as [Hc Hs].
  destruct (is_space c); [destruct b|].
  - apply IH, Hs.
  - change (kept " " && PyStr.forallb kept (sub_ws_from true s) = true).
    rewrite IH by assumption. reflexivity.
  - simpl. rewrite Hc. apply IH, Hs.
Qed.

Lemma kept_sub_special (s : string) :
  PyStr.forallb kept (sub_special s) = true.
Proof.
  induction s as [|c s IH]; [reflexivity|].
  unfold sub_special in *. simpl. rewrite IH.
  destruct (kept c) eqn:E; [rewrite E|]; reflexivity.
Qed.

Lemma kept_upper (s : string) :
  PyStr.forallb kept s = true -> PyStr.forallb kept (upper s) = true.
Proof.
  induction s as [|c s IH]; [reflexivity|].
  simpl. intros H. apply andb_prop in H as [Hc Hs].
  rewrite kept_to_upper, Hc. apply IH, Hs.
Qed.

Lemma clean_text_tool_kept_input (x : string) :
  PyStr.forallb kept x = true ->
  clean_text_tool x = upper (sub_ws (strip x)).
Proof.
  intros H. unfold clean_text_tool.
  rewrite sub_special_kept; [reflexivity|].
  apply kept_sub_ws_from, kept_rstrip, kept_lstrip, H.
Qed.

Lemma clean_text_tool_output_kept (x : string) :
  PyStr.forallb kept (clean_text_tool x) = true.
Proof. apply kept_upper, kept_sub_special. Qed.

(** ** [clean_text_tool] applied twice *)

Lemma clean_text_tool_fixed (y : string) :
  PyStr.forallb kept y = true -> strip y = y -> sub_ws y = y ->
  clean_text_tool (upper y) = upper y.
Proof.
  intros Hk Hs Hw. unfold clean_text_tool.
  rewrite strip_upper. unfold sub_ws in *.
  rewrite sub_ws_from_upper, sub_special_upper, upper_idempotent.
  rewrite Hs, Hw, sub_special_kept by assumption. reflexivity.
Qed.




(** On ASCII input the second application reaches a fixed point. *)
Lemma clean_text_tool_stable_after_two (x : string) :
  clean_text_tool (clean_text_tool (clean_text_tool x))
  = clean_text_tool (clean_text_tool x).
Proof.
  pose proof (clean_text_tool_output_kept x) as H.
  rewrite (clean_text_tool_kept_input (clean_text_tool x) H).
  apply clean_text_tool_fixed.
  - apply kept_sub_ws_from, kept_rstrip, kept_lstrip, H.
  - apply strip_sub_ws_strip.
  - apply sub_ws_from_idempotent.
Qed.

(** ** Substrings *)

Lemma startswith_app (p q s : string) :
  startswith (p ++ q) s = true -> startswith p s = true.
Proof.
  revert s. induction p as [|a p IH]; intros s; [reflexivity|].
  destruct s as [|b s]; simpl; [discriminate|].
  intros H. apply andb_prop in H as [Hab Hs].
  rewrite Hab. apply IH, Hs.
Qed.

Lemma contains_app (p q s : string) :
  contains (p ++ q) s = true -> contains p s = true.
Proof.
  induction s as [|b s IH].
  - simpl. rewrite !orb_false_r. apply startswith_app.
  - intros H.
    change (startswith (p ++ q) (String b s) || contains (p ++ q) s = true)
      in H.
    change (startswith p (String b s) || contains p s = true).
    apply orb_prop in H as [H|H].
    + rewrite (startswith_app _ _ _ H). reflexivity.
    + rewrite (IH H). apply orb_true_r.
Qed.

Lemma not_contains_longer (p q s : string) :
  contains p s = false -> contains (p ++ q) s = false.
Proof.
  intros H. destruct (contains (p ++ q) s) eqn:E; [|reflexivity].
  apply contains_app in E. congruence.
Qed.

(** ** The matcher: its recursion never runs out of fuel *)

Section MatcherBounds.

Variables a b : list ascii.

Lemma row_bound blo bhi ai m :
  forall bs j prev,
    Forall (fun k => k <= m) prev ->
    Forall (fun k => k <= S m) (Difflib.row b blo bhi ai j bs prev).
Proof.
  induction bs as [|bj bs IH]; intros j prev Hprev; [constructor|].
  cbn [Difflib.row]. constructor.
  - destruct (_ && _ && _ && _); [|lia].
    destruct Hprev; simpl; lia.
  - apply IH. destruct Hprev; [constructor|assumption].
Qed.

(** The best match so far lies in [a[alo:i]]. *)
Lemma update_best_bound alo i m :
  alo + m = i ->
  forall ks j i0 j0 k0,
    Forall (fun k => k <= S m) ks ->
    alo <= i0 -> i0 + k0 <= S i ->
    let '(i1, _, k1) := Difflib.update_best i j ks (i0, j0, k0) in
    alo <= i1 /\ i1 + k1 <= S i.
Proof.
  intros Hm. induction ks as [|k ks IH]; intros j i0 j0 k0 Hks H0 H1.
  - simpl. split; assumption.
  - cbn [Difflib.update_best]. inversion Hks as [|? ? Hk Hks']; subst.
    destruct (k0 <? k) eqn:E.
    + apply Nat.ltb_lt in E. apply IH; [assumption|lia|lia].
    + apply IH; assumption.
Qed.

Lemma scan_bound alo blo bhi :
  forall n i j2len i0 j0 k0,
    alo <= i ->
    Forall (fun k => k <= i - alo) j2len ->
    alo <= i0 -> i0 + k0 <= i ->
    let '(i1, _, k1) :=
      Difflib.scan a b blo bhi n i j2len (i0, j0, k0) in
    alo <= i1 /\ i1 + k1 <= i + n.
Proof.
  induction n as [|n IH]; intros i j2len i0 j0 k0 Hi Hlen H0 H1.
  - simpl. split; lia.
  - cbn [Difflib.scan].
    set (new := Difflib.row b blo bhi (Difflib.at_a a i) 0 b (0 :: j2len)).
    assert (Hnew : Forall (fun k => k <= S (i - alo)) new).
    { apply row_bound. constructor; [lia|assumption]. }
    pose proof (update_best_bound alo i (i - alo) ltac:(lia) new 0 i0 j0 k0
                  Hnew H0 ltac:(lia)) as Hbest.
    destruct (Difflib.update_best i 0 new (i0, j0, k0)) as [[i1 j1] k1].
    destruct Hbest as [Hb0 Hb1].
    pose proof (IH (S i) new i1 j1 k1 ltac:(lia)) as Hscan.
    replace (S i - alo) with (S (i - alo)) in Hscan by lia.
    specialize (Hscan Hnew Hb0 Hb1).
    destruct (Difflib.scan a b blo bhi n (S i) new (i1, j1, k1))
      as [[i2 j2] k2].
    split; lia.
Qed.

Lemma extend_back_bound alo blo :
  forall besti bestj bestsize,
    alo <= besti ->
    let '(i1, _, k1) :=
      Difflib.extend_back a b alo blo besti bestj bestsize in
    alo <= i1 /\ i1 + k1 = besti + bestsize.
Proof.
  induction besti as [|i IH]; intros bestj bestsize Halo.
  - simpl. split; lia.
  - cbn [Difflib.extend_back].
    destruct (_ && _ && _) eqn:E; [|split; lia].
    apply andb_prop in E as [E _]. apply andb_prop in E as [E _].
    apply Nat.ltb_lt in E.
    pose proof (IH (bestj - 1) (S bestsize) ltac:(lia)) as H.
    destruct (Difflib.extend_back a b alo blo i (bestj - 1) (S bestsize))
      as [[i1 j1] k1].
    split; lia.
Qed.

Lemma extend_fwd_bound bhi besti bestj :
  forall n bestsize,
    bestsize <= Difflib.extend_fwd a b bhi n besti bestj bestsize
    /\ Difflib.extend_fwd a b bhi n besti bestj bestsize <= bestsize + n.
Proof.
  induction n as [|n IH]; intros bestsize; [simpl; lia|].
  cbn [Difflib.extend_fwd].
  destruct (_ && _); [|lia].
  specialize (IH (S bestsize)). lia.
Qed.

(** A match that is not empty lies in [a[alo:ahi]]. *)
Lemma find_longest_match_bound alo ahi blo bhi :
  let '(i, _, k) := Difflib.find_longest_match a b alo ahi blo bhi in
  k = 0 \/ (alo <= i /\ i + k <= ahi).
Proof.
  unfold Difflib.find_longest_match.
  pose proof (scan_bound alo blo bhi (ahi - alo) alo [] alo blo 0
                (le_n _) (Forall_nil _) (le_n _) ltac:(lia)) as Hscan.
  destruct (Difflib.scan a b blo bhi (ahi - alo) alo [] (alo, blo, 0))
    as [[i0 j0] k0].
  destruct Hscan as [Hs0 Hs1].
  pose proof (extend_back_bound alo blo i0 j0 k0 Hs0) as Hback.
  destruct (Difflib.extend_back a b alo blo i0 j0 k0) as [[i1 j1] k1].
  destruct Hback as [Hb0 Hb1].
  pose proof (extend_fwd_bound bhi i1 j1 (ahi - (i1 + k1)) k1) as [Hf0 Hf1].
  destruct (Nat.eq_dec
              (Difflib.extend_fwd a b bhi (ahi - (i1 + k1)) i1 j1 k1) 0)
    as [Hz|Hz]; [left; exact Hz|].
  right. split; [exact Hb0|]. lia.
Qed.

(** Beyond the length of the range of [a], the fuel is never used up. *)
Lemma matches_fuel_enough :
  forall fuel fuel' alo ahi blo bhi,
    ahi - alo < fuel -> ahi - alo < fuel' ->
    Difflib.matches a b fuel alo ahi blo bhi
    = Difflib.matches a b fuel' alo ahi blo bhi.
Proof.
  induction fuel as [|fuel IH]; intros fuel' alo ahi blo bhi H H'; [lia|].
  destruct fuel' as [|fuel']; [lia|].
  cbn [Difflib.matches].
  pose proof (find_longest_match_bound alo ahi blo bhi) as Hb.
  destruct (Difflib.find_longest_match a b alo ahi blo bhi) as [[i j] k].
  destruct (k =? 0) eqn:Ek; [reflexivity|].
  apply Nat.eqb_neq in Ek. destruct Hb as [Hb|[Hb0 Hb1]]; [lia|].
  f_equal; [f_equal|].
  - destruct (_ && _); [|reflexivity]. apply IH; lia.
  - destruct (_ && _); [|reflexivity]. apply IH; lia.
Qed.

(** The matched characters are characters of [a]. *)
Lemma matches_bound :
  forall fuel alo ahi blo bhi,
    Difflib.matches a b fuel alo ahi blo bhi <= ahi - alo.
Proof.
  induction fuel as [|fuel IH]; intros alo ahi blo bhi; [simpl; lia|].
  cbn [Difflib.matches].
  pose proof (find_longest_match_bound alo ahi blo bhi) as Hb.
  destruct (Difflib.find_longest_match a b alo ahi blo bhi) as [[i j] k].
  destruct (k =? 0) eqn:Ek; [lia|].
  apply Nat.eqb_neq in Ek. destruct Hb as [Hb|[Hb0 Hb1]]; [lia|].
  pose proof (IH alo i blo j). pose proof (IH (i + k) ahi (j + k) bhi).
  destruct (_ && _); destruct (_ && _); lia.
Qed.

End MatcherBounds.

(** [ratio] gives the matcher one unit of fuel more than the length of its
    first argument; any larger amount computes the same number. *)
Lemma ratio_fuel_irrelevant (x y : string) (fuel : nat) :
  String.length x < fuel ->
  Difflib.matches (list_ascii_of_string x) (list_ascii_of_string y) fuel
    0 (List.length (list_ascii_of_string x))
    0 (List.length (list_ascii_of_string y))
  = Difflib.matches (list_ascii_of_string x) (list_ascii_of_string y)
      (S (List.length (list_ascii_of_string x)))
      0 (List.length (list_ascii_of_string x))
      0 (List.length (list_ascii_of_string y)).
Proof.
  intros H.
  assert (L : List.length (list_ascii_of_string x) = String.length x).
  { clear. induction x as [|c x IH]; simpl; [reflexivity|]. rewrite IH.
    reflexivity. }
  apply matches_fuel_enough; rewrite L; lia.
Qed.

(** ** The loop of [WaterMeterAgent] *)

Lemma set_warnings_same (st : state) : set_warnings st (warnings st) = st.
Proof. destruct st; reflexivity. Qed.

(** One iteration that acts. *)
Lemma react_loop_act now n self st log a self' st' :
  WaterMeterAgent._think st = a ->
  a <> COMPLETE -> a <> FAIL ->
  WaterMeterAgent._act now self st a = Return (self', st') ->
  WaterMeterAgent.react_loop now (S n) self st log
  = WaterMeterAgent.react_loop now n self' st' (log ++ [a])%list.
Proof.
  intros Hthink Hc Hf Hact.
  cbn [WaterMeterAgent.react_loop]. rewrite Hthink.
  destruct a; try congruence; rewrite Hact; reflexivity.
Qed.

(** One iteration in which the action raises. *)
Lemma react_loop_raise now n self st log a e :
  WaterMeterAgent._think st = a ->
  a <> COMPLETE -> a <> FAIL ->
  WaterMeterAgent._act now self st a = Raise e ->
  WaterMeterAgent.react_loop now (S n) self st log
  = (self, (log ++ [a])%list, Raise e).
Proof.
  intros Hthink Hc Hf Hact.
  cbn [WaterMeterAgent.react_loop]. rewrite Hthink.
  destruct a; try congruence; rewrite Hact; reflexivity.
Qed.

Lemma validate_step now self st v :
  reading_value st = Some v ->
  exists self' ws,
    WaterMeterAgent._act now self st VALIDATE
    = Return (self', set_warnings st ws).
Proof.
  intros Hv. unfold WaterMeterAgent._act, WaterMeterAgent.validate_call.
  rewrite Hv. unfold bind.
  destruct (validate_range_tool v _) as [is_valid message].
  destruct is_valid; cbn [negb].
  - destruct (mem _ _).
    + eexists _, _. unfold add_warning. reflexivity.
    + eexists _, _. rewrite set_warnings_same. reflexivity.
  - destruct (mem _ _).
    + eexists _, _. unfold add_warning. reflexivity.
    + eexists _, _. unfold add_warning. reflexivity.
Qed.

Lemma think_validate st text tag v u d :
  cleaned_text st = Some text -> meter_tag st = Some tag ->
  reading_value st = Some v -> unit_ st = Some u -> date st = Some d ->
  WaterMeterAgent._think st = VALIDATE.
Proof.
  intros H1 H2 H3 H4 H5. unfold WaterMeterAgent._think.
  rewrite H1, H2, H3, H4, H5. reflexivity.
Qed.

(** Once the five fields are set, every remaining iteration validates
    again, and changes the warnings and the history only. *)
Lemma validate_loop now n :
  forall self st log text tag v u d,
    cleaned_text st = Some text -> meter_tag st = Some tag ->
    reading_value st = Some v -> unit_ st = Some u -> date st = Some d ->
    exists self' ws,
      WaterMeterAgent.react_loop now n self st log
      = (self', (log ++ repeat VALIDATE n)%list, Return (set_warnings st ws)).
Proof.
  induction n as [|n IH]; intros self st log text tag v u d H1 H2 H3 H4 H5.
  - exists self, (warnings st). simpl.
    rewrite set_warnings_same, app_nil_r. reflexivity.
  - destruct (validate_step now self st v H3) as (self1 & ws1 & Hact).
    destruct (IH self1 (set_warnings st ws1) (log ++ [VALIDATE])%list
                 text tag v u d H1 H2 H3 H4 H5) as (self2 & ws2 & Hloop).
    exists self2, ws2.
    rewrite (react_loop_act now n self st log VALIDATE self1
               (set_warnings st ws1));
      [|eapply think_validate; eassumption|discriminate|discriminate
       |exact Hact].
    rewrite Hloop, <- app_assoc. reflexivity.
Qed.

(** The first four actions on a text that is not blank, and the state
    they build. *)
Lemma react_loop_four now n self raw :
  is_blank (clean_text_tool raw) = false ->
  exists st,
    WaterMeterAgent.react_loop now (4 + n) self (initial_state raw) []
    = WaterMeterAgent.react_loop now n self st
        [CLEAN_TEXT; IDENTIFY_METER; EXTRACT_READING; IDENTIFY_UNIT]
    /\ raw_input st = raw
    /\ cleaned_text st = Some (clean_text_tool raw)
    /\ meter_tag st
       = Some (match WaterMeterAgent.find_tag (clean_text_tool raw) with
               | Some tag => tag
               | None => "UNKNOWN"
               end)
    /\ reading_value st
       = Some (match extract_numbers_tool (clean_text_tool raw) with
               | x :: rest => choose_reading x rest
               | [] => 0%Q
               end)
    /\ unit_ st = Some (standardize_unit_tool (clean_text_tool raw))
    /\ date st = None.
Proof.
  intros Hne.
  set (text := clean_text_tool raw) in *.
  set (s1 := set_cleaned_text (initial_state raw) text).
  set (s2 := match WaterMeterAgent.find_tag text with
             | Some t => add_confidence (set_meter_tag s1 t) (3 # 10)
             | None => add_warning (set_meter_tag s1 "UNKNOWN")
                         "Could not identify meter tag"
             end).
  set (s3 := match extract_numbers_tool text with
             | x :: rest =>
                 add_confidence (set_reading_value s2 (choose_reading x rest))
                                (4 # 10)
             | [] => add_warning (set_reading_value s2 0)
                       "No numeric reading detected"
             end).
  set (s4 := add_confidence (set_unit s3 (standardize_unit_tool text))
                            (2 # 10)).
  assert (C2 : cleaned_text s2 = Some text)
    by (unfold s2; destruct (WaterMeterAgent.find_tag text); reflexivity).
  assert (M2 : meter_tag s2
               = Some (match WaterMeterAgent.find_tag text with
                       | Some tag => tag
                       | None => "UNKNOWN"
                       end))
    by (unfold s2; destruct (WaterMeterAgent.find_tag text); reflexivity).
  assert (R2 : reading_value s2 = None)
    by (unfold s2; destruct (WaterMeterAgent.find_tag text); reflexivity).
  assert (C3 : cleaned_text s3 = Some text)
    by (unfold s3; destruct (extract_numbers_tool text); exact C2).
  assert (M3 : meter_tag s3 = meter_tag s2)
    by (unfold s3; destruct (extract_numbers_tool text); reflexivity).
  assert (R3 : reading_value s3
               = Some (match extract_numbers_tool text with
                       | x :: rest => choose_reading x rest
                       | [] => 0%Q
                       end))
    by (unfold s3; destruct (extract_numbers_tool text); reflexivity).
  assert (U3 : unit_ s3 = None)
    by (unfold s3, s2; destruct (extract_numbers_tool text);
        destruct (WaterMeterAgent.find_tag text); reflexivity).
  assert (D3 : date s3 = None)
    by (unfold s3, s2; destruct (extract_numbers_tool text);
        destruct (WaterMeterAgent.find_tag text); reflexivity).
  assert (I3 : raw_input s3 = raw)
    by (unfold s3, s2; destruct (extract_numbers_tool text);
        destruct (WaterMeterAgent.find_tag text); reflexivity).
  exists s4. split.
  - change (4 + n) with (S (S (S (S n)))).
    rewrite (react_loop_act now _ self (initial_state raw) [] CLEAN_TEXT
               self s1);
      [|reflexivity|discriminate|discriminate|reflexivity].
    rewrite (react_loop_act now _ self s1 _ IDENTIFY_METER self s2);
      [|unfold WaterMeterAgent._think;
        cbn [s1 cleaned_text set_cleaned_text meter_tag initial_state];
        rewrite Hne; reflexivity
       |discriminate|discriminate
       |unfold WaterMeterAgent._act, text_of, bind, s2;
        cbn [s1 cleaned_text set_cleaned_text initial_state];
        destruct (WaterMeterAgent.find_tag text); reflexivity].
    rewrite (react_loop_act now _ self s2 _ EXTRACT_READING self s3);
      [|unfold WaterMeterAgent._think; rewrite C2, M2, R2; reflexivity
       |discriminate|discriminate
       |unfold WaterMeterAgent._act, text_of, bind, s3; rewrite C2;
        destruct (extract_numbers_tool text); reflexivity].
    rewrite (react_loop_act now _ self s3 _ IDENTIFY_UNIT self s4);
      [|unfold WaterMeterAgent._think; rewrite C3, M3, M2, R3, U3;
        reflexivity
       |discriminate|discriminate
       |unfold WaterMeterAgent._act, text_of, bind, s4; rewrite C3;
        reflexivity].
    reflexivity.
  - cbn [s4 raw_input cleaned_text meter_tag reading_value unit_ date
         add_confidence set_unit].
    rewrite I3, C3, M3, M2, R3, D3. repeat split; reflexivity.
Qed.

Lemma think_parse_date st text tag v u :
  cleaned_text st = Some text -> meter_tag st = Some tag ->
  reading_value st = Some v -> unit_ st = Some u -> date st = None ->
  WaterMeterAgent._think st = PARSE_DATE.
Proof.
  intros H1 H2 H3 H4 H5. unfold WaterMeterAgent._think.
  rewrite H1, H2, H3, H4, H5. reflexivity.
Qed.

(** A text that is not blank and a date stage that returns: the loop runs
    its eight iterations, the last three of them on VALIDATE. *)
Lemma react_loop_pipeline now self raw d :
  is_blank (clean_text_tool raw) = false ->
  parse_date_tool now (clean_text_tool raw) = Return d ->
  exists self' st,
    WaterMeterAgent.react_loop now WaterMeterAgent.max_steps self
      (initial_state raw) []
    = (self',
       [CLEAN_TEXT; IDENTIFY_METER; EXTRACT_READING; IDENTIFY_UNIT;
        PARSE_DATE; VALIDATE; VALIDATE; VALIDATE],
       Return st)
    /\ raw_input st = raw
    /\ meter_tag st
       = Some (match WaterMeterAgent.find_tag (clean_text_tool raw) with
               | Some tag => tag
               | None => "UNKNOWN"
               end)
    /\ reading_value st
       = Some (match extract_numbers_tool (clean_text_tool raw) with
               | x :: rest => choose_reading x rest
               | [] => 0%Q
               end)
    /\ unit_ st = Some (standardize_unit_tool (clean_text_tool raw))
    /\ date st = Some d.
Proof.
  intros Hne Hd.
  destruct (react_loop_four now 4 self raw Hne)
    as (s4 & Hfour & I4 & C4 & M4 & R4 & U4 & D4).
  change WaterMeterAgent.max_steps with (4 + 4). rewrite Hfour.
  set (s5 := add_confidence (set_date s4 d) (1 # 10)).
  rewrite (react_loop_act now 3 self s4 _ PARSE_DATE self s5);
    [|eapply think_parse_date; eassumption|discriminate|discriminate
     |unfold WaterMeterAgent._act, text_of, bind; rewrite C4, Hd;
      reflexivity].
  destruct (validate_loop now 3 self s5
              [CLEAN_TEXT; IDENTIFY_METER; EXTRACT_READING; IDENTIFY_UNIT;
               PARSE_DATE]
              _ _ _ _ d C4 M4 R4 U4 eq_refl) as (self' & ws & Hloop).
  exists self', (set_warnings s5 ws). split; [exact Hloop|].
  repeat split; assumption.
Qed.

(** A text that is not blank and a date stage that raises: the exception
    leaves the loop at the fifth iteration. *)
Lemma react_loop_date_raises now self raw e :
  is_blank (clean_text_tool raw) = false ->
  parse_date_tool now (clean_text_tool raw) = Raise e ->
  WaterMeterAgent.react_loop now WaterMeterAgent.max_steps self
    (initial_state raw) []
  = (self,
     [CLEAN_TEXT; IDENTIFY_METER; EXTRACT_READING; IDENTIFY_UNIT;
      PARSE_DATE],
     Raise e).
Proof.
  intros Hne Hd.
  destruct (react_loop_four now 4 self raw Hne)
    as (s4 & Hfour & I4 & C4 & M4 & R4 & U4 & D4).
  change WaterMeterAgent.max_steps with (4 + 4). rewrite Hfour.
  rewrite (react_loop_raise now 3 self s4 _ PARSE_DATE e);
    [reflexivity|eapply think_parse_date; eassumption|discriminate
     |discriminate|].
  unfold WaterMeterAgent._act, text_of, bind. rewrite C4, Hd. reflexivity.
Qed.

(** One iteration that fails. *)
Lemma react_loop_fail now n self st log :
  WaterMeterAgent._think st = FAIL ->
  WaterMeterAgent.react_loop now (S n) self st log
  = (self, (log ++ [FAIL])%list,
     Return (add_warning st "Parsing failed - insufficient data")).
Proof.
  intros Hthink. cbn [WaterMeterAgent.react_loop]. rewrite Hthink.
  reflexivity.
Qed.

(** A blank text: the loop stops at its second iteration. *)
Lemma react_loop_blank now self raw :
  is_blank (clean_text_tool raw) = true ->
  WaterMeterAgent.react_loop now WaterMeterAgent.max_steps self
    (initial_state raw) []
  = (self, [CLEAN_TEXT; FAIL],
     Return (add_warning
               (set_cleaned_text (initial_state raw) (clean_text_tool raw))
               "Parsing failed - insufficient data")).
Proof.
  intros Hblank. unfold WaterMeterAgent.max_steps.
  rewrite (react_loop_act now 7 self (initial_state raw) [] CLEAN_TEXT self
             (set_cleaned_text (initial_state raw) (clean_text_tool raw)));
    [|reflexivity|discriminate|discriminate|reflexivity].
  apply react_loop_fail.
  unfold WaterMeterAgent._think.
  cbn [cleaned_text set_cleaned_text meter_tag initial_state].
  rewrite Hblank. reflexivity.
Qed.

(** ** What [WaterMeterAgent.parse_reading] returns *)

(** Every call falls in one of three cases: a blank text, a date stage
    that raises, or the full pipeline. *)
Lemma parse_reading_blank now self raw :
  is_blank (clean_text_tool raw) = true ->
  WaterMeterAgent.parse_reading now self raw
  = WaterMeterAgent.MkRun self [CLEAN_TEXT; FAIL]
      (Return (MkResult PyNone 0 None "Unknown Meter" None None None
                 ["Parsing failed - insufficient data"] raw)).
Proof.
  intros Hblank. unfold WaterMeterAgent.parse_reading.
  rewrite (react_loop_blank now self raw Hblank). reflexivity.
Qed.

Lemma parse_reading_raises now self raw e :
  is_blank (clean_text_tool raw) = false ->
  parse_date_tool now (clean_text_tool raw) = Raise e ->
  WaterMeterAgent.parse_reading now self raw
  = WaterMeterAgent.MkRun self
      [CLEAN_TEXT; IDENTIFY_METER; EXTRACT_READING; IDENTIFY_UNIT;
       PARSE_DATE]
      (Raise e).
Proof.
  intros Hne Hd. unfold WaterMeterAgent.parse_reading.
  rewrite (react_loop_date_raises now self raw e Hne Hd). reflexivity.
Qed.

Lemma parse_reading_returns now self raw d :
  is_blank (clean_text_tool raw) = false ->
  parse_date_tool now (clean_text_tool raw) = Return d ->
  exists self' r,
    WaterMeterAgent.parse_reading now self raw
    = WaterMeterAgent.MkRun self'
        [CLEAN_TEXT; IDENTIFY_METER; EXTRACT_READING; IDENTIFY_UNIT;
         PARSE_DATE; VALIDATE; VALIDATE; VALIDATE]
        (Return r)
    /\ result_raw_input r = raw
    /\ meter_tag_of r
       = Some (match WaterMeterAgent.find_tag (clean_text_tool raw) with
               | Some tag => tag
               | None => "UNKNOWN"
               end)
    /\ reading_value_of r
       = Some (match extract_numbers_tool (clean_text_tool raw) with
               | x :: rest => choose_reading x rest
               | [] => 0%Q
               end)
    /\ reading_unit r = Some (standardize_unit_tool (clean_text_tool raw))
    /\ reading_date r = Some d
    /\ success r = success_of (meter_tag_of r) (reading_value_of r)
    /\ meter_description r = description_of (meter_tag_of r).
Proof.
  intros Hne Hd.
  destruct (react_loop_pipeline now self raw d Hne Hd)
    as (self' & st & Hloop & I & M & R & U & Dt).
  exists self', (_generate_result st).
  unfold WaterMeterAgent.parse_reading. rewrite Hloop.
  cbn [bind _generate_result result_raw_input meter_tag_of reading_value_of
       reading_unit reading_date success meter_description].
  repeat split; assumption.
Qed.

(** ** The keys that the lookups return *)

Lemma fuzzy_match_loop_key text threshold keys :
  forall best score k,
    fuzzy_match_loop text threshold keys best score = Some k ->
    best = Some k \/ In k keys.
Proof.
  induction keys as [|key keys IH]; intros best score k; simpl.
  - intros ->. left. reflexivity.
  - destruct (contains key text).
    + intros H. injection H as <-. right. left. reflexivity.
    + destruct (Qlt_bool score (Difflib.ratio key text)
                && Qle_bool threshold (Difflib.ratio key text));
        intros H; apply IH in H as [H|H]; auto.
      injection H as <-. auto.
Qed.

Lemma find_tag_key text k :
  WaterMeterAgent.find_tag text = Some k ->
  In k (List.map fst meter_tags) \/ In k (List.map fst name_to_tag).
Proof.
  unfold WaterMeterAgent.find_tag, fuzzy_match_tool.
  destruct (fuzzy_match_loop text (6 # 10) (List.map fst meter_tags) None 0)
    as [t|] eqn:E.
  - intros H. injection H as <-.
    apply fuzzy_match_loop_key in E as [E|E]; [discriminate|auto].
  - intros H. apply fuzzy_match_loop_key in H as [H|H]; [discriminate|auto].
Qed.

Lemma find_tag_not_empty text k :
  WaterMeterAgent.find_tag text = Some k -> k <> "".
Proof.
  intros H. apply find_tag_key in H. simpl in H.
  intuition (subst; discriminate).
Qed.

Lemma Qlt_bool_iff (x y : Q) : Qlt_bool x y = true <-> (x < y)%Q.
Proof.
  unfold Qlt_bool. rewrite negb_true_iff. split.
  - intros H. apply Qnot_le_lt. intros Hle.
    apply Qle_bool_iff in Hle. congruence.
  - intros H. destruct (Qle_bool y x) eqn:E; [|reflexivity].
    apply Qle_bool_iff in E. apply Qlt_not_le in H. contradiction.
Qed.

(** [success] as a function of the two fields it reads. *)
Lemma success_of_true tag v :
  tag <> Some "" ->
  success_of tag v = PyBool true <->
  (exists t, tag = Some t /\ t <> "UNKNOWN")
  /\ (exists x, v = Some x /\ (0 < x)%Q).
Proof.
  intros Hne. unfold success_of. destruct tag as [t|].
  - destruct (String.eqb_spec t ""); [subst; congruence|].
    destruct (String.eqb_spec t "UNKNOWN").
    + split; [discriminate|].
      intros [(t' & Ht & Hu) _]. congruence.
    + destruct v as [x|].
      * split.
        -- intros H. injection H as H. apply Qlt_bool_iff in H.
           split; [exists t|exists x]; auto.
        -- intros [_ (x' & Hx & Hpos)]. injection Hx as <-.
           apply Qlt_bool_iff in Hpos. rewrite Hpos. reflexivity.
      * split; [discriminate|].
        intros [_ (x & Hx & _)]. discriminate.
  - split; [discriminate|].
    intros [(t & Ht & _) _]. discriminate.
Qed.

(** ** C5: a blank text *)




(** ** C8: the success flag *)

(** C8.  In every result that [parse_reading] returns, [success] is
    [True] exactly when the tag is not null and is not "UNKNOWN" and the
    reading value is greater than zero. *)
Theorem success_iff_tag_known_and_reading_positive now self raw r :
  WaterMeterAgent.returned (WaterMeterAgent.parse_reading now self raw)
  = Return r ->
  success r = PyBool true <->
  (exists tag, meter_tag_of r = Some tag /\ tag <> "UNKNOWN")
  /\ (exists v, reading_value_of r = Some v /\ (0 < v)%Q).
Proof.
  intros Hret.
  destruct (is_blank (clean_text_tool raw)) eqn:Hblank.
  - rewrite (parse_reading_blank now self raw Hblank) in Hret.
    injection Hret as <-.
    apply (success_of_true None None). discriminate.
  - destruct (parse_date_tool now (clean_text_tool raw)) as [d|e] eqn:Hd.
    + destruct (parse_reading_returns now self raw d Hblank Hd)
        as (self' & r' & Hrun & _ & M & _ & _ & _ & S & _).
      rewrite Hrun in Hret. injection Hret as <-.
      rewrite S. apply success_of_true. rewrite M.
      destruct (WaterMeterAgent.find_tag (clean_text_tool raw)) as [k|] eqn:E;
        [|discriminate].
      intros H. injection H as ->.
      exact (find_tag_not_empty _ _ E eq_refl).
    + rewrite (parse_reading_raises now self raw e Hblank Hd) in Hret.
      discriminate.
Qed.

Lemma success_iff_tag_known_and_reading_positive_witness :
  exists r,
    WaterMeterAgent.returned
      (WaterMeterAgent.parse_reading (MkDate 2025 3 15) WaterMeterAgent.new
         "WM002 shows 89.3 gallons today")
    = Return r
    /\ success r = PyBool true
    /\ ((exists tag, meter_tag_of r = Some tag /\ tag <> "UNKNOWN")
        /\ (exists v, reading_value_of r = Some v /\ (0 < v)%Q)).
Proof.
  eexists. split; [vm_compute; reflexivity|].
  split; [reflexivity|].
  apply (success_iff_tag_known_and_reading_positive (MkDate 2025 3 15)
           WaterMeterAgent.new "WM002 shows 89.3 gallons today").
  - vm_compute. reflexivity.
  - reflexivity.
Defined.

(** ** C2: the decisions of the loop *)

Lemma think_never_complete (st : state) :
  WaterMeterAgent._think st <> COMPLETE.
Proof.
  unfold WaterMeterAgent._think.
  destruct (cleaned_text st); [|discriminate].
  destruct (meter_tag st); [|destruct (is_blank s); discriminate].
  destruct (reading_value st); [|discriminate].
  destruct (unit_ st); [|discriminate].
  destruct (date st); discriminate.
Qed.

(** C2, on the code of [WaterMeterAgent].  Whenever the cleaned text is
    not blank and the date stage returns, the loop runs all of its eight
    iterations and decides VALIDATE at the sixth, the seventh and the
    eighth: [_think] has no COMPLETE branch. *)
Theorem validate_is_decided_three_times now self raw d :
  is_blank (clean_text_tool raw) = false ->
  parse_date_tool now (clean_text_tool raw) = Return d ->
  WaterMeterAgent.decisions (WaterMeterAgent.parse_reading now self raw)
  = [CLEAN_TEXT; IDENTIFY_METER; EXTRACT_READING; IDENTIFY_UNIT; PARSE_DATE;
     VALIDATE; VALIDATE; VALIDATE]
  /\ List.length
       (List.filter (action_eqb VALIDATE)
          (WaterMeterAgent.decisions
             (WaterMeterAgent.parse_reading now self raw)))
     = 3
  /\ ~ NoDup
       (WaterMeterAgent.decisions
          (WaterMeterAgent.parse_reading now self raw)).
Proof.
  intros Hne Hd.
  destruct (parse_reading_returns now self raw d Hne Hd)
    as (self' & r & Hrun & _).
  rewrite Hrun. cbn [WaterMeterAgent.decisions].
  split; [reflexivity|]. split; [reflexivity|].
  intros H. do 5 (apply NoDup_cons_iff in H as [_ H]).
  apply NoDup_cons_iff in H as [H _]. apply H. left. reflexivity.
Qed.

Lemma validate_is_decided_three_times_witness :
  WaterMeterAgent.decisions
    (WaterMeterAgent.parse_reading (MkDate 2025 3 15) WaterMeterAgent.new
       "WM002 shows 89.3 gallons today")
  = [CLEAN_TEXT; IDENTIFY_METER; EXTRACT_READING; IDENTIFY_UNIT; PARSE_DATE;
     VALIDATE; VALIDATE; VALIDATE].
Proof.
  apply (validate_is_decided_three_times (MkDate 2025 3 15)
           WaterMeterAgent.new "WM002 shows 89.3 gallons today"
           "2025-03-15").
  - reflexivity.
  - reflexivity.
Defined.

(** ** C6 and C4: the date stage *)

(** The date stage when the text has no literal date and no relative
    token. *)
Lemma parse_date_tool_default now text :
  first_pattern patterns text = None ->
  contains "TODAY" text = false ->
  contains "YESTERDAY" text = false ->
  parse_date_tool now text = Return (strftime now).
Proof.
  intros Hp Ht Hy. unfold parse_date_tool. rewrite Hp, Ht, Hy. reflexivity.
Qed.

Lemma parse_date_tool_today now text :
  first_pattern patterns text = None ->
  contains "TODAY" text = true ->
  parse_date_tool now text = Return (strftime now).
Proof.
  intros Hp Ht. unfold parse_date_tool. rewrite Hp, Ht. reflexivity.
Qed.


(** After the first day of a month, YESTERDAY is the day before. *)
Lemma parse_date_tool_yesterday_later now text :
  valid_date now = true -> 2 <= day now ->
  first_pattern patterns text = None ->
  contains "TODAY" text = false ->
  contains "YESTERDAY" text = true ->
  parse_date_tool now text
  = Return (strftime (MkDate (year now) (month now) (day now - 1))).
Proof.
  intros Hv Hday Hp Ht Hy. unfold parse_date_tool.
  rewrite Hp, Ht, Hy. unfold replace_day.
  unfold valid_date in Hv.
  apply andb_prop in Hv as [Hv Hd]. apply Nat.leb_le in Hd.
  assert (H1 : (1 <=? day now - 1) = true) by (apply Nat.leb_le; lia).
  assert (H2 : (day now - 1 <=? days_in_month (year now) (month now)) = true)
    by (apply Nat.leb_le; lia).
  rewrite H1, H2. reflexivity.
Qed.

(** C6, on the code.  On the first day of a month, PARSE_DATE on a text
    with the token YESTERDAY (and no literal date, and no TODAY) does not
    return the last day of the previous month: [replace(day=0)] raises
    [ValueError]. *)
Theorem yesterday_raises_on_first_day now text :
  day now = 1 ->
  first_pattern patterns text = None ->
  contains "TODAY" text = false ->
  contains "YESTERDAY" text = true ->
  parse_date_tool now text
  = Raise (ValueError "day is out of range for month").
Proof.
  intros Hday Hp Ht Hy. unfold parse_date_tool.
  rewrite Hp, Ht, Hy. unfold replace_day. rewrite Hday. reflexivity.
Qed.

Lemma yesterday_raises_on_first_day_witness :
  clean_text_tool "reading yesterday" = "READING YESTERDAY" /\
  parse_date_tool (MkDate 2025 3 1) "READING YESTERDAY"
  = Raise (ValueError "day is out of range for month").
Proof.
  split; [reflexivity|].
  apply (yesterday_raises_on_first_day (MkDate 2025 3 1)
           "READING YESTERDAY"); reflexivity.
Defined.

(** C4, on the code of [WaterMeterAgent].  [parse_reading] has no handler:
    an exception of the date stage leaves the call, with no result. *)
Theorem exception_leaves_parse_reading now self raw e :
  is_blank (clean_text_tool raw) = false ->
  parse_date_tool now (clean_text_tool raw) = Raise e ->
  WaterMeterAgent.returned (WaterMeterAgent.parse_reading now self raw)
  = Raise e.
Proof.
  intros Hne Hd. rewrite (parse_reading_raises now self raw e Hne Hd).
  reflexivity.
Qed.

Lemma exception_leaves_parse_reading_witness :
  WaterMeterAgent.returned
    (WaterMeterAgent.parse_reading (MkDate 2025 3 1) WaterMeterAgent.new
       "reading yesterday")
  = Raise (ValueError "day is out of range for month").
Proof.
  apply (exception_leaves_parse_reading (MkDate 2025 3 1)
           WaterMeterAgent.new "reading yesterday"); reflexivity.
Defined.

(** ** C9: the reading is the largest number of the text *)

Lemma Qlt_bool_false_le (x y : Q) : Qlt_bool x y = false -> (y <= x)%Q.
Proof.
  unfold Qlt_bool. rewrite negb_false_iff. apply Qle_bool_iff.
Qed.

Lemma max_list_spec (l : list Q) :
  forall x,
    In (max_list x l) (x :: l)
    /\ Forall (fun y => (y <= max_list x l)%Q) (x :: l).
Proof.
  induction l as [|y l IH]; intros x.
  - split; [left; reflexivity|].
    constructor; [apply Qle_refl|constructor].
  - unfold max_list in *. cbn [fold_left].
    destruct (Qlt_bool x y) eqn:E.
    + destruct (IH y) as [Hin Hall]. split.
      * right. exact Hin.
      * apply Qlt_bool_iff in E.
        constructor; [|exact Hall].
        apply Qle_trans with y; [apply Qlt_le_weak, E|].
        inversion Hall; assumption.
    + destruct (IH x) as [Hin Hall]. split.
      * destruct Hin as [Hin|Hin]; [left; exact Hin|right; right; exact Hin].
      * apply Qlt_bool_false_le in E.
        inversion Hall as [|? ? Hx Hl]; subst.
        constructor; [exact Hx|].
        constructor; [|exact Hl].
        apply Qle_trans with x; assumption.
Qed.

Lemma choose_reading_max (x : Q) (rest : list Q) :
  choose_reading x rest = max_list x rest.
Proof.
  unfold choose_reading. destruct rest; reflexivity.
Qed.



(** ** C10: the variant "L" *)

(** C10.  A cleaned text that contains the letter L and none of the six
    variants that come before "L" in the table is given the unit
    "liters", not the default; "Main supply 500" is, through the L of
    SUPPLY. *)
Theorem letter_L_gives_liters :
  (forall text,
      contains "L" text = true ->
      contains "CU M" text = false ->
      contains "CUBIC M" text = false ->
      contains "M3" text = false ->
      contains "CUBIC METER" text = false ->
      contains "CUBIC METERS" text = false ->
      contains "GAL" text = false ->
      standardize_unit_tool text = "liters")
  /\ clean_text_tool "Main supply 500" = "MAIN SUPPLY 500"
  /\ (forall now self,
        exists r,
          WaterMeterAgent.returned
            (WaterMeterAgent.parse_reading now self "Main supply 500")
          = Return r
          /\ reading_unit r = Some "liters").
Proof.
  split; [|split].
  - intros text HL H1 H2 H3 H4 H5 H6.
    pose proof (not_contains_longer "GAL" "LON" text H6) as H7.
    pose proof (not_contains_longer "GAL" "LONS" text H6) as H8.
    unfold standardize_unit_tool, unit_map. cbn [first_variant].
    cbn [append] in H7, H8.
    rewrite H1, H2, H3, H4, H5, H6, H7, H8, HL. reflexivity.
  - reflexivity.
  - intros now self.
    destruct (parse_reading_returns now self "Main supply 500"
                (strftime now))
      as (self' & r & Hrun & _ & _ & _ & U & _).
    + reflexivity.
    + apply parse_date_tool_default; reflexivity.
    + exists r. rewrite Hrun. split; [reflexivity|].
      rewrite U. reflexivity.
Qed.

Lemma letter_L_gives_liters_witness :
  standardize_unit_tool "MAIN SUPPLY 500" = "liters".
Proof.
  apply (proj1 letter_L_gives_liters "MAIN SUPPLY 500"); reflexivity.
Defined.

(** ** C1: what IDENTIFY_METER stores for an alias *)

(** A key that occurs in the text ends the loop of [fuzzy_match_tool]:
    the result is the first such key, whatever the scores were. *)
Lemma fuzzy_match_loop_contains text threshold keys :
  forall best score name,
    In name keys -> contains name text = true ->
    exists k,
      fuzzy_match_loop text threshold keys best score = Some k
      /\ In k keys /\ contains k text = true.
Proof.
  induction keys as [|key keys IH]; intros best score name Hin Hc;
    [destruct Hin|].
  cbn [fuzzy_match_loop].
  destruct (contains key text) eqn:E.
  - exists key. split; [reflexivity|]. split; [left; reflexivity|exact E].
  - destruct Hin as [->|Hin]; [congruence|].
    destruct (Qlt_bool score (Difflib.ratio key text)
              && Qle_bool threshold (Difflib.ratio key text)).
    + destruct (IH (Some key) (Difflib.ratio key text) name Hin Hc)
        as (k & Hk & Hkin & Hkc).
      exists k. split; [exact Hk|]. split; [right; exact Hkin|exact Hkc].
    + destruct (IH best score name Hin Hc) as (k & Hk & Hkin & Hkc).
      exists k. split; [exact Hk|]. split; [right; exact Hkin|exact Hkc].
Qed.

Lemma names_are_not_tags k :
  In k (List.map fst name_to_tag) -> ~ In k (List.map fst meter_tags).
Proof.
  simpl. intuition (subst; discriminate).
Qed.

(** C1, on the code of [WaterMeterAgent].  When the lookup of the tags
    finds nothing and an alias occurs in the cleaned text, the tag that is
    stored is an alias that occurs in the text, not a canonical tag: its
    entry in [name_to_tag] is never read.  For
    "Kitchen meter reading is 150.5 cubic meters" the stored tag is
    "KITCHEN" and the description is the one of an unknown meter. *)
Theorem alias_is_stored_as_tag :
  (forall now self raw r name,
      WaterMeterAgent.returned (WaterMeterAgent.parse_reading now self raw)
      = Return r ->
      is_blank (clean_text_tool raw) = false ->
      fuzzy_match_tool (clean_text_tool raw) meter_tags = None ->
      In name (List.map fst name_to_tag) ->
      contains name (clean_text_tool raw) = true ->
      exists k,
        meter_tag_of r = Some k
        /\ In k (List.map fst name_to_tag)
        /\ contains k (clean_text_tool raw) = true
        /\ ~ In k (List.map fst meter_tags)
        /\ meter_description r = "Unknown Meter")
  /\ (forall now self,
        exists r,
          WaterMeterAgent.returned
            (WaterMeterAgent.parse_reading now self
               "Kitchen meter reading is 150.5 cubic meters")
          = Return r
          /\ success r = PyBool true
          /\ meter_tag_of r = Some "KITCHEN"
          /\ meter_description r = "Unknown Meter"
          /\ reading_value_of r = Some (301 # 2)%Q
          /\ reading_unit r = Some "cubic_meters").
Proof.
  split.
  - intros now self raw r name Hret Hne Htags Hin Hc.
    destruct (parse_date_tool now (clean_text_tool raw)) as [d|e] eqn:Hd.
    + destruct (parse_reading_returns now self raw d Hne Hd)
        as (self' & r' & Hrun & _ & M & _ & _ & _ & _ & Dn).
      rewrite Hrun in Hret. injection Hret as <-.
      destruct (fuzzy_match_loop_contains (clean_text_tool raw) (6 # 10)
                  (List.map fst name_to_tag) None 0 name Hin Hc)
        as (k & Hk & Hkin & Hkc).
      assert (F : WaterMeterAgent.find_tag (clean_text_tool raw) = Some k)
        by (unfold WaterMeterAgent.find_tag; rewrite Htags; exact Hk).
      rewrite F in M. exists k.
      split; [exact M|]. split; [exact Hkin|]. split; [exact Hkc|].
      split; [apply names_are_not_tags, Hkin|].
      rewrite Dn, M. clear - Hkin. simpl in Hkin.
      intuition (subst; reflexivity).
    + rewrite (parse_reading_raises now self raw e Hne Hd) in Hret.
      discriminate.
  - intros now self.
    destruct (parse_reading_returns now self
                "Kitchen meter reading is 150.5 cubic meters"
                (strftime now))
      as (self' & r & Hrun & _ & M & R & U & _ & S & Dn).
    + reflexivity.
    + apply parse_date_tool_default; reflexivity.
    + assert (F : WaterMeterAgent.find_tag
                    (clean_text_tool
                       "Kitchen meter reading is 150.5 cubic meters")
                  = Some "KITCHEN") by (vm_compute; reflexivity).
      rewrite F in M.
      assert (V : match
                    extract_numbers_tool
                      (clean_text_tool
                         "Kitchen meter reading is 150.5 cubic meters")
                  with
                  | x :: rest => choose_reading x rest
                  | [] => 0%Q
                  end = (301 # 2)%Q) by (vm_compute; reflexivity).
      rewrite V in R.
      exists r. rewrite Hrun. split; [reflexivity|].
      rewrite S, Dn, M, R, U. repeat split.
Qed.

Lemma alias_is_stored_as_tag_witness :
  exists k,
    k = "KITCHEN"
    /\ In k (List.map fst name_to_tag)
    /\ ~ In k (List.map fst meter_tags).
Proof.
  destruct (proj1 alias_is_stored_as_tag (MkDate 2025 3 15)
              WaterMeterAgent.new
              "Kitchen meter reading is 150.5 cubic meters"
              (MkResult (PyBool true) 1 (Some "KITCHEN") "Unknown Meter"
                 (Some (301 # 2)%Q) (Some "cubic_meters")
                 (Some "2025-03-15")
                 ["Potential duplicate reading";
                  "Potential duplicate reading"]
                 "Kitchen meter reading is 150.5 cubic meters")
              "KITCHEN")
    as (k & Hk & Hin & _ & Hnot & _).
  - vm_compute. reflexivity.
  - reflexivity.
  - vm_compute. reflexivity.
  - left. reflexivity.
  - reflexivity.
  - exists k. split; [|split; assumption].
    cbn [meter_tag_of] in Hk. injection Hk as <-. reflexivity.
Defined.

(** ** C3: the duplicate warning *)

(** C3, on the code of [WaterMeterAgent].  The duplicate check is part
    of VALIDATE, which runs three times in a call: the first call on
    "WM001 150 cubic meters 2025-01-15" records the signature at its
    sixth iteration and finds it again at the seventh and at the eighth,
    so that its own result has the warning twice; the second call has it
    three times. *)
Theorem first_parse_warns_of_duplicate now :
  exists r1 r2,
    WaterMeterAgent.returned
      (WaterMeterAgent.parse_reading now WaterMeterAgent.new
         "WM001 150 cubic meters 2025-01-15")
    = Return r1
    /\ WaterMeterAgent.parsing_history
         (WaterMeterAgent.self_after
            (WaterMeterAgent.parse_reading now WaterMeterAgent.new
               "WM001 150 cubic meters 2025-01-15"))
       = ["WM001_2025.0_2025-01-15"]
    /\ mem "Potential duplicate reading" (result_warnings r1) = true
    /\ List.length
         (List.filter (String.eqb "Potential duplicate reading")
            (result_warnings r1))
       = 2
    /\ WaterMeterAgent.returned
         (WaterMeterAgent.parse_reading now
            (WaterMeterAgent.self_after
               (WaterMeterAgent.parse_reading now WaterMeterAgent.new
                  "WM001 150 cubic meters 2025-01-15"))
            "WM001 150 cubic meters 2025-01-15")
       = Return r2
    /\ List.length
         (List.filter (String.eqb "Potential duplicate reading")
            (result_warnings r2))
       = 3.
Proof.
  eexists. eexists.
  split; [vm_compute; reflexivity|].
  split; [vm_compute; reflexivity|].
  split; [vm_compute; reflexivity|].
  split; [vm_compute; reflexivity|].
  split; vm_compute; reflexivity.
Qed.

(** ** The duplicate check inside the loop of [WaterMeterAgent] *)

Lemma mem_app_last (x : string) (h : list string) :
  mem x (h ++ [x]) = true.
Proof.
  unfold mem. rewrite existsb_app. simpl.
  rewrite String.eqb_refl, orb_true_r. reflexivity.
Qed.

(** The signature that was just recorded is in the history, also after the
    history was cut to its last fifty entries. *)
Lemma mem_remember (x : string) (h : list string) :
  mem x (remember h x) = true.
Proof.
  unfold remember. destruct (100 <? List.length (h ++ [x])) eqn:E.
  - apply Nat.ltb_lt in E. unfold last50.
    rewrite length_app in *. simpl in *.
    rewrite skipn_app.
    replace (List.length h + 1 - 50 - List.length h) with 0 by lia.
    unfold mem. rewrite existsb_app. simpl.
    rewrite String.eqb_refl, orb_true_r. reflexivity.
  - apply mem_app_last.
Qed.

Lemma count_app_le (p : string -> bool) (ws ws' : list string) :
  List.length (List.filter p ws) <= List.length (List.filter p (ws ++ ws')).
Proof. rewrite filter_app, length_app. lia. Qed.

(** One VALIDATE: the signature is in the history afterwards, and if it
    was there before, one more duplicate warning is in the state. *)
Lemma validate_step_duplicate now self st v :
  reading_value st = Some v ->
  exists self' ws,
    WaterMeterAgent._act now self st VALIDATE
    = Return (self', set_warnings st ws)
    /\ mem (reading_signature (meter_tag st) (reading_value st) (date st))
           (WaterMeterAgent.parsing_history self') = true
    /\ List.length
         (List.filter (String.eqb "Potential duplicate reading")
            (warnings st))
       <= List.length
            (List.filter (String.eqb "Potential duplicate reading") ws)
    /\ (mem (reading_signature (meter_tag st) (reading_value st) (date st))
            (WaterMeterAgent.parsing_history self) = true ->
        S (List.length
             (List.filter (String.eqb "Potential duplicate reading")
                (warnings st)))
        <= List.length
             (List.filter (String.eqb "Potential duplicate reading") ws)).
Proof.
  intros Hv. unfold WaterMeterAgent._act, WaterMeterAgent.validate_call.
  rewrite Hv. unfold bind.
  destruct (validate_range_tool v _) as [is_valid message].
  set (st1 := if negb is_valid then add_warning st message else st).
  assert (Hsig : reading_signature (meter_tag st1) (reading_value st1)
                   (date st1)
                 = reading_signature (meter_tag st) (Some v) (date st))
    by (unfold st1; destruct is_valid;
        cbn [negb add_warning set_warnings meter_tag reading_value date];
        rewrite Hv; reflexivity).
  assert (Hcount : List.length
                     (List.filter (String.eqb "Potential duplicate reading")
                        (warnings st))
                   <= List.length
                        (List.filter
                           (String.eqb "Potential duplicate reading")
                           (warnings st1)))
    by (unfold st1; destruct is_valid; cbn [negb];
        [apply le_n|apply count_app_le]).
  assert (Hshape : st1 = set_warnings st (warnings st1))
    by (unfold st1; destruct is_valid; cbn [negb];
        [symmetry; apply set_warnings_same|reflexivity]).
  rewrite Hsig.
  destruct (mem _ (WaterMeterAgent.parsing_history self)) eqn:E.
  - exists self, (warnings st1 ++ ["Potential duplicate reading"])%list.
    split; [unfold add_warning; rewrite Hshape at 1; reflexivity|].
    split; [exact E|].
    rewrite filter_app, length_app.
    change (List.length
              (List.filter (String.eqb "Potential duplicate reading")
                 ["Potential duplicate reading"])) with 1.
    split; [lia|intros _; lia].
  - eexists _, (warnings st1).
    split; [rewrite Hshape at 1; reflexivity|].
    split; [apply mem_remember|]. split; [exact Hcount|discriminate].
Qed.

(** [n] iterations of VALIDATE leave at least [n - 1] duplicate warnings,
    and [n] when the signature was already in the history. *)
Lemma validate_loop_duplicates now n :
  forall self st log text tag v u d,
    cleaned_text st = Some text -> meter_tag st = Some tag ->
    reading_value st = Some v -> unit_ st = Some u -> date st = Some d ->
    exists self' ws,
      WaterMeterAgent.react_loop now n self st log
      = (self', (log ++ repeat VALIDATE n)%list, Return (set_warnings st ws))
      /\ List.length
           (List.filter (String.eqb "Potential duplicate reading")
              (warnings st)) + (n - 1)
         <= List.length
              (List.filter (String.eqb "Potential duplicate reading") ws)
      /\ (mem (reading_signature (meter_tag st) (reading_value st) (date st))
              (WaterMeterAgent.parsing_history self) = true ->
          List.length
            (List.filter (String.eqb "Potential duplicate reading")
               (warnings st)) + n
          <= List.length
               (List.filter (String.eqb "Potential duplicate reading") ws)).
Proof.
  induction n as [|n IH]; intros self st log text tag v u d H1 H2 H3 H4 H5.
  - exists self, (warnings st). simpl.
    rewrite set_warnings_same, app_nil_r.
    split; [reflexivity|]. split; [lia|intros _; lia].
  - destruct (validate_step_duplicate now self st v H3)
      as (self1 & ws1 & Hact & Hmem & Hle & Hlt).
    destruct (IH self1 (set_warnings st ws1) (log ++ [VALIDATE])%list
                 text tag v u d H1 H2 H3 H4 H5)
      as (self2 & ws2 & Hloop & _ & Hall).
    specialize (Hall Hmem). cbn [warnings set_warnings] in Hall.
    exists self2, ws2. split; [|split].
    + rewrite (react_loop_act now n self st log VALIDATE self1
                 (set_warnings st ws1));
        [|eapply think_validate; eassumption|discriminate|discriminate
         |exact Hact].
      rewrite Hloop, <- app_assoc. reflexivity.
    + lia.
    + intros Hbefore. specialize (Hlt Hbefore). lia.
Qed.

(** Every call of [WaterMeterAgent.parse_reading] that reaches VALIDATE
    reports its own reading as a duplicate, at least twice, whatever the
    history was. *)
Lemma parse_reading_reports_itself now self raw d :
  is_blank (clean_text_tool raw) = false ->
  parse_date_tool now (clean_text_tool raw) = Return d ->
  exists r,
    WaterMeterAgent.returned (WaterMeterAgent.parse_reading now self raw)
    = Return r
    /\ 2 <= List.length
              (List.filter (String.eqb "Potential duplicate reading")
                 (result_warnings r)).
Proof.
  intros Hne Hd.
  destruct (react_loop_four now 4 self raw Hne)
    as (s4 & Hfour & I4 & C4 & M4 & R4 & U4 & D4).
  unfold WaterMeterAgent.parse_reading.
  change WaterMeterAgent.max_steps with (4 + 4). rewrite Hfour.
  set (s5 := add_confidence (set_date s4 d) (1 # 10)).
  rewrite (react_loop_act now 3 self s4 _ PARSE_DATE self s5);
    [|eapply think_parse_date; eassumption|discriminate|discriminate
     |unfold WaterMeterAgent._act, text_of, bind; rewrite C4, Hd;
      reflexivity].
  destruct (validate_loop_duplicates now 3 self s5
              [CLEAN_TEXT; IDENTIFY_METER; EXTRACT_READING; IDENTIFY_UNIT;
               PARSE_DATE]
              _ _ _ _ d C4 M4 R4 U4 eq_refl)
    as (self' & ws & Hloop & Hcount & _).
  cbn [app]. rewrite Hloop. eexists. split; [reflexivity|].
  cbn [_generate_result result_warnings warnings set_warnings].
  lia.
Qed.

(** ** The sibling: the loop of [LocalLangChainStyleAgent] *)

Lemma local_loop_act now n st log a st' :
  LocalLangChainStyleAgent._think st = a ->
  a <> COMPLETE -> a <> FAIL ->
  LocalLangChainStyleAgent._act now st a = Return st' ->
  LocalLangChainStyleAgent._execute_react_loop now (S n) st log
  = LocalLangChainStyleAgent._execute_react_loop now n st' (log ++ [a])%list.
Proof.
  intros Hthink Hc Hf Hact.
  cbn [LocalLangChainStyleAgent._execute_react_loop]. rewrite Hthink.
  destruct a; try congruence; rewrite Hact; reflexivity.
Qed.

Lemma local_loop_raise now n st log a e :
  LocalLangChainStyleAgent._think st = a ->
  a <> COMPLETE -> a <> FAIL ->
  LocalLangChainStyleAgent._act now st a = Raise e ->
  LocalLangChainStyleAgent._execute_react_loop now (S n) st log
  = ((log ++ [a])%list, Raise e).
Proof.
  intros Hthink Hc Hf Hact.
  cbn [LocalLangChainStyleAgent._execute_react_loop]. rewrite Hthink.
  destruct a; try congruence; rewrite Hact; reflexivity.
Qed.

Lemma local_loop_fail now n st log :
  LocalLangChainStyleAgent._think st = FAIL ->
  LocalLangChainStyleAgent._execute_react_loop now (S n) st log
  = ((log ++ [FAIL])%list,
     Return (add_warning st "Parsing failed - insufficient data")).
Proof.
  intros Hthink.
  cbn [LocalLangChainStyleAgent._execute_react_loop]. rewrite Hthink.
  reflexivity.
Qed.

Lemma local_loop_complete now n st log :
  LocalLangChainStyleAgent._think st = COMPLETE ->
  LocalLangChainStyleAgent._execute_react_loop now (S n) st log
  = ((log ++ [COMPLETE])%list, Return st).
Proof.
  intros Hthink.
  cbn [LocalLangChainStyleAgent._execute_react_loop]. rewrite Hthink.
  reflexivity.
Qed.

(** The first four actions of the sibling on a text that is not blank. *)
Lemma local_loop_four now n raw :
  is_blank (clean_text_tool raw) = false ->
  exists st calls,
    LocalLangChainStyleAgent._execute_react_loop now (4 + n)
      (initial_state raw) []
    = LocalLangChainStyleAgent._execute_react_loop now n st
        [CLEAN_TEXT; IDENTIFY_METER; EXTRACT_READING; IDENTIFY_UNIT]
    /\ cleaned_text st = Some (clean_text_tool raw)
    /\ meter_tag st
       = Some (LocalLangChainStyleAgent.MeterIdentificationTool_run
                 (clean_text_tool raw))
    /\ reading_value st
       = Some (match extract_numbers_tool (clean_text_tool raw) with
               | x :: rest => choose_reading x rest
               | [] => 0%Q
               end)
    /\ unit_ st = Some (standardize_unit_tool (clean_text_tool raw))
    /\ date st = None
    /\ tool_calls st = calls
    /\ List.map (fun call => fst (fst call)) calls
       = ["clean_text"; "identify_meter"; "extract_numbers";
          "standardize_unit"].
Proof.
  intros Hne.
  set (text := clean_text_tool raw) in *.
  set (tag := LocalLangChainStyleAgent.MeterIdentificationTool_run text).
  set (s1 := add_tool_call (set_cleaned_text (initial_state raw) text)
               ("clean_text", raw, text)).
  set (s2 := add_tool_call
               (if negb (String.eqb tag "UNKNOWN")
                then add_confidence (set_meter_tag s1 tag) (3 # 10)
                else add_warning (set_meter_tag s1 tag)
                       "Could not identify meter tag")
               ("identify_meter", text, tag)).
  set (s3 := add_tool_call
               (match extract_numbers_tool text with
                | x :: rest =>
                    add_confidence
                      (set_reading_value s2 (choose_reading x rest)) (4 # 10)
                | [] => add_warning (set_reading_value s2 0)
                          "No numeric reading detected"
                end)
               ("extract_numbers", text,
                LocalLangChainStyleAgent.json_dumps
                  (extract_numbers_tool text))).
  set (s4 := add_tool_call
               (add_confidence (set_unit s3 (standardize_unit_tool text))
                               (2 # 10))
               ("standardize_unit", text, standardize_unit_tool text)).
  assert (C2 : cleaned_text s2 = Some text)
    by (unfold s2; destruct (negb (String.eqb tag "UNKNOWN")); reflexivity).
  assert (M2 : meter_tag s2 = Some tag)
    by (unfold s2; destruct (negb (String.eqb tag "UNKNOWN")); reflexivity).
  assert (R2 : reading_value s2 = None)
    by (unfold s2; destruct (negb (String.eqb tag "UNKNOWN")); reflexivity).
  assert (U2 : unit_ s2 = None)
    by (unfold s2; destruct (negb (String.eqb tag "UNKNOWN")); reflexivity).
  assert (D2 : date s2 = None)
    by (unfold s2; destruct (negb (String.eqb tag "UNKNOWN")); reflexivity).
  assert (T2 : tool_calls s2
               = [("clean_text", raw, text); ("identify_meter", text, tag)])
    by (unfold s2; destruct (negb (String.eqb tag "UNKNOWN")); reflexivity).
  assert (C3 : cleaned_text s3 = Some text)
    by (unfold s3; destruct (extract_numbers_tool text); exact C2).
  assert (M3 : meter_tag s3 = Some tag)
    by (unfold s3; destruct (extract_numbers_tool text); exact M2).
  assert (R3 : reading_value s3
               = Some (match extract_numbers_tool text with
                       | x :: rest => choose_reading x rest
                       | [] => 0%Q
                       end))
    by (unfold s3; destruct (extract_numbers_tool text); reflexivity).
  assert (U3 : unit_ s3 = None)
    by (unfold s3; destruct (extract_numbers_tool text); exact U2).
  assert (D3 : date s3 = None)
    by (unfold s3; destruct (extract_numbers_tool text); exact D2).
  assert (T3 : tool_calls s3
               = [("clean_text", raw, text); ("identify_meter", text, tag);
                  ("extract_numbers", text,
                   LocalLangChainStyleAgent.json_dumps
                     (extract_numbers_tool text))])
    by (unfold s3; destruct (extract_numbers_tool text);
        cbn [tool_calls add_tool_call add_confidence add_warning set_warnings
             set_reading_value];
        rewrite T2; reflexivity).
  exists s4, (tool_calls s4). split; [|repeat split].
  - change (4 + n) with (S (S (S (S n)))).
    rewrite (local_loop_act now _ (initial_state raw) [] CLEAN_TEXT s1);
      [|reflexivity|discriminate|discriminate|reflexivity].
    rewrite (local_loop_act now _ s1 _ IDENTIFY_METER s2);
      [|unfold LocalLangChainStyleAgent._think;
        cbn [s1 cleaned_text set_cleaned_text meter_tag initial_state
             add_tool_call];
        rewrite Hne; reflexivity
       |discriminate|discriminate
       |reflexivity].
    rewrite (local_loop_act now _ s2 _ EXTRACT_READING s3);
      [|unfold LocalLangChainStyleAgent._think; rewrite C2, M2, R2;
        reflexivity
       |discriminate|discriminate
       |unfold LocalLangChainStyleAgent._act, text_of, bind, s3,
          LocalLangChainStyleAgent.ExtractNumbersTool_run;
        rewrite C2; reflexivity].
    rewrite (local_loop_act now _ s3 _ IDENTIFY_UNIT s4);
      [|unfold LocalLangChainStyleAgent._think; rewrite C3, M3, R3, U3;
        reflexivity
       |discriminate|discriminate
       |unfold LocalLangChainStyleAgent._act, text_of, bind, s4;
        rewrite C3; reflexivity].
    reflexivity.
  - exact C3.
  - exact M3.
  - exact R3.
  - exact D3.
  - cbn [s4 tool_calls add_tool_call add_confidence set_unit].
    rewrite T3. reflexivity.
Qed.

Lemma existsb_on_names (p : string -> bool)
    (calls : list (string * string * string)) :
  existsb (fun call => p (fst (fst call))) calls
  = existsb p (List.map (fun call => fst (fst call)) calls).
Proof.
  induction calls as [|c calls IH]; [reflexivity|].
  simpl. rewrite IH. reflexivity.
Qed.

(** The last decisions of the sibling: VALIDATE while no call of
    "validate_range" is recorded, COMPLETE afterwards. *)
Lemma local_think_last st text tag v u d :
  cleaned_text st = Some text -> meter_tag st = Some tag ->
  reading_value st = Some v -> unit_ st = Some u -> date st = Some d ->
  LocalLangChainStyleAgent._think st
  = if existsb (contains "validate_range")
         (List.map (fun call => fst (fst call)) (tool_calls st))
    then COMPLETE else VALIDATE.
Proof.
  intros H1 H2 H3 H4 H5. unfold LocalLangChainStyleAgent._think.
  rewrite H1, H2, H3, H4, H5, existsb_on_names.
  destruct (existsb _ _); reflexivity.
Qed.

Lemma local_think_parse_date st text tag v u :
  cleaned_text st = Some text -> meter_tag st = Some tag ->
  reading_value st = Some v -> unit_ st = Some u -> date st = None ->
  LocalLangChainStyleAgent._think st = PARSE_DATE.
Proof.
  intros H1 H2 H3 H4 H5. unfold LocalLangChainStyleAgent._think.
  rewrite H1, H2, H3, H4, H5. reflexivity.
Qed.

(** VALIDATE in the sibling: the warnings may grow, and one call is
    recorded. *)
Lemma local_validate_step now st :
  exists ws input result,
    LocalLangChainStyleAgent._act now st VALIDATE
    = Return (add_tool_call (set_warnings st ws)
                ("validate_range", input, result)).
Proof.
  unfold LocalLangChainStyleAgent._act.
  destruct (String.eqb _ "OUT_OF_RANGE");
    [|destruct (String.eqb _ "UNKNOWN_UNIT")].
  - eexists _, _, _. unfold add_warning. reflexivity.
  - eexists _, _, _. unfold add_warning. reflexivity.
  - eexists _, _, _. rewrite set_warnings_same. reflexivity.
Qed.

(** The three shapes of a run of the sibling's loop. *)
Lemma local_loop_shapes now raw :
  let text := clean_text_tool raw in
  (is_blank text = true
   /\ exists st,
        LocalLangChainStyleAgent._execute_react_loop now
          LocalLangChainStyleAgent.max_steps (initial_state raw) []
        = ([CLEAN_TEXT; FAIL], Return st))
  \/ (is_blank text = false
      /\ exists e,
           parse_date_tool now text = Raise e
           /\ LocalLangChainStyleAgent._execute_react_loop now
                LocalLangChainStyleAgent.max_steps (initial_state raw) []
              = ([CLEAN_TEXT; IDENTIFY_METER; EXTRACT_READING; IDENTIFY_UNIT;
                  PARSE_DATE], Raise e))
  \/ (is_blank text = false
      /\ exists d st,
           parse_date_tool now text = Return d
           /\ LocalLangChainStyleAgent._execute_react_loop now
                LocalLangChainStyleAgent.max_steps (initial_state raw) []
              = ([CLEAN_TEXT; IDENTIFY_METER; EXTRACT_READING; IDENTIFY_UNIT;
                  PARSE_DATE; VALIDATE; COMPLETE], Return st)
           /\ meter_tag st
              = Some (LocalLangChainStyleAgent.MeterIdentificationTool_run
                        text)
           /\ reading_value st
              = Some (match extract_numbers_tool text with
                      | x :: rest => choose_reading x rest
                      | [] => 0%Q
                      end)
           /\ unit_ st = Some (standardize_unit_tool text)
           /\ date st = Some d).
Proof.
  intros text. unfold LocalLangChainStyleAgent.max_steps.
  destruct (is_blank text) eqn:Hblank.
  - left. split; [reflexivity|]. eexists.
    rewrite (local_loop_act now 7 (initial_state raw) [] CLEAN_TEXT
               (add_tool_call (set_cleaned_text (initial_state raw) text)
                  ("clean_text", raw, text)));
      [|reflexivity|discriminate|discriminate|reflexivity].
    rewrite local_loop_fail; [reflexivity|].
    unfold LocalLangChainStyleAgent._think.
    cbn [cleaned_text set_cleaned_text meter_tag initial_state add_tool_call].
    fold text. rewrite Hblank. reflexivity.
  - right.
    destruct (local_loop_four now 4 raw Hblank)
      as (s4 & calls & Hfour & C4 & M4 & R4 & U4 & D4 & T4 & N4).
    change 8 with (4 + 4). rewrite Hfour. fold text in C4, M4, R4, U4.
    destruct (parse_date_tool now text) as [d|e] eqn:Hd.
    + right. split; [reflexivity|].
      set (s5 := add_tool_call (add_confidence (set_date s4 d) (1 # 10))
                   ("parse_date", text, d)).
      destruct (local_validate_step now s5) as (ws & input & result & Hact).
      exists d, (add_tool_call (set_warnings s5 ws)
                   ("validate_range", input, result)).
      split; [reflexivity|]. split; [|repeat split; assumption].
      set (s6 := add_tool_call (set_warnings s5 ws)
                   ("validate_range", input, result)) in *.
      assert (C5 : cleaned_text s5 = Some text) by exact C4.
      assert (M5 : meter_tag s5 = meter_tag s4) by reflexivity.
      assert (R5 : reading_value s5 = reading_value s4) by reflexivity.
      assert (U5 : unit_ s5 = unit_ s4) by reflexivity.
      assert (D5 : date s5 = Some d) by reflexivity.
      assert (T5 : tool_calls s5 = (calls ++ [("parse_date", text, d)])%list)
        by (cbn [s5 tool_calls add_tool_call add_confidence set_date];
            rewrite T4; reflexivity).
      assert (C6 : cleaned_text s6 = Some text) by exact C4.
      assert (M6 : meter_tag s6 = meter_tag s4) by reflexivity.
      assert (R6 : reading_value s6 = reading_value s4) by reflexivity.
      assert (U6 : unit_ s6 = unit_ s4) by reflexivity.
      assert (D6 : date s6 = Some d) by reflexivity.
      assert (T6 : tool_calls s6
                   = ((calls ++ [("parse_date", text, d)])
                      ++ [("validate_range", input, result)])%list)
        by (cbn [s6 tool_calls add_tool_call set_warnings];
            rewrite T5; reflexivity).
      rewrite M4 in M5, M6. rewrite R4 in R5, R6. rewrite U4 in U5, U6.
      rewrite (local_loop_act now 3 s4 _ PARSE_DATE s5);
        [|eapply local_think_parse_date; eassumption
         |discriminate|discriminate
         |unfold LocalLangChainStyleAgent._act,
            LocalLangChainStyleAgent.ParseDateTool_run, text_of, bind;
          rewrite C4, Hd; reflexivity].
      rewrite (local_loop_act now 2 s5 _ VALIDATE s6);
        [|rewrite (local_think_last s5 _ _ _ _ _ C5 M5 R5 U5 D5);
          rewrite T5, List.map_app, N4; reflexivity
         |discriminate|discriminate|exact Hact].
      rewrite local_loop_complete; [reflexivity|].
      rewrite (local_think_last s6 _ _ _ _ _ C6 M6 R6 U6 D6).
      rewrite T6, !List.map_app, N4. reflexivity.
    + left. split; [reflexivity|]. exists e. split; [reflexivity|].
      rewrite (local_loop_raise now 3 s4 _ PARSE_DATE e);
        [reflexivity|eapply local_think_parse_date; eassumption
        |discriminate|discriminate|].
      unfold LocalLangChainStyleAgent._act,
        LocalLangChainStyleAgent.ParseDateTool_run, text_of, bind.
      rewrite C4, Hd. reflexivity.
Qed.

(** In the sibling no action is decided twice, and the loop ends on FAIL,
    on COMPLETE or on the exception of the date stage. *)
Lemma local_decisions_are_distinct now self raw :
  NoDup (LocalLangChainStyleAgent.decisions
           (LocalLangChainStyleAgent.parse_reading now self raw)).
Proof.
  unfold LocalLangChainStyleAgent.parse_reading.
  destruct (local_loop_shapes now raw)
    as [(_ & st & H)|[(_ & e & _ & H)|(_ & d & st & _ & H & _)]];
    rewrite H.
  - destruct (LocalLangChainStyleAgent._check_duplicates self _).
    cbn [LocalLangChainStyleAgent.decisions].
    repeat (constructor; [simpl; intuition discriminate|]). constructor.
  - cbn [LocalLangChainStyleAgent.decisions].
    repeat (constructor; [simpl; intuition discriminate|]). constructor.
  - destruct (LocalLangChainStyleAgent._check_duplicates self _).
    cbn [LocalLangChainStyleAgent.decisions].
    repeat (constructor; [simpl; intuition discriminate|]). constructor.
Qed.

(** The sibling turns the exception of the date stage into a result that
    has the keys of the fault only. *)
Lemma local_fault_is_returned now self raw e :
  is_blank (clean_text_tool raw) = false ->
  parse_date_tool now (clean_text_tool raw) = Raise e ->
  LocalLangChainStyleAgent.parse_reading now self raw
  = LocalLangChainStyleAgent.MkRun self
      [CLEAN_TEXT; IDENTIFY_METER; EXTRACT_READING; IDENTIFY_UNIT;
       PARSE_DATE]
      (LocalLangChainStyleAgent.Fault (PyBool false) (str_of_exn e) raw
         "local_langchain_style").
Proof.
  intros Hne Hd. unfold LocalLangChainStyleAgent.parse_reading.
  destruct (local_loop_shapes now raw)
    as [(Hb & _)|[(_ & e' & Hd' & H)|(_ & d & st & Hd' & _)]];
    cbv zeta in *.
  - congruence.
  - rewrite H. replace e' with e by congruence. reflexivity.
  - congruence.
Qed.

(** The examples of C1, C3 and C4 on the sibling. *)
Lemma local_alias_gives_its_tag :
  exists r,
    LocalLangChainStyleAgent.returned
      (LocalLangChainStyleAgent.parse_reading (MkDate 2025 3 15)
         LocalLangChainStyleAgent.new
         "Kitchen meter reading is 150.5 cubic meters")
    = LocalLangChainStyleAgent.Parsed r
    /\ success (LocalLangChainStyleAgent.base r) = PyBool true
    /\ meter_tag_of (LocalLangChainStyleAgent.base r) = Some "WM001"
    /\ reading_value_of (LocalLangChainStyleAgent.base r)
       = Some (301 # 2)%Q
    /\ reading_unit (LocalLangChainStyleAgent.base r) = Some "cubic_meters".
Proof.
  eexists. split; [vm_compute; reflexivity|]. repeat split.
Qed.

Lemma local_duplicate_on_second_parse_only now :
  exists r1 r2,
    LocalLangChainStyleAgent.returned
      (LocalLangChainStyleAgent.parse_reading now
         LocalLangChainStyleAgent.new "WM001 150 cubic meters 2025-01-15")
    = LocalLangChainStyleAgent.Parsed r1
    /\ mem "Potential duplicate reading"
         (result_warnings (LocalLangChainStyleAgent.base r1)) = false
    /\ LocalLangChainStyleAgent.returned
         (LocalLangChainStyleAgent.parse_reading now
            (LocalLangChainStyleAgent.self_after
               (LocalLangChainStyleAgent.parse_reading now
                  LocalLangChainStyleAgent.new
                  "WM001 150 cubic meters 2025-01-15"))
            "WM001 150 cubic meters 2025-01-15")
       = LocalLangChainStyleAgent.Parsed r2
    /\ List.filter (String.eqb "Potential duplicate reading")
         (result_warnings (LocalLangChainStyleAgent.base r2))
       = ["Potential duplicate reading"].
Proof.
  eexists. eexists.
  split; [vm_compute; reflexivity|].
  split; [vm_compute; reflexivity|].
  split; vm_compute; reflexivity.
Qed.

Lemma local_yesterday_fault :
  LocalLangChainStyleAgent.returned
    (LocalLangChainStyleAgent.parse_reading (MkDate 2025 3 1)
       LocalLangChainStyleAgent.new "reading yesterday")
  = LocalLangChainStyleAgent.Fault (PyBool false)
      "day is out of range for month" "reading yesterday"
      "local_langchain_style".
Proof. vm_compute. reflexivity. Qed.

(** * Further properties of the tools *)

(** ** [clean_text_tool]: the alphabet and the length of its output *)

Lemma sub_ws_from_spaces (b : bool) (s : string) :
  PyStr.forallb (fun c => Ascii.eqb c " " || negb (is_space c))
    (sub_ws_from b s) = true.
Proof.
  revert b. induction s as [|c s IH]; intros b; [reflexivity|].
  simpl. destruct (is_space c) eqn:E; [destruct b|].
  - apply IH.
  - change (true && PyStr.forallb
                      (fun c => Ascii.eqb c " " || negb (is_space c))
                      (sub_ws_from true s) = true).
    apply IH.
  - simpl. rewrite E, orb_true_r. apply IH.
Qed.

Lemma sub_special_spaces (s : string) :
  PyStr.forallb (fun c => Ascii.eqb c " " || negb (is_space c)) s = true ->
  PyStr.forallb
    (fun c => Ascii.eqb c " " || (kept c && negb (is_space c)))
    (sub_special s) = true.
Proof.
  induction s as [|c s IH]; [reflexivity|].
  simpl. intros H. apply andb_prop in H as [Hc Hs].
  unfold sub_special in *. simpl. rewrite (IH Hs), andb_true_r.
  destruct (kept c) eqn:K; [|reflexivity].
  rewrite K. destruct (Ascii.eqb c " "); [reflexivity|exact Hc].
Qed.

Lemma to_upper_alphabet (c : ascii) :
  Ascii.eqb c " " || (kept c && negb (is_space c)) = true ->
  is_digit (to_upper c) || is_upper (to_upper c)
  || Ascii.eqb (to_upper c) "_" || Ascii.eqb (to_upper c) " "
  || Ascii.eqb (to_upper c) "." || Ascii.eqb (to_upper c) "-"
  || Ascii.eqb (to_upper c) ":" || Ascii.eqb (to_upper c) "/" = true.
Proof.
  destruct c as [[] [] [] [] [] [] [] []]; intros H;
    first [reflexivity | discriminate H].
Qed.

(** X1.  The cleaned text is written with digits, capital letters, the
    underscore, the space and the four signs [. - : /] only: no small
    letter, no other sign and no whitespace other than the space is left. *)
Theorem clean_text_tool_alphabet (x : string) :
  PyStr.forallb
    (fun c =>
       is_digit c || is_upper c || Ascii.eqb c "_" || Ascii.eqb c " "
       || Ascii.eqb c "." || Ascii.eqb c "-" || Ascii.eqb c ":"
       || Ascii.eqb c "/")
    (clean_text_tool x) = true.
Proof.
  unfold clean_text_tool.
  pose proof (sub_special_spaces _ (sub_ws_from_spaces false (strip x))) as H.
  fold (sub_ws (strip x)) in H.
  induction (sub_special (sub_ws (strip x))) as [|c s IH]; [reflexivity|].
  simpl in H. apply andb_prop in H as [Hc Hs].
  unfold upper in *. simpl. rewrite (to_upper_alphabet c Hc). apply IH, Hs.
Qed.

Lemma rstrip_length (s : string) : String.length (rstrip s) <= String.length s.
Proof.
  induction s as [|c s IH]; simpl; [lia|].
  destruct (rstrip s); [destruct (is_space c)|]; simpl in *; lia.
Qed.

Lemma sub_ws_from_length (b : bool) (s : string) :
  String.length (sub_ws_from b s) <= String.length s.
Proof.
  revert b. induction s as [|c s IH]; intros b; simpl; [lia|].
  destruct (is_space c); [destruct b|]; simpl.
  - specialize (IH true). lia.
  - specialize (IH true). lia.
  - specialize (IH false). lia.
Qed.

Lemma map_length (f : ascii -> ascii) (s : string) :
  String.length (PyStr.map f s) = String.length s.
Proof.
  induction s as [|c s IH]; simpl; [reflexivity|]. rewrite IH. reflexivity.
Qed.

(** X2.  Cleaning never lengthens a text. *)
Theorem clean_text_tool_length (x : string) :
  String.length (clean_text_tool x) <= String.length x.
Proof.
  unfold clean_text_tool, upper, sub_special, sub_ws, strip.
  rewrite !map_length.
  pose proof (sub_ws_from_length false (rstrip (lstrip x))).
  pose proof (rstrip_length (lstrip x)).
  pose proof (lstrip_length x). lia.
Qed.

(** ** [extract_numbers_tool]: when it finds nothing, and what it finds *)

Lemma findall_from_nil (s : string) :
  forall st,
    findall_from st s = [] <->
    st = Outside /\ PyStr.forallb (fun c => negb (is_digit c)) s = true.
Proof.
  induction s as [|c s IH]; intros st.
  - simpl. destruct st; split; intros H; try discriminate; auto;
      destruct H; discriminate.
  - destruct st as [|ds|ds fs]; cbn [findall_from PyStr.forallb].
    + destruct (is_digit c) eqn:E; cbn [negb andb].
      * rewrite IH. split; [intros [H _]; discriminate|].
        intros [_ H]. discriminate.
      * rewrite IH. tauto.
    + destruct (is_digit c); [|destruct (Ascii.eqb c ".")];
        try rewrite IH;
        (split; [intros H; first [discriminate | destruct H; discriminate]
                |intros [H _]; discriminate]).
    + destruct (is_digit c);
        try rewrite IH;
        (split; [intros H; first [discriminate | destruct H; discriminate]
                |intros [H _]; discriminate]).
Qed.

Lemma digits_value_from_nonneg (ds : list nat) :
  forall acc, (0 <= acc)%Z ->
    (0 <= fold_left (fun acc d => (10 * acc + Z.of_nat d)%Z) ds acc)%Z.
Proof.
  induction ds as [|d ds IH]; intros acc H; cbn [fold_left]; [exact H|].
  apply IH. lia.
Qed.

Lemma float_of_match_nonneg (m : number_match) :
  (0 <= float_of_match m)%Q.
Proof.
  unfold float_of_match. rewrite Qred_correct.
  unfold Qle. simpl. rewrite Z.mul_1_r.
  apply digits_value_from_nonneg. lia.
Qed.

(** X3.  The list of numbers is empty exactly when the text has no digit,
    and no number is negative: a sign before the digits is not read. *)
Theorem extract_numbers_tool_empty_iff_no_digit (text : string) :
  (extract_numbers_tool text = [] <->
   PyStr.forallb (fun c => negb (is_digit c)) text = true)
  /\ Forall (fun v => (0 <= v)%Q) (extract_numbers_tool text).
Proof.
  unfold extract_numbers_tool, findall_numbers. split.
  - split.
    + intros H. apply map_eq_nil in H.
      apply findall_from_nil in H. apply H.
    + intros H.
      assert (E : findall_from Outside text = [])
        by (apply findall_from_nil; split; [reflexivity|exact H]).
      rewrite E. reflexivity.
  - apply Forall_map, Forall_forall. intros m _.
    apply float_of_match_nonneg.
Qed.

(** ** [standardize_unit_tool]: the entries that decide *)

(** X4.  The unit is decided by five of the eleven variants: "CU M",
    "CUBIC M" and "M3" give cubic meters, then "GAL" gives gallons, then
    "L" gives liters, and anything else gives the default.  The entries
    "CUBIC METER", "CUBIC METERS", "GALLON", "GALLONS", "LITER" and
    "LITERS" never decide, since a shorter variant of the same unit is
    found before them.  The result is always one of the three units. *)
Theorem standardize_unit_tool_decision (text : string) :
  standardize_unit_tool text
  = (if contains "CU M" text || contains "CUBIC M" text
        || contains "M3" text
     then "cubic_meters"
     else if contains "GAL" text then "gallons"
     else if contains "L" text then "liters"
     else "cubic_meters")
  /\ (standardize_unit_tool text = "cubic_meters"
      \/ standardize_unit_tool text = "gallons"
      \/ standardize_unit_tool text = "liters").
Proof.
  assert (E : standardize_unit_tool text
              = (if contains "CU M" text || contains "CUBIC M" text
                    || contains "M3" text
                 then "cubic_meters"
                 else if contains "GAL" text then "gallons"
                 else if contains "L" text then "liters"
                 else "cubic_meters")).
  { unfold standardize_unit_tool, unit_map. cbn [first_variant].
    destruct (contains "CU M" text); [reflexivity|].
    destruct (contains "CUBIC M" text) eqn:H2; [reflexivity|].
    destruct (contains "M3" text); [reflexivity|].
    pose proof (not_contains_longer "CUBIC M" "ETER" text H2) as H4.
    pose proof (not_contains_longer "CUBIC M" "ETERS" text H2) as H5.
    cbn [append] in H4, H5. rewrite H4, H5. cbn [orb].
    destruct (contains "GAL" text) eqn:H6; [reflexivity|].
    pose proof (not_contains_longer "GAL" "LON" text H6) as H7.
    pose proof (not_contains_longer "GAL" "LONS" text H6) as H8.
    cbn [append] in H7, H8. rewrite H7, H8.
    destruct (contains "L" text) eqn:H9; [reflexivity|].
    pose proof (not_contains_longer "L" "ITER" text H9) as H10.
    pose proof (not_contains_longer "L" "ITERS" text H9) as H11.
    cbn [append] in H10, H11. rewrite H10, H11. reflexivity. }
  split; [exact E|]. rewrite E.
  destruct (_ || _ || _); [auto|].
  destruct (contains "GAL" text); [auto|].
  destruct (contains "L" text); auto.
Qed.

(** ** [fuzzy_match_tool]: literal matches first, then the best score *)

(** A key that occurs in the text is returned at once: the result is the
    first key, in the order of the dictionary, that occurs in the text. *)
Lemma fuzzy_match_loop_literal text threshold keys :
  forall best score k,
    LocalLangChainStyleAgent.first_key_in keys text = Some k ->
    fuzzy_match_loop text threshold keys best score = Some k.
Proof.
  induction keys as [|key keys IH]; intros best score k; [discriminate|].
  cbn [LocalLangChainStyleAgent.first_key_in fuzzy_match_loop].
  destruct (contains key text); [trivial|].
  intros H. destruct (_ && _); apply IH, H.
Qed.

(** Without a literal match, the loop keeps the first key of the highest
    score among those that reach the threshold. *)
Lemma fuzzy_match_loop_best text threshold keys :
  forall best score,
    LocalLangChainStyleAgent.first_key_in keys text = None ->
    match fuzzy_match_loop text threshold keys best score with
    | Some k =>
        (best = Some k
         /\ Forall (fun key =>
                      (Difflib.ratio key text <= score)%Q
                      \/ (Difflib.ratio key text < threshold)%Q) keys)
        \/ (In k keys
            /\ (threshold <= Difflib.ratio k text)%Q
            /\ (score < Difflib.ratio k text)%Q
            /\ Forall (fun key =>
                         (Difflib.ratio key text <= Difflib.ratio k text)%Q
                         \/ (Difflib.ratio key text < threshold)%Q) keys)
    | None =>
        best = None
        /\ Forall (fun key =>
                     (Difflib.ratio key text <= score)%Q
                     \/ (Difflib.ratio key text < threshold)%Q) keys
    end.
Proof.
  induction keys as [|key keys IH]; intros best score Hlit.
  - simpl. destruct best; [left|]; split; auto.
  - cbn [LocalLangChainStyleAgent.first_key_in] in Hlit.
    cbn [fuzzy_match_loop].
    destruct (contains key text); [discriminate|].
    destruct (Qlt_bool score (Difflib.ratio key text)) eqn:E1;
      [destruct (Qle_bool threshold (Difflib.ratio key text)) eqn:E2|];
      cbn [andb].
    + apply Qlt_bool_iff in E1. apply Qle_bool_iff in E2.
      specialize (IH (Some key) (Difflib.ratio key text) Hlit).
      destruct (fuzzy_match_loop text threshold keys (Some key)
                  (Difflib.ratio key text)) as [k|].
      * right. destruct IH as [[Hk Hall]|(Hin & Hth & Hlt & Hall)].
        -- injection Hk as <-.
           split; [left; reflexivity|]. split; [exact E2|].
           split; [exact E1|].
           constructor; [left; apply Qle_refl|exact Hall].
        -- split; [right; exact Hin|]. split; [exact Hth|].
           split; [apply Qlt_trans with (Difflib.ratio key text); assumption|].
           constructor; [left; apply Qlt_le_weak, Hlt|exact Hall].
      * destruct IH as [IH _]. discriminate.
    + assert (Hkey : (Difflib.ratio key text < threshold)%Q).
      { apply Qnot_le_lt. intros H. apply Qle_bool_iff in H. congruence. }
      specialize (IH best score Hlit).
      destruct (fuzzy_match_loop text threshold keys best score) as [k|].
      * destruct IH as [[Hk Hall]|(Hin & Hth & Hlt & Hall)].
        -- left. split; [exact Hk|]. constructor; [right; exact Hkey|exact Hall].
        -- right. split; [right; exact Hin|]. split; [exact Hth|].
           split; [exact Hlt|].
           constructor; [right; exact Hkey|exact Hall].
      * destruct IH as [Hb Hall]. split; [exact Hb|].
        constructor; [right; exact Hkey|exact Hall].
    + assert (Hkey : (Difflib.ratio key text <= score)%Q)
        by (apply Qlt_bool_false_le, E1).
      specialize (IH best score Hlit).
      destruct (fuzzy_match_loop text threshold keys best score) as [k|].
      * destruct IH as [[Hk Hall]|(Hin & Hth & Hlt & Hall)].
        -- left. split; [exact Hk|]. constructor; [left; exact Hkey|exact Hall].
        -- right. split; [right; exact Hin|]. split; [exact Hth|].
           split; [exact Hlt|].
           constructor;
             [left; apply Qle_trans with score;
              [exact Hkey|apply Qlt_le_weak, Hlt]
             |exact Hall].
      * destruct IH as [Hb Hall]. split; [exact Hb|].
        constructor; [left; exact Hkey|exact Hall].
Qed.

(** X5.  [fuzzy_match_tool] returns the first key of the dictionary that
    occurs in the text, when there is one. *)
Theorem fuzzy_match_tool_literal_first text dictionary k :
  LocalLangChainStyleAgent.first_key_in (List.map fst dictionary) text
  = Some k ->
  fuzzy_match_tool text dictionary = Some k.
Proof. apply fuzzy_match_loop_literal. Qed.

Lemma fuzzy_match_tool_literal_first_witness :
  fuzzy_match_tool "READ WM003 AND WM001" meter_tags = Some "WM001".
Proof.
  apply (fuzzy_match_tool_literal_first "READ WM003 AND WM001" meter_tags
           "WM001").
  reflexivity.
Defined.

(** X6.  When no key occurs in the text, [fuzzy_match_tool] returns a key
    whose similarity to the text is at least 0.6 and is not exceeded by any
    other key, and it returns [None] exactly when every key scores below
    0.6. *)
Theorem fuzzy_match_tool_best_score text dictionary :
  LocalLangChainStyleAgent.first_key_in (List.map fst dictionary) text
  = None ->
  match fuzzy_match_tool text dictionary with
  | Some k =>
      In k (List.map fst dictionary)
      /\ (6 # 10 <= Difflib.ratio k text)%Q
      /\ Forall (fun key => (Difflib.ratio key text <= Difflib.ratio k text)%Q)
           (List.map fst dictionary)
  | None =>
      Forall (fun key => (Difflib.ratio key text < 6 # 10)%Q)
        (List.map fst dictionary)
  end.
Proof.
  intros Hlit. unfold fuzzy_match_tool.
  pose proof (fuzzy_match_loop_best text (6 # 10) (List.map fst dictionary)
                None 0 Hlit) as H.
  destruct (fuzzy_match_loop text (6 # 10) (List.map fst dictionary) None 0)
    as [k|].
  - destruct H as [[H _]|(Hin & Hth & _ & Hall)]; [discriminate|].
    split; [exact Hin|]. split; [exact Hth|].
    eapply Forall_impl; [|exact Hall]. cbv beta.
    intros key [H|H]; [exact H|].
    apply Qlt_le_weak, Qlt_le_trans with (6 # 10); assumption.
  - destruct H as [_ Hall].
    eapply Forall_impl; [|exact Hall]. cbv beta.
    intros key [H|H]; [|exact H].
    apply Qle_lt_trans with 0%Q; [exact H|reflexivity].
Qed.

Lemma fuzzy_match_tool_best_score_witness :
  fuzzy_match_tool "WM00 2" meter_tags = Some "WM002"
  /\ (6 # 10 <= Difflib.ratio "WM002" "WM00 2")%Q.
Proof.
  pose proof (fuzzy_match_tool_best_score "WM00 2" meter_tags eq_refl) as H.
  assert (E : fuzzy_match_tool "WM00 2" meter_tags = Some "WM002")
    by (vm_compute; reflexivity).
  rewrite E in H. split; [exact E|apply H].
Defined.

(** ** [fuzzy_match_tool] on a long text *)

Lemma length_list_ascii (s : string) :
  List.length (list_ascii_of_string s) = String.length s.
Proof.
  induction s as [|c s IH]; simpl; [reflexivity|]. rewrite IH. reflexivity.
Qed.

(** The similarity of a key to a text more than 7/3 times as long is below
    the threshold: at most the characters of the key can match. *)
Lemma ratio_short_key (key text : string) :
  7 * String.length key < 3 * String.length text ->
  (Difflib.ratio key text < 6 # 10)%Q.
Proof.
  intros H. unfold Difflib.ratio. rewrite !length_list_ascii.
  destruct (String.length key + String.length text =? 0) eqn:E.
  - apply Nat.eqb_eq in E. lia.
  - apply Nat.eqb_neq in E. rewrite Qred_correct.
    pose proof (matches_bound (list_ascii_of_string key)
                  (list_ascii_of_string text) (S (String.length key))
                  0 (String.length key) 0 (String.length text)) as Hm.
    unfold Qlt. cbn [Qnum Qden].
    rewrite <- (positive_nat_Z (Pos.of_nat _)), Nat2Pos.id by exact E.
    lia.
Qed.

Lemma fuzzy_match_loop_below text threshold keys :
  forall best score,
    Forall (fun key => (Difflib.ratio key text < threshold)%Q) keys ->
    fuzzy_match_loop text threshold keys best score
    = match LocalLangChainStyleAgent.first_key_in keys text with
      | Some k => Some k
      | None => best
      end.
Proof.
  induction keys as [|key keys IH]; intros best score Hall; [reflexivity|].
  cbn [fuzzy_match_loop LocalLangChainStyleAgent.first_key_in].
  inversion Hall as [|? ? Hkey Hkeys]; subst.
  destruct (contains key text); [reflexivity|].
  assert (E : Qle_bool threshold (Difflib.ratio key text) = false).
  { destruct (Qle_bool threshold (Difflib.ratio key text)) eqn:E;
      [|reflexivity].
    apply Qle_bool_iff in E. apply Qlt_not_le in Hkey. contradiction. }
  rewrite E, andb_false_r. apply IH, Hkeys.
Qed.

Lemma fuzzy_match_tool_long_text_aux text dictionary :
  Forall (fun key => 7 * String.length key < 3 * String.length text)
    (List.map fst dictionary) ->
  fuzzy_match_tool text dictionary
  = LocalLangChainStyleAgent.first_key_in (List.map fst dictionary) text.
Proof.
  intros H. unfold fuzzy_match_tool.
  rewrite fuzzy_match_loop_below.
  - destruct (LocalLangChainStyleAgent.first_key_in _ _); reflexivity.
  - eapply Forall_impl; [|exact H]. intros key. apply ratio_short_key.
Qed.

(** X7.  On a text more than 7/3 times as long as each key,
    [fuzzy_match_tool] is a plain search for the first key that occurs in
    the text: the similarity score of such a key cannot reach 0.6. *)
Theorem fuzzy_match_tool_long_text text dictionary :
  Forall (fun key => 7 * String.length key < 3 * String.length text)
    (List.map fst dictionary) ->
  fuzzy_match_tool text dictionary
  = LocalLangChainStyleAgent.first_key_in (List.map fst dictionary) text.
Proof. apply fuzzy_match_tool_long_text_aux. Qed.

Lemma fuzzy_match_tool_long_text_witness :
  fuzzy_match_tool "WM0O1 SHOWS 12" meter_tags = None.
Proof.
  apply (fuzzy_match_tool_long_text "WM0O1 SHOWS 12" meter_tags).
  repeat constructor.
Defined.

Lemma best_fuzzy_below image text keys :
  forall best score,
    Forall (fun key => (Difflib.ratio key text < 6 # 10)%Q) keys ->
    LocalLangChainStyleAgent.best_fuzzy image keys text best score
    = (best, score).
Proof.
  induction keys as [|key keys IH]; intros best score Hall; [reflexivity|].
  cbn [LocalLangChainStyleAgent.best_fuzzy].
  inversion Hall as [|? ? Hkey Hkeys]; subst.
  assert (E : Qle_bool (6 # 10) (Difflib.ratio key text) = false).
  { destruct (Qle_bool (6 # 10) (Difflib.ratio key text)) eqn:E;
      [|reflexivity].
    apply Qle_bool_iff in E. apply Qlt_not_le in Hkey. contradiction. }
  rewrite E, andb_false_r. apply IH, Hkeys.
Qed.

Lemma long_text_keys (text : string) (d : list (string * string)) :
  Forall (fun key => String.length key <= 8) (List.map fst d) ->
  19 <= String.length text ->
  Forall (fun key => 7 * String.length key < 3 * String.length text)
    (List.map fst d).
Proof.
  intros H L. eapply Forall_impl; [|exact H]. cbv beta. intros key Hk. lia.
Qed.

Lemma keys_are_short :
  Forall (fun key => String.length key <= 8) (List.map fst meter_tags)
  /\ Forall (fun key => String.length key <= 8) (List.map fst name_to_tag).
Proof. split; repeat constructor. Qed.

(** X8.  On a cleaned text of 19 characters or more the meter is identified
    by substring search alone, in both agents: the first tag that occurs in
    the text, else the first name that occurs in it, else no meter.  A
    misspelt tag in a sentence is therefore never recovered. *)
Theorem meter_lookup_is_literal_on_long_text text :
  19 <= String.length text ->
  WaterMeterAgent.find_tag text
  = match LocalLangChainStyleAgent.first_key_in (List.map fst meter_tags)
            text with
    | Some tag => Some tag
    | None =>
        LocalLangChainStyleAgent.first_key_in (List.map fst name_to_tag) text
    end
  /\ LocalLangChainStyleAgent.MeterIdentificationTool_run text
     = match LocalLangChainStyleAgent.first_key_in (List.map fst meter_tags)
               text with
       | Some tag => tag
       | None =>
           match LocalLangChainStyleAgent.first_key_in
                   (List.map fst name_to_tag) text with
           | Some name => LocalLangChainStyleAgent.tag_of_name name
           | None => "UNKNOWN"
           end
       end.
Proof.
  intros L. destruct keys_are_short as [Ht Hn].
  pose proof (long_text_keys text meter_tags Ht L) as Ht'.
  pose proof (long_text_keys text name_to_tag Hn L) as Hn'.
  split.
  - unfold WaterMeterAgent.find_tag.
    rewrite (fuzzy_match_tool_long_text_aux text meter_tags Ht'),
            (fuzzy_match_tool_long_text_aux text name_to_tag Hn').
    destruct (LocalLangChainStyleAgent.first_key_in _ text); reflexivity.
  - unfold LocalLangChainStyleAgent.MeterIdentificationTool_run.
    destruct (LocalLangChainStyleAgent.first_key_in (List.map fst meter_tags)
                text); [reflexivity|].
    rewrite best_fuzzy_below
      by (eapply Forall_impl; [|exact Ht']; intros key; apply ratio_short_key).
    destruct (LocalLangChainStyleAgent.first_key_in (List.map fst name_to_tag)
                text); [reflexivity|].
    rewrite best_fuzzy_below
      by (eapply Forall_impl; [|exact Hn']; intros key; apply ratio_short_key).
    reflexivity.
Qed.

Lemma meter_lookup_is_literal_on_long_text_witness :
  WaterMeterAgent.find_tag "WM0O1 SHOWS 150 GALLONS" = None.
Proof.
  pose proof (meter_lookup_is_literal_on_long_text "WM0O1 SHOWS 150 GALLONS")
    as H.
  destruct H as [H _]; [simpl; lia|]. exact H.
Defined.

(** ** [parse_date_tool]: the date that is found, and the only fault *)

Lemma startswith_contains (m s : string) :
  startswith m s = true -> contains m s = true.
Proof.
  intros H. destruct s; simpl in *; rewrite H; reflexivity.
Qed.

Lemma contains_tail (m : string) (c : ascii) (s : string) :
  contains m s = true -> contains m (String c s) = true.
Proof.
  intros H. change (startswith m (String c s) || contains m s = true).
  rewrite H. apply orb_true_r.
Qed.

(** A match of a pattern made of [\d], hyphens and slashes starts the
    text, is as long as the pattern and is made of such characters. *)
Lemma match_here_spec (p : list atom) :
  List.forallb
    (fun x => match x with
              | D => true
              | C c => Ascii.eqb c "-" || Ascii.eqb c "/"
              end) p = true ->
  forall s m,
    match_here p s = Some m ->
    startswith m s = true
    /\ String.length m = List.length p
    /\ PyStr.forallb
         (fun c => is_digit c || Ascii.eqb c "-" || Ascii.eqb c "/") m = true.
Proof.
  induction p as [|x p IH]; intros Hp s m.
  - simpl. intros E. injection E as <-. destruct s; repeat split.
  - cbn [List.forallb] in Hp. apply andb_prop in Hp as [Hx Hp].
    destruct s as [|c s]; cbn [match_here]; [discriminate|].
    destruct (match x with D => is_digit c | C d => Ascii.eqb c d end)
      eqn:Ok; [|discriminate].
    destruct (match_here p s) as [m'|] eqn:E; [|discriminate].
    intros E'. injection E' as <-.
    destruct (IH Hp s m' E) as (Hs & Hl & Hc).
    cbn [startswith String.length List.length PyStr.forallb].
    rewrite Ascii.eqb_refl, Hs, Hl, Hc. repeat split.
    rewrite andb_true_r.
    destruct x as [|d].
    + rewrite Ok. reflexivity.
    + apply Ascii.eqb_eq in Ok. subst d.
      apply orb_prop in Hx as [Hx|Hx]; rewrite Hx, ?orb_true_r; reflexivity.
Qed.

Lemma first_match_spec (alts : list (list atom)) (s m : string) :
  List.forallb
    (fun p =>
       List.forallb
         (fun x => match x with
                   | D => true
                   | C c => Ascii.eqb c "-" || Ascii.eqb c "/"
                   end) p
       && (8 <=? List.length p) && (List.length p <=? 10)) alts = true ->
  first_match alts s = Some m ->
  startswith m s = true
  /\ 8 <= String.length m <= 10
  /\ PyStr.forallb
       (fun c => is_digit c || Ascii.eqb c "-" || Ascii.eqb c "/") m = true.
Proof.
  induction alts as [|p alts IH]; cbn [first_match List.forallb];
    [discriminate|].
  intros H. apply andb_prop in H as [Hp Halts].
  apply andb_prop in Hp as [Hp H10]. apply andb_prop in Hp as [Hp H8].
  apply Nat.leb_le in H8, H10.
  destruct (match_here p s) as [m'|] eqn:E.
  - intros E'. injection E' as <-.
    destruct (match_here_spec p Hp s m' E) as (Hs & Hl & Hc).
    split; [exact Hs|]. split; [lia|exact Hc].
  - apply IH, Halts.
Qed.

Lemma search_spec (alts : list (list atom)) (m : string) :
  List.forallb
    (fun p =>
       List.forallb
         (fun x => match x with
                   | D => true
                   | C c => Ascii.eqb c "-" || Ascii.eqb c "/"
                   end) p
       && (8 <=? List.length p) && (List.length p <=? 10)) alts = true ->
  forall s,
    search alts s = Some m ->
    contains m s = true
    /\ 8 <= String.length m <= 10
    /\ PyStr.forallb
         (fun c => is_digit c || Ascii.eqb c "-" || Ascii.eqb c "/") m = true.
Proof.
  intros Halts. induction s as [|c s IH]; cbn [search].
  - destruct (first_match alts "") as [m'|] eqn:E; [|discriminate].
    intros E'. injection E' as <-.
    destruct (first_match_spec alts "" m' Halts E) as (Hs & Hp & Hc).
    split; [apply startswith_contains, Hs|]. split; assumption.
  - destruct (first_match alts (String c s)) as [m'|] eqn:E.
    + intros E'. injection E' as <-.
      destruct (first_match_spec alts _ m' Halts E) as (Hs & Hp & Hc).
      split; [apply startswith_contains, Hs|]. split; assumption.
    + intros E'. destruct (IH E') as (Hs & Hp & Hc).
      split; [apply contains_tail, Hs|]. split; assumption.
Qed.

Lemma first_pattern_spec (text m : string) :
  forall ps,
    List.forallb
      (List.forallb
         (fun p =>
            List.forallb
              (fun x => match x with
                        | D => true
                        | C c => Ascii.eqb c "-" || Ascii.eqb c "/"
                        end) p
            && (8 <=? List.length p) && (List.length p <=? 10))) ps = true ->
    first_pattern ps text = Some m ->
    contains m text = true
    /\ 8 <= String.length m <= 10
    /\ PyStr.forallb
         (fun c => is_digit c || Ascii.eqb c "-" || Ascii.eqb c "/") m = true.
Proof.
  induction ps as [|alts ps IH]; cbn [first_pattern List.forallb];
    [discriminate|].
  intros H. apply andb_prop in H as [Ha Hps].
  destruct (search alts text) as [m'|] eqn:E.
  - intros E'. injection E' as <-. exact (search_spec alts m' Ha text E).
  - apply IH, Hps.
Qed.

(** X9.  A date written in the text is returned as it is written, whatever
    the words of the text and the clock: the result occurs in the text, has
    8 to 10 characters, and is made of digits, hyphens and slashes.  It is
    neither checked against the calendar nor rewritten into one format. *)
Theorem parse_date_tool_returns_text_date now text m :
  first_pattern patterns text = Some m ->
  parse_date_tool now text = Return m
  /\ contains m text = true
  /\ 8 <= String.length m <= 10
  /\ PyStr.forallb
       (fun c => is_digit c || Ascii.eqb c "-" || Ascii.eqb c "/") m = true.
Proof.
  intros H. split.
  - unfold parse_date_tool. rewrite H. reflexivity.
  - exact (first_pattern_spec text m patterns eq_refl H).
Qed.

Lemma parse_date_tool_returns_text_date_witness :
  parse_date_tool (MkDate 2025 3 15) "WM001 99/99/2025 YESTERDAY"
  = Return "99/99/2025".
Proof.
  apply (parse_date_tool_returns_text_date (MkDate 2025 3 15)
           "WM001 99/99/2025 YESTERDAY" "99/99/2025").
  reflexivity.
Defined.

(** X10.  With a valid clock, [parse_date_tool] raises in one case only:
    the text has no written date and not the word TODAY, it has the word
    YESTERDAY, and the clock shows the first day of a month.  The exception
    is then the [ValueError] of [replace(day=0)]. *)
Theorem parse_date_tool_raises_iff now text e :
  valid_date now = true ->
  parse_date_tool now text = Raise e
  <-> (first_pattern patterns text = None
       /\ contains "TODAY" text = false
       /\ contains "YESTERDAY" text = true
       /\ day now = 1
       /\ e = ValueError "day is out of range for month").
Proof.
  intros Hv. unfold valid_date in Hv.
  apply andb_prop in Hv as [Hv Hd2]. apply andb_prop in Hv as [_ Hd1].
  apply Nat.leb_le in Hd1, Hd2.
  unfold parse_date_tool, replace_day, bind.
  destruct (first_pattern patterns text) as [m|].
  - split; [discriminate|]. intros [H _]. discriminate.
  - destruct (contains "TODAY" text).
    + split; [discriminate|]. intros (_ & H & _). discriminate.
    + destruct (contains "YESTERDAY" text).
      * destruct (1 <=? day now - 1) eqn:E1.
        -- apply Nat.leb_le in E1.
           assert (E2 : (day now - 1 <=? days_in_month (year now) (month now))
                        = true) by (apply Nat.leb_le; lia).
           rewrite E2. cbn [andb].
           split; [discriminate|]. intros (_ & _ & _ & H & _). lia.
        -- apply Nat.leb_gt in E1. cbn [andb]. split.
           ++ intros H. injection H as <-. repeat split. lia.
           ++ intros (_ & _ & _ & _ & ->). reflexivity.
      * split; [discriminate|]. intros (_ & _ & H & _). discriminate.
Qed.

Lemma parse_date_tool_raises_iff_witness :
  parse_date_tool (MkDate 2024 2 1) "METER READ YESTERDAY"
  = Raise (ValueError "day is out of range for month").
Proof.
  apply (parse_date_tool_raises_iff (MkDate 2024 2 1) "METER READ YESTERDAY"
           (ValueError "day is out of range for month")).
  - reflexivity.
  - repeat split; reflexivity.
Defined.

(** * Further properties of the two agents *)

(** ** The history of signatures *)

Lemma remember_length (h : list string) (sig : string) :
  List.length h <= 100 -> List.length (remember h sig) <= 100.
Proof.
  intros H. unfold remember, last50.
  destruct (100 <? List.length (h ++ [sig])) eqn:E.
  - rewrite List.length_skipn, List.length_app in *. simpl. lia.
  - apply Nat.ltb_ge in E. exact E.
Qed.

(** An action leaves the instance as it is or records one signature. *)
Lemma act_history now self st a self' st' :
  WaterMeterAgent._act now self st a = Return (self', st') ->
  self' = self
  \/ exists sig,
       self' = WaterMeterAgent.MkAgent
                 (remember (WaterMeterAgent.parsing_history self) sig).
Proof.
  destruct a; unfold WaterMeterAgent._act, bind, text_of.
  - intros H. injection H as <- _. left. reflexivity.
  - destruct (cleaned_text st); [|discriminate].
    destruct (WaterMeterAgent.find_tag s); intros H; injection H as <- _;
      left; reflexivity.
  - destruct (cleaned_text st); [|discriminate].
    destruct (extract_numbers_tool s); intros H; injection H as <- _;
      left; reflexivity.
  - destruct (cleaned_text st); [|discriminate].
    intros H. injection H as <- _. left. reflexivity.
  - destruct (cleaned_text st); [|discriminate].
    destruct (parse_date_tool now s); [|discriminate].
    intros H. injection H as <- _. left. reflexivity.
  - destruct (WaterMeterAgent.validate_call _ _) as [[is_valid message]|];
      [|discriminate].
    destruct (mem _ _); intros H; injection H as <- _.
    + left. reflexivity.
    + right. eexists. reflexivity.
  - intros H. injection H as <- _. left. reflexivity.
  - intros H. injection H as <- _. left. reflexivity.
Qed.

(** What [remember] preserves, the loop preserves. *)
Lemma react_loop_history (P : list string -> Prop) :
  (forall h sig, P h -> P (remember h sig)) ->
  forall now n self st log,
    P (WaterMeterAgent.parsing_history self) ->
    P (WaterMeterAgent.parsing_history
         (fst (fst (WaterMeterAgent.react_loop now n self st log)))).
Proof.
  intros HP now. induction n as [|n IH]; intros self st log H; [exact H|].
  cbn [WaterMeterAgent.react_loop].
  destruct (WaterMeterAgent._think st) eqn:T; try exact H;
    (destruct (WaterMeterAgent._act now self st _) as [[self' st']|e] eqn:A;
     [|exact H];
     apply IH; apply act_history in A as [->|[sig ->]];
     [exact H|apply HP, H]).
Qed.

Lemma check_duplicates_history (P : list string -> Prop) self r :
  (forall h sig, P h -> P (remember h sig)) ->
  P (LocalLangChainStyleAgent.parsing_history self) ->
  P (LocalLangChainStyleAgent.parsing_history
       (fst (LocalLangChainStyleAgent._check_duplicates self r))).
Proof.
  intros HP H. unfold LocalLangChainStyleAgent._check_duplicates.
  destruct (truthy _); [|exact H].
  destruct (mem _ _); [exact H|]. apply HP, H.
Qed.

(** X11.  The history of signatures never exceeds 100 entries: a call of
    [parse_reading] on an instance whose history has at most 100 entries
    leaves at most 100, in both agents and for every input, whether the
    call returns or raises. *)
Theorem history_stays_bounded now raw :
  (forall self,
      List.length (WaterMeterAgent.parsing_history self) <= 100 ->
      List.length
        (WaterMeterAgent.parsing_history
           (WaterMeterAgent.self_after
              (WaterMeterAgent.parse_reading now self raw))) <= 100)
  /\ (forall self,
        List.length (LocalLangChainStyleAgent.parsing_history self) <= 100 ->
        List.length
          (LocalLangChainStyleAgent.parsing_history
             (LocalLangChainStyleAgent.self_after
                (LocalLangChainStyleAgent.parse_reading now self raw)))
        <= 100).
Proof.
  split; intros self H.
  - pose proof (react_loop_history (fun h => List.length h <= 100)
                  remember_length now WaterMeterAgent.max_steps self
                  (initial_state raw) [] H) as L.
    unfold WaterMeterAgent.parse_reading.
    destruct (WaterMeterAgent.react_loop now WaterMeterAgent.max_steps self
                (initial_state raw) []) as [[self' log] out].
    exact L.
  - unfold LocalLangChainStyleAgent.parse_reading.
    destruct (LocalLangChainStyleAgent._execute_react_loop now
                LocalLangChainStyleAgent.max_steps (initial_state raw) [])
      as [log [st|e]]; [|exact H].
    pose proof (check_duplicates_history (fun h => List.length h <= 100)
                  self (LocalLangChainStyleAgent._generate_result st)
                  remember_length H) as L.
    destruct (LocalLangChainStyleAgent._check_duplicates self _)
      as [self' r].
    exact L.
Qed.

Lemma history_stays_bounded_witness :
  List.length
    (WaterMeterAgent.parsing_history
       (WaterMeterAgent.self_after
          (WaterMeterAgent.parse_reading (MkDate 2025 3 15)
             WaterMeterAgent.new "WM001 150 gallons"))) <= 100.
Proof.
  apply (proj1 (history_stays_bounded (MkDate 2025 3 15)
                  "WM001 150 gallons") WaterMeterAgent.new).
  simpl. lia.
Defined.

(** ** The only fault *)

(** X12.  The only exception that leaves [WaterMeterAgent.parse_reading]
    is the one of the date stage on a text that is not blank: no other
    step of the loop raises, and [_generate_result] does not. *)
Theorem parse_reading_raises_iff now self raw e :
  WaterMeterAgent.returned (WaterMeterAgent.parse_reading now self raw)
  = Raise e
  <-> (is_blank (clean_text_tool raw) = false
       /\ parse_date_tool now (clean_text_tool raw) = Raise e).
Proof.
  split.
  - intros H. destruct (is_blank (clean_text_tool raw)) eqn:B.
    + rewrite (parse_reading_blank now self raw B) in H. discriminate.
    + split; [reflexivity|].
      destruct (parse_date_tool now (clean_text_tool raw)) as [d|e'] eqn:Dt.
      * destruct (parse_reading_returns now self raw d B Dt)
          as (self' & r & E & _).
        rewrite E in H. discriminate.
      * rewrite (parse_reading_raises now self raw e' B Dt) in H.
        cbn [WaterMeterAgent.returned] in H. injection H as ->. reflexivity.
  - intros [B Dt]. rewrite (parse_reading_raises now self raw e B Dt).
    reflexivity.
Qed.

(** X13.  [LocalLangChainStyleAgent.parse_reading] returns the dict of its
    [except] branch exactly when the date stage raises on a text that is
    not blank; the dict then carries the message of that exception and the
    raw input, and the history is left as it was. *)
Theorem local_fault_iff now self raw s err raw' method :
  LocalLangChainStyleAgent.returned
    (LocalLangChainStyleAgent.parse_reading now self raw)
  = LocalLangChainStyleAgent.Fault s err raw' method
  <-> (is_blank (clean_text_tool raw) = false
       /\ (exists e,
             parse_date_tool now (clean_text_tool raw) = Raise e
             /\ err = str_of_exn e)
       /\ s = PyBool false /\ raw' = raw
       /\ method = "local_langchain_style"
       /\ LocalLangChainStyleAgent.self_after
            (LocalLangChainStyleAgent.parse_reading now self raw) = self).
Proof.
  split.
  - intros H. unfold LocalLangChainStyleAgent.parse_reading in *.
    destruct (local_loop_shapes now raw)
      as [(B & st & E)|[(B & e & Dt & E)|(B & d & st & Dt & E & _)]];
      cbv zeta in *; rewrite E in *.
    + destruct (LocalLangChainStyleAgent._check_duplicates self _).
      discriminate.
    + cbn [LocalLangChainStyleAgent.returned
           LocalLangChainStyleAgent.self_after] in *.
      injection H as <- <- <- <-.
      split; [exact B|]. split; [exists e; split; [exact Dt|reflexivity]|].
      repeat split.
    + destruct (LocalLangChainStyleAgent._check_duplicates self _).
      discriminate.
  - intros (B & (e & Dt & ->) & -> & -> & -> & _).
    rewrite (local_fault_is_returned now self raw e B Dt). reflexivity.
Qed.

(** ** The fields of a result *)

(** X14.  A result of [WaterMeterAgent.parse_reading] has its four data
    fields all null or all set: tag, value, unit and date are [None]
    together, exactly when the cleaned text is blank. *)
Theorem result_fields_all_or_nothing now self raw r :
  WaterMeterAgent.returned (WaterMeterAgent.parse_reading now self raw)
  = Return r ->
  (is_blank (clean_text_tool raw) = true
   /\ meter_tag_of r = None /\ reading_value_of r = None
   /\ reading_unit r = None /\ reading_date r = None)
  \/ (is_blank (clean_text_tool raw) = false
      /\ exists tag v u d,
           meter_tag_of r = Some tag /\ reading_value_of r = Some v
           /\ reading_unit r = Some u /\ reading_date r = Some d).
Proof.
  intros H. destruct (is_blank (clean_text_tool raw)) eqn:B.
  - left. rewrite (parse_reading_blank now self raw B) in H.
    injection H as <-. repeat split.
  - right. split; [reflexivity|].
    destruct (parse_date_tool now (clean_text_tool raw)) as [d|e] eqn:Dt.
    + destruct (parse_reading_returns now self raw d B Dt)
        as (self' & r' & E & _ & M & R & U & D' & _).
      rewrite E in H. injection H as <-.
      eexists _, _, _, _. repeat split; eassumption.
    + rewrite (parse_reading_raises now self raw e B Dt) in H. discriminate.
Qed.

Lemma result_fields_all_or_nothing_witness :
  exists r,
    WaterMeterAgent.returned
      (WaterMeterAgent.parse_reading (MkDate 2025 3 15) WaterMeterAgent.new
         "no meter here") = Return r
    /\ exists tag v u d,
         meter_tag_of r = Some tag /\ reading_value_of r = Some v
         /\ reading_unit r = Some u /\ reading_date r = Some d.
Proof.
  eexists. split; [vm_compute; reflexivity|].
  match goal with
  | |- exists tag v u d, meter_tag_of ?r = _ /\ _ =>
      assert (E : WaterMeterAgent.returned
                    (WaterMeterAgent.parse_reading (MkDate 2025 3 15)
                       WaterMeterAgent.new "no meter here") = Return r)
        by (vm_compute; reflexivity);
      destruct (result_fields_all_or_nothing _ _ _ _ E)
        as [(B & _)|(_ & H)]; [vm_compute in B; discriminate B|exact H]
  end.
Defined.

(** ** The range check in the pipeline *)

Lemma choose_reading_nonneg (x : Q) (rest : list Q) :
  Forall (fun v => (0 <= v)%Q) (x :: rest) ->
  (0 <= choose_reading x rest)%Q.
Proof.
  intros H. rewrite choose_reading_max.
  destruct (max_list_spec rest x) as [Hin _].
  rewrite Forall_forall in H. apply H, Hin.
Qed.

Lemma extract_numbers_tool_nonneg (text : string) :
  Forall (fun v => (0 <= v)%Q) (extract_numbers_tool text).
Proof.
  unfold extract_numbers_tool. apply Forall_map, Forall_forall.
  intros m _. apply float_of_match_nonneg.
Qed.

Lemma first_variant_value (text : string) (items : list (string * string)) :
  forall standard,
    first_variant items text = Some standard ->
    In standard (List.map snd items).
Proof.
  induction items as [|[variant s] items IH]; intros standard;
    cbn [first_variant]; [discriminate|].
  destruct (contains variant text).
  - intros H. injection H as <-. left. reflexivity.
  - intros H. right. apply IH, H.
Qed.

Lemma standardize_unit_tool_values (text : string) :
  standardize_unit_tool text = "cubic_meters"
  \/ standardize_unit_tool text = "gallons"
  \/ standardize_unit_tool text = "liters".
Proof.
  unfold standardize_unit_tool.
  destruct (first_variant unit_map text) as [s|] eqn:E; [|auto].
  apply first_variant_value in E. simpl in E.
  intuition (subst; auto).
Qed.

(** X15.  For the reading and the unit that the agents take from a text,
    the range check is an upper bound only: the unit is always a key of
    [ranges] (the answer "Unknown unit" cannot occur), and the lower bound
    0 never fails, since no number read from a text is negative. *)
Theorem range_check_is_upper_bound (text : string) :
  let v := match extract_numbers_tool text with
           | x :: rest => choose_reading x rest
           | [] => 0%Q
           end in
  let u := standardize_unit_tool text in
  exists hi description,
    lookup u ranges = Some (0%Q, hi, description)
    /\ fst (validate_range_tool v u) = Qle_bool v hi.
Proof.
  intros v u.
  assert (Hv : (0 <= v)%Q).
  { unfold v.
    pose proof (extract_numbers_tool_nonneg text) as Hall.
    destruct (extract_numbers_tool text) as [|x rest];
      [apply Qle_refl|apply choose_reading_nonneg, Hall]. }
  assert (H0 : Qle_bool 0 v = true) by (apply Qle_bool_iff, Hv).
  destruct (standardize_unit_tool_values text) as [E|[E|E]];
    fold u in E; rewrite E; unfold validate_range_tool;
    cbn [lookup ranges String.eqb Ascii.eqb Bool.eqb];
    eexists _, _; (split; [reflexivity|]);
    rewrite H0; cbn [andb]; destruct (Qle_bool v _); reflexivity.
Qed.

(** * The two agents compared *)

(** ** The lookup of the meter *)

Lemma first_key_in_key (keys : list string) (text k : string) :
  LocalLangChainStyleAgent.first_key_in keys text = Some k -> In k keys.
Proof.
  induction keys as [|key keys IH];
    cbn [LocalLangChainStyleAgent.first_key_in]; [discriminate|].
  destruct (contains key text).
  - intros H. injection H as <-. left. reflexivity.
  - intros H. right. apply IH, H.
Qed.

(** The loop of [fuzzy_match_tool] is the search for a literal key,
    followed by the search for the best score. *)
Lemma fuzzy_match_loop_split text keys :
  forall best score,
    fuzzy_match_loop text (6 # 10) keys best score
    = match LocalLangChainStyleAgent.first_key_in keys text with
      | Some k => Some k
      | None =>
          fst (LocalLangChainStyleAgent.best_fuzzy (fun k => k) keys text
                 best score)
      end.
Proof.
  induction keys as [|key keys IH]; intros best score; [reflexivity|].
  cbn [fuzzy_match_loop LocalLangChainStyleAgent.first_key_in
       LocalLangChainStyleAgent.best_fuzzy].
  destruct (contains key text); [reflexivity|].
  destruct (Qlt_bool score (Difflib.ratio key text)
            && Qle_bool (6 # 10) (Difflib.ratio key text)); apply IH.
Qed.

(** What is stored for a key plays no part in the choice of the key. *)
Lemma best_fuzzy_image (image : string -> string) text keys :
  forall best score,
    LocalLangChainStyleAgent.best_fuzzy image keys text
      (option_map image best) score
    = (option_map image
         (fst (LocalLangChainStyleAgent.best_fuzzy (fun k => k) keys text
                 best score)),
       snd (LocalLangChainStyleAgent.best_fuzzy (fun k => k) keys text
              best score)).
Proof.
  induction keys as [|key keys IH]; intros best score; [reflexivity|].
  cbn [LocalLangChainStyleAgent.best_fuzzy].
  destruct (Qlt_bool score (Difflib.ratio key text)
            && Qle_bool (6 # 10) (Difflib.ratio key text)).
  - apply (IH (Some key)).
  - apply IH.
Qed.

(** A search that ends without a match has left the score as it was. *)
Lemma best_fuzzy_none (image : string -> string) text keys :
  forall best score,
    fst (LocalLangChainStyleAgent.best_fuzzy image keys text best score)
    = None ->
    best = None
    /\ LocalLangChainStyleAgent.best_fuzzy image keys text best score
       = (None, score).
Proof.
  induction keys as [|key keys IH]; intros best score.
  - cbn [LocalLangChainStyleAgent.best_fuzzy fst]. intros ->.
    split; reflexivity.
  - cbn [LocalLangChainStyleAgent.best_fuzzy].
    destruct (Qlt_bool score (Difflib.ratio key text)
              && Qle_bool (6 # 10) (Difflib.ratio key text)).
    + intros H. apply IH in H as [H _]. discriminate.
    + apply IH.
Qed.

Lemma best_fuzzy_key (image : string -> string) text keys :
  forall best score t,
    fst (LocalLangChainStyleAgent.best_fuzzy image keys text best score)
    = Some t ->
    best = Some t \/ exists k, In k keys /\ t = image k.
Proof.
  induction keys as [|key keys IH]; intros best score t.
  - cbn [LocalLangChainStyleAgent.best_fuzzy fst]. auto.
  - cbn [LocalLangChainStyleAgent.best_fuzzy].
    destruct (Qlt_bool score (Difflib.ratio key text)
              && Qle_bool (6 # 10) (Difflib.ratio key text)).
    + intros H. apply IH in H as [H|(k & Hk & ->)].
      * injection H as <-. right. exists key. split; [left|]; reflexivity.
      * right. exists k. split; [right; exact Hk|reflexivity].
    + intros H. apply IH in H as [H|(k & Hk & ->)]; [auto|].
      right. exists k. split; [right; exact Hk|reflexivity].
Qed.

Lemma tag_of_name_tag (t : string) :
  In t (List.map fst meter_tags) ->
  LocalLangChainStyleAgent.tag_of_name t = t.
Proof.
  simpl. intuition (subst; reflexivity).
Qed.

Lemma tag_of_name_canonical (k : string) :
  In k (List.map fst meter_tags) \/ In k (List.map fst name_to_tag) ->
  In (LocalLangChainStyleAgent.tag_of_name k) (List.map fst meter_tags).
Proof.
  simpl. intuition (subst; simpl; auto 10).
Qed.

Lemma MeterIdentificationTool_run_find_tag (text : string) :
  LocalLangChainStyleAgent.MeterIdentificationTool_run text
  = match WaterMeterAgent.find_tag text with
    | Some key => LocalLangChainStyleAgent.tag_of_name key
    | None => "UNKNOWN"
    end.
Proof.
  unfold LocalLangChainStyleAgent.MeterIdentificationTool_run,
    WaterMeterAgent.find_tag, fuzzy_match_tool.
  rewrite !fuzzy_match_loop_split.
  destruct (LocalLangChainStyleAgent.first_key_in (List.map fst meter_tags)
              text) as [t|] eqn:Ft.
  - apply first_key_in_key in Ft. symmetry. apply tag_of_name_tag, Ft.
  - destruct (LocalLangChainStyleAgent.best_fuzzy (fun tag => tag)
                (List.map fst meter_tags) text None 0)
      as [bm bs] eqn:Bt.
    cbv beta iota. cbn [fst].
    destruct bm as [t|].
    + assert (H : fst (LocalLangChainStyleAgent.best_fuzzy (fun tag => tag)
                         (List.map fst meter_tags) text None 0) = Some t)
        by (rewrite Bt; reflexivity).
      apply best_fuzzy_key in H as [H|(k & Hk & ->)]; [discriminate|].
      symmetry. apply tag_of_name_tag, Hk.
    + assert (H : fst (LocalLangChainStyleAgent.best_fuzzy (fun tag => tag)
                         (List.map fst meter_tags) text None 0) = None)
        by (rewrite Bt; reflexivity).
      apply best_fuzzy_none in H as [_ H]. rewrite Bt in H.
      injection H as ->.
      destruct (LocalLangChainStyleAgent.first_key_in
                  (List.map fst name_to_tag) text); [reflexivity|].
      pose proof (best_fuzzy_image LocalLangChainStyleAgent.tag_of_name text
                    (List.map fst name_to_tag) None 0) as Hi.
      cbn [option_map] in Hi. rewrite Hi.
      destruct (fst (LocalLangChainStyleAgent.best_fuzzy (fun k => k)
                       (List.map fst name_to_tag) text None 0));
        reflexivity.
Qed.

(** X16.  The two agents look the meter up in the same way:
    [MeterIdentificationTool.run] returns the tag of the key that the two
    calls of [fuzzy_match_tool] in [WaterMeterAgent._act] find (the key
    itself when it is a tag, its entry in [name_to_tag] when it is a
    name), and "UNKNOWN" when they find none.  What it returns is
    therefore one of the five tags or "UNKNOWN", never a name. *)
Theorem agents_identify_the_same_meter (text : string) :
  LocalLangChainStyleAgent.MeterIdentificationTool_run text
  = match WaterMeterAgent.find_tag text with
    | Some key => LocalLangChainStyleAgent.tag_of_name key
    | None => "UNKNOWN"
    end
  /\ In (LocalLangChainStyleAgent.MeterIdentificationTool_run text)
       ["WM001"; "WM002"; "WM003"; "WM004"; "WM005"; "UNKNOWN"].
Proof.
  split; [apply MeterIdentificationTool_run_find_tag|].
  rewrite MeterIdentificationTool_run_find_tag.
  destruct (WaterMeterAgent.find_tag text) as [k|] eqn:E.
  - apply find_tag_key, tag_of_name_canonical in E.
    simpl in E. simpl. intuition.
  - simpl. auto 10.
Qed.

(** ** The state at the end of the pipeline *)

(** The state that [WaterMeterAgent] has built when the loop ends on a
    text that is not blank: the three VALIDATE steps change its warnings
    only. *)
Lemma react_loop_pipeline_state now self raw d :
  is_blank (clean_text_tool raw) = false ->
  parse_date_tool now (clean_text_tool raw) = Return d ->
  let text := clean_text_tool raw in
  let s1 := set_cleaned_text (initial_state raw) text in
  let s2 := match WaterMeterAgent.find_tag text with
            | Some t => add_confidence (set_meter_tag s1 t) (3 # 10)
            | None => add_warning (set_meter_tag s1 "UNKNOWN")
                        "Could not identify meter tag"
            end in
  let s3 := match extract_numbers_tool text with
            | x :: rest =>
                add_confidence (set_reading_value s2 (choose_reading x rest))
                               (4 # 10)
            | [] => add_warning (set_reading_value s2 0)
                      "No numeric reading detected"
            end in
  let s4 := add_confidence (set_unit s3 (standardize_unit_tool text))
                           (2 # 10) in
  let s5 := add_confidence (set_date s4 d) (1 # 10) in
  exists self' ws,
    WaterMeterAgent.react_loop now WaterMeterAgent.max_steps self
      (initial_state raw) []
    = (self',
       [CLEAN_TEXT; IDENTIFY_METER; EXTRACT_READING; IDENTIFY_UNIT;
        PARSE_DATE; VALIDATE; VALIDATE; VALIDATE],
       Return (set_warnings s5 ws)).
Proof.
  intros Hne Hd text s1 s2 s3 s4 s5. fold text in Hne, Hd.
  assert (C2 : cleaned_text s2 = Some text)
    by (unfold s2; destruct (WaterMeterAgent.find_tag text); reflexivity).
  assert (M2 : meter_tag s2
               = Some (match WaterMeterAgent.find_tag text with
                       | Some tag => tag
                       | None => "UNKNOWN"
                       end))
    by (unfold s2; destruct (WaterMeterAgent.find_tag text); reflexivity).
  assert (R2 : reading_value s2 = None)
    by (unfold s2; destruct (WaterMeterAgent.find_tag text); reflexivity).
  assert (C3 : cleaned_text s3 = Some text)
    by (unfold s3; destruct (extract_numbers_tool text); exact C2).
  assert (M3 : meter_tag s3 = meter_tag s2)
    by (unfold s3; destruct (extract_numbers_tool text); reflexivity).
  assert (R3 : reading_value s3
               = Some (match extract_numbers_tool text with
                       | x :: rest => choose_reading x rest
                       | [] => 0%Q
                       end))
    by (unfold s3; destruct (extract_numbers_tool text); reflexivity).
  assert (U3 : unit_ s3 = None)
    by (unfold s3, s2; destruct (extract_numbers_tool text);
        destruct (WaterMeterAgent.find_tag text); reflexivity).
  assert (D3 : date s3 = None)
    by (unfold s3, s2; destruct (extract_numbers_tool text);
        destruct (WaterMeterAgent.find_tag text); reflexivity).
  assert (C4 : cleaned_text s4 = Some text) by exact C3.
  assert (M4 : meter_tag s4 = meter_tag s2) by exact M3.
  assert (R4 : reading_value s4 = reading_value s3) by reflexivity.
  assert (U4 : unit_ s4 = Some (standardize_unit_tool text)) by reflexivity.
  assert (D4 : date s4 = None) by exact D3.
  rewrite M2 in M4. rewrite R3 in R4.
  unfold WaterMeterAgent.max_steps.
  rewrite (react_loop_act now _ self (initial_state raw) [] CLEAN_TEXT
             self s1);
    [|reflexivity|discriminate|discriminate|reflexivity].
  rewrite (react_loop_act now _ self s1 _ IDENTIFY_METER self s2);
    [|unfold WaterMeterAgent._think;
      cbn [s1 cleaned_text set_cleaned_text meter_tag initial_state];
      rewrite Hne; reflexivity
     |discriminate|discriminate
     |unfold WaterMeterAgent._act, text_of, bind, s2;
      cbn [s1 cleaned_text set_cleaned_text initial_state];
      destruct (WaterMeterAgent.find_tag text); reflexivity].
  rewrite (react_loop_act now _ self s2 _ EXTRACT_READING self s3);
    [|unfold WaterMeterAgent._think; rewrite C2, M2, R2; reflexivity
     |discriminate|discriminate
     |unfold WaterMeterAgent._act, text_of, bind, s3; rewrite C2;
      destruct (extract_numbers_tool text); reflexivity].
  rewrite (react_loop_act now _ self s3 _ IDENTIFY_UNIT self s4);
    [|unfold WaterMeterAgent._think; rewrite C3, M3, M2, R3, U3;
      reflexivity
     |discriminate|discriminate
     |unfold WaterMeterAgent._act, text_of, bind, s4; rewrite C3;
      reflexivity].
  rewrite (react_loop_act now 3 self s4 _ PARSE_DATE self s5);
    [|eapply think_parse_date; eassumption|discriminate|discriminate
     |unfold WaterMeterAgent._act, text_of, bind; rewrite C4, Hd;
      reflexivity].
  destruct (validate_loop now 3 self s5
              [CLEAN_TEXT; IDENTIFY_METER; EXTRACT_READING; IDENTIFY_UNIT;
               PARSE_DATE]
              _ _ _ _ d C4 M4 R4 U4 eq_refl) as (self' & ws & Hloop).
  exists self', ws. exact Hloop.
Qed.

(** The same for [LocalLangChainStyleAgent]: after the one VALIDATE the
    state differs from the one of PARSE_DATE in its warnings and in the
    call that is recorded. *)
Lemma local_loop_pipeline_state now raw d :
  is_blank (clean_text_tool raw) = false ->
  parse_date_tool now (clean_text_tool raw) = Return d ->
  let text := clean_text_tool raw in
  let tag := LocalLangChainStyleAgent.MeterIdentificationTool_run text in
  let s1 := add_tool_call (set_cleaned_text (initial_state raw) text)
              ("clean_text", raw, text) in
  let s2 := add_tool_call
              (if negb (String.eqb tag "UNKNOWN")
               then add_confidence (set_meter_tag s1 tag) (3 # 10)
               else add_warning (set_meter_tag s1 tag)
                      "Could not identify meter tag")
              ("identify_meter", text, tag) in
  let s3 := add_tool_call
              (match extract_numbers_tool text with
               | x :: rest =>
                   add_confidence
                     (set_reading_value s2 (choose_reading x rest)) (4 # 10)
               | [] => add_warning (set_reading_value s2 0)
                         "No numeric reading detected"
               end)
              ("extract_numbers", text,
               LocalLangChainStyleAgent.json_dumps
                 (extract_numbers_tool text)) in
  let s4 := add_tool_call
              (add_confidence (set_unit s3 (standardize_unit_tool text))
                              (2 # 10))
              ("standardize_unit", text, standardize_unit_tool text) in
  let s5 := add_tool_call (add_confidence (set_date s4 d) (1 # 10))
              ("parse_date", text, d) in
  exists ws input result,
    LocalLangChainStyleAgent._execute_react_loop now
      LocalLangChainStyleAgent.max_steps (initial_state raw) []
    = ([CLEAN_TEXT; IDENTIFY_METER; EXTRACT_READING; IDENTIFY_UNIT;
        PARSE_DATE; VALIDATE; COMPLETE],
       Return (add_tool_call (set_warnings s5 ws)
                 ("validate_range", input, result))).
Proof.
  intros Hne Hd text tag s1 s2 s3 s4 s5. fold text in Hne, Hd.
  assert (C2 : cleaned_text s2 = Some text)
    by (unfold s2; destruct (negb (String.eqb tag "UNKNOWN")); reflexivity).
  assert (M2 : meter_tag s2 = Some tag)
    by (unfold s2; destruct (negb (String.eqb tag "UNKNOWN")); reflexivity).
  assert (R2 : reading_value s2 = None)
    by (unfold s2; destruct (negb (String.eqb tag "UNKNOWN")); reflexivity).
  assert (U2 : unit_ s2 = None)
    by (unfold s2; destruct (negb (String.eqb tag "UNKNOWN")); reflexivity).
  assert (D2 : date s2 = None)
    by (unfold s2; destruct (negb (String.eqb tag "UNKNOWN")); reflexivity).
  assert (T2 : tool_calls s2
               = [("clean_text", raw, text); ("identify_meter", text, tag)])
    by (unfold s2; destruct (negb (String.eqb tag "UNKNOWN")); reflexivity).
  assert (C3 : cleaned_text s3 = Some text)
    by (unfold s3; destruct (extract_numbers_tool text); exact C2).
  assert (M3 : meter_tag s3 = Some tag)
    by (unfold s3; destruct (extract_numbers_tool text); exact M2).
  assert (R3 : reading_value s3
               = Some (match extract_numbers_tool text with
                       | x :: rest => choose_reading x rest
                       | [] => 0%Q
                       end))
    by (unfold s3; destruct (extract_numbers_tool text); reflexivity).
  assert (U3 : unit_ s3 = None)
    by (unfold s3; destruct (extract_numbers_tool text); exact U2).
  assert (D3 : date s3 = None)
    by (unfold s3; destruct (extract_numbers_tool text); exact D2).
  assert (T3 : List.map (fun call => fst (fst call)) (tool_calls s3)
               = ["clean_text"; "identify_meter"; "extract_numbers"])
    by (unfold s3; destruct (extract_numbers_tool text);
        cbn [tool_calls add_tool_call add_confidence add_warning set_warnings
             set_reading_value];
        rewrite T2; reflexivity).
  assert (C4 : cleaned_text s4 = Some text) by exact C3.
  assert (M4 : meter_tag s4 = Some tag) by exact M3.
  assert (R4 : reading_value s4 = reading_value s3) by reflexivity.
  assert (U4 : unit_ s4 = Some (standardize_unit_tool text)) by reflexivity.
  assert (D4 : date s4 = None) by exact D3.
  assert (T4 : List.map (fun call => fst (fst call)) (tool_calls s4)
               = ["clean_text"; "identify_meter"; "extract_numbers";
                  "standardize_unit"])
    by (cbn [s4 tool_calls add_tool_call add_confidence set_unit];
        rewrite List.map_app, T3; reflexivity).
  rewrite R3 in R4.
  destruct (local_validate_step now s5) as (ws & input & result & Hact).
  exists ws, input, result.
  set (s6 := add_tool_call (set_warnings s5 ws)
               ("validate_range", input, result)) in *.
  assert (C5 : cleaned_text s5 = Some text) by exact C4.
  assert (M5 : meter_tag s5 = Some tag) by exact M4.
  assert (R5 : reading_value s5 = reading_value s4) by reflexivity.
  assert (U5 : unit_ s5 = Some (standardize_unit_tool text)) by reflexivity.
  assert (D5 : date s5 = Some d) by reflexivity.
  assert (T5 : List.map (fun call => fst (fst call)) (tool_calls s5)
               = ["clean_text"; "identify_meter"; "extract_numbers";
                  "standardize_unit"; "parse_date"])
    by (cbn [s5 tool_calls add_tool_call add_confidence set_date];
        rewrite List.map_app, T4; reflexivity).
  assert (C6 : cleaned_text s6 = Some text) by exact C4.
  assert (M6 : meter_tag s6 = Some tag) by exact M4.
  assert (R6 : reading_value s6 = reading_value s4) by reflexivity.
  assert (U6 : unit_ s6 = Some (standardize_unit_tool text)) by reflexivity.
  assert (D6 : date s6 = Some d) by reflexivity.
  assert (T6 : List.map (fun call => fst (fst call)) (tool_calls s6)
               = ["clean_text"; "identify_meter"; "extract_numbers";
                  "standardize_unit"; "parse_date"; "validate_range"])
    by (cbn [s6 tool_calls add_tool_call set_warnings];
        rewrite List.map_app, T5; reflexivity).
  rewrite R4 in R5, R6.
  unfold LocalLangChainStyleAgent.max_steps.
  rewrite (local_loop_act now _ (initial_state raw) [] CLEAN_TEXT s1);
    [|reflexivity|discriminate|discriminate|reflexivity].
  rewrite (local_loop_act now _ s1 _ IDENTIFY_METER s2);
    [|unfold LocalLangChainStyleAgent._think;
      cbn [s1 cleaned_text set_cleaned_text meter_tag initial_state
           add_tool_call];
      rewrite Hne; reflexivity
     |discriminate|discriminate
     |reflexivity].
  rewrite (local_loop_act now _ s2 _ EXTRACT_READING s3);
    [|unfold LocalLangChainStyleAgent._think; rewrite C2, M2, R2;
      reflexivity
     |discriminate|discriminate
     |unfold LocalLangChainStyleAgent._act, text_of, bind, s3,
        LocalLangChainStyleAgent.ExtractNumbersTool_run;
      rewrite C2; reflexivity].
  rewrite (local_loop_act now _ s3 _ IDENTIFY_UNIT s4);
    [|unfold LocalLangChainStyleAgent._think; rewrite C3, M3, R3, U3;
      reflexivity
     |discriminate|discriminate
     |unfold LocalLangChainStyleAgent._act, text_of, bind, s4;
      rewrite C3; reflexivity].
  rewrite (local_loop_act now 3 s4 _ PARSE_DATE s5);
    [|eapply local_think_parse_date; eassumption
     |discriminate|discriminate
     |unfold LocalLangChainStyleAgent._act,
        LocalLangChainStyleAgent.ParseDateTool_run, text_of, bind;
      rewrite C4, Hd; reflexivity].
  rewrite (local_loop_act now 2 s5 _ VALIDATE s6);
    [|rewrite (local_think_last s5 _ _ _ _ _ C5 M5 R5 U5 D5);
      rewrite T5; reflexivity
     |discriminate|discriminate|exact Hact].
  rewrite local_loop_complete; [reflexivity|].
  rewrite (local_think_last s6 _ _ _ _ _ C6 M6 R6 U6 D6).
  rewrite T6. reflexivity.
Qed.

Lemma local_loop_blank now raw :
  is_blank (clean_text_tool raw) = true ->
  LocalLangChainStyleAgent._execute_react_loop now
    LocalLangChainStyleAgent.max_steps (initial_state raw) []
  = ([CLEAN_TEXT; FAIL],
     Return (add_warning
               (add_tool_call
                  (set_cleaned_text (initial_state raw) (clean_text_tool raw))
                  ("clean_text", raw, clean_text_tool raw))
               "Parsing failed - insufficient data")).
Proof.
  intros Hblank. unfold LocalLangChainStyleAgent.max_steps.
  rewrite (local_loop_act now 7 (initial_state raw) [] CLEAN_TEXT
             (add_tool_call
                (set_cleaned_text (initial_state raw) (clean_text_tool raw))
                ("clean_text", raw, clean_text_tool raw)));
    [|reflexivity|discriminate|discriminate|reflexivity].
  apply local_loop_fail.
  unfold LocalLangChainStyleAgent._think.
  cbn [cleaned_text set_cleaned_text meter_tag initial_state add_tool_call].
  rewrite Hblank. reflexivity.
Qed.

(** ** The confidence of a result *)

Lemma known_key_facts (k : string) :
  In k (List.map fst meter_tags) \/ In k (List.map fst name_to_tag) ->
  String.eqb (LocalLangChainStyleAgent.tag_of_name k) "UNKNOWN" = false
  /\ forall v,
       success_of (Some (LocalLangChainStyleAgent.tag_of_name k)) v
       = success_of (Some k) v.
Proof.
  simpl. intuition (subst; split; reflexivity).
Qed.

(** X17.  The confidence of a result of [WaterMeterAgent.parse_reading]
    counts the stages that found something, and nothing else: it is 0 for
    a blank text, and otherwise 0.3 for the unit and the date, plus 0.3
    when a meter was found, plus 0.4 when the text has a number.  A
    reading out of range or a duplicate does not lower it, and a
    successful result always has confidence 1. *)
Theorem confidence_counts_the_stages now self raw r :
  WaterMeterAgent.returned (WaterMeterAgent.parse_reading now self raw)
  = Return r ->
  result_confidence r
  = (if is_blank (clean_text_tool raw) then 0
     else
       match WaterMeterAgent.find_tag (clean_text_tool raw),
             extract_numbers_tool (clean_text_tool raw) with
       | Some _, _ :: _ => 1
       | Some _, [] => 3 # 5
       | None, _ :: _ => 7 # 10
       | None, [] => 3 # 10
       end)%Q
  /\ (success r = PyBool true -> result_confidence r = 1%Q).
Proof.
  intros H. destruct (is_blank (clean_text_tool raw)) eqn:B.
  - rewrite (parse_reading_blank now self raw B) in H.
    cbn [WaterMeterAgent.returned] in H. injection H as <-.
    split; [reflexivity|discriminate].
  - destruct (parse_date_tool now (clean_text_tool raw)) as [d|e] eqn:Dt.
    + pose proof (react_loop_pipeline_state now self raw d B Dt) as L.
      cbv zeta in L. destruct L as (self' & ws & L).
      unfold WaterMeterAgent.parse_reading in H. rewrite L in H.
      cbn [WaterMeterAgent.returned bind] in H. injection H as <-.
      destruct (WaterMeterAgent.find_tag (clean_text_tool raw)) as [t|] eqn:F;
        destruct (extract_numbers_tool (clean_text_tool raw)) as [|x rest];
        cbn [_generate_result result_confidence success confidence meter_tag
             reading_value set_warnings add_confidence set_date set_unit
             set_reading_value set_meter_tag set_cleaned_text add_warning
             initial_state].
      * split; [vm_compute; reflexivity|].
        apply find_tag_not_empty in F. apply String.eqb_neq in F.
        unfold success_of. rewrite F.
        destruct (String.eqb t "UNKNOWN"); discriminate.
      * split; [vm_compute; reflexivity|]. intros _. vm_compute. reflexivity.
      * split; [vm_compute; reflexivity|]. discriminate.
      * split; [vm_compute; reflexivity|]. discriminate.
    + rewrite (parse_reading_raises now self raw e B Dt) in H. discriminate.
Qed.

Lemma confidence_counts_the_stages_witness :
  exists r,
    WaterMeterAgent.returned
      (WaterMeterAgent.parse_reading (MkDate 2025 3 15) WaterMeterAgent.new
         "WM001 reads 99999 gallons")
    = Return r
    /\ result_confidence r = 1%Q.
Proof.
  eexists. split; [vm_compute; reflexivity|].
  match goal with
  | |- result_confidence ?r = _ =>
      assert (E : WaterMeterAgent.returned
                    (WaterMeterAgent.parse_reading (MkDate 2025 3 15)
                       WaterMeterAgent.new "WM001 reads 99999 gallons")
                  = Return r)
        by (vm_compute; reflexivity);
      apply (proj2 (confidence_counts_the_stages _ _ _ _ E))
  end.
  reflexivity.
Defined.

(** ** The results of the two agents *)

Lemma check_duplicates_fields self (r : LocalLangChainStyleAgent.full_result) :
  let b := LocalLangChainStyleAgent.base r in
  let b' := LocalLangChainStyleAgent.base
              (snd (LocalLangChainStyleAgent._check_duplicates self r)) in
  success b' = success b
  /\ result_confidence b' = result_confidence b
  /\ meter_tag_of b' = meter_tag_of b
  /\ reading_value_of b' = reading_value_of b
  /\ reading_unit b' = reading_unit b
  /\ reading_date b' = reading_date b
  /\ result_raw_input b' = result_raw_input b.
Proof.
  unfold LocalLangChainStyleAgent._check_duplicates.
  destruct (truthy _); [destruct (mem _ _)|]; repeat split.
Qed.

(** X18.  The two agents agree on what they read: whenever
    [WaterMeterAgent.parse_reading] returns a result,
    [LocalLangChainStyleAgent.parse_reading] returns one for the same
    input and clock, on any instance, with the same success flag,
    confidence, value, unit, date and raw input; the tag is the one of
    [WaterMeterAgent] mapped through [name_to_tag] when it is a name. *)
Theorem agents_agree now self self' raw r :
  WaterMeterAgent.returned (WaterMeterAgent.parse_reading now self raw)
  = Return r ->
  exists r',
    LocalLangChainStyleAgent.returned
      (LocalLangChainStyleAgent.parse_reading now self' raw)
    = LocalLangChainStyleAgent.Parsed r'
    /\ success (LocalLangChainStyleAgent.base r') = success r
    /\ result_confidence (LocalLangChainStyleAgent.base r')
       = result_confidence r
    /\ meter_tag_of (LocalLangChainStyleAgent.base r')
       = option_map LocalLangChainStyleAgent.tag_of_name (meter_tag_of r)
    /\ reading_value_of (LocalLangChainStyleAgent.base r')
       = reading_value_of r
    /\ reading_unit (LocalLangChainStyleAgent.base r') = reading_unit r
    /\ reading_date (LocalLangChainStyleAgent.base r') = reading_date r
    /\ result_raw_input (LocalLangChainStyleAgent.base r')
       = result_raw_input r.
Proof.
  intros H. destruct (is_blank (clean_text_tool raw)) eqn:B.
  - rewrite (parse_reading_blank now self raw B) in H.
    cbn [WaterMeterAgent.returned] in H. injection H as <-.
    unfold LocalLangChainStyleAgent.parse_reading.
    rewrite (local_loop_blank now raw B).
    eexists. split; [reflexivity|]. repeat split.
  - destruct (parse_date_tool now (clean_text_tool raw)) as [d|e] eqn:Dt.
    + pose proof (react_loop_pipeline_state now self raw d B Dt) as L.
      cbv zeta in L. destruct L as (self1 & ws & L).
      unfold WaterMeterAgent.parse_reading in H. rewrite L in H.
      cbn [WaterMeterAgent.returned bind] in H. injection H as <-.
      pose proof (local_loop_pipeline_state now raw d B Dt) as L'.
      cbv zeta in L'. destruct L' as (ws' & input & result & L').
      unfold LocalLangChainStyleAgent.parse_reading. rewrite L'.
      match goal with
      | |- context [LocalLangChainStyleAgent._check_duplicates self' ?r0] =>
          pose proof (check_duplicates_fields self' r0) as Fs;
          destruct (LocalLangChainStyleAgent._check_duplicates self' r0)
            as [self2 r2]
      end.
      cbv zeta in Fs. cbn [snd] in Fs.
      destruct Fs as (F1 & F2 & F3 & F4 & F5 & F6 & F7).
      exists r2. split; [reflexivity|].
      rewrite F1, F2, F3, F4, F5, F6, F7.
      rewrite !MeterIdentificationTool_run_find_tag.
      destruct (WaterMeterAgent.find_tag (clean_text_tool raw)) as [k|] eqn:F.
      * apply find_tag_key, known_key_facts in F. destruct F as [Fu Fs].
        rewrite Fu.
        destruct (extract_numbers_tool (clean_text_tool raw)) as [|x rest];
          cbn [LocalLangChainStyleAgent._generate_result
               LocalLangChainStyleAgent.base _generate_result negb
               result_confidence success confidence meter_tag reading_value
               unit_ date raw_input meter_tag_of reading_value_of
               reading_unit reading_date result_raw_input option_map
               set_warnings add_confidence set_date set_unit
               set_reading_value set_meter_tag set_cleaned_text add_warning
               add_tool_call initial_state];
          rewrite Fs; repeat split.
      * change (String.eqb "UNKNOWN" "UNKNOWN") with true.
        destruct (extract_numbers_tool (clean_text_tool raw)) as [|x rest];
          cbn [LocalLangChainStyleAgent._generate_result
               LocalLangChainStyleAgent.base _generate_result negb
               result_confidence success confidence meter_tag reading_value
               unit_ date raw_input meter_tag_of reading_value_of
               reading_unit reading_date result_raw_input option_map
               set_warnings add_confidence set_date set_unit
               set_reading_value set_meter_tag set_cleaned_text add_warning
               add_tool_call initial_state];
          repeat split.
    + rewrite (parse_reading_raises now self raw e B Dt) in H. discriminate.
Qed.

Lemma agents_agree_witness :
  exists r r',
    WaterMeterAgent.returned
      (WaterMeterAgent.parse_reading (MkDate 2025 3 15) WaterMeterAgent.new
         "Kitchen meter reading is 150.5 cubic meters")
    = Return r
    /\ LocalLangChainStyleAgent.returned
         (LocalLangChainStyleAgent.parse_reading (MkDate 2025 3 15)
            LocalLangChainStyleAgent.new
            "Kitchen meter reading is 150.5 cubic meters")
       = LocalLangChainStyleAgent.Parsed r'
    /\ meter_tag_of r = Some "KITCHEN"
    /\ meter_tag_of (LocalLangChainStyleAgent.base r')
       = option_map LocalLangChainStyleAgent.tag_of_name (meter_tag_of r).
Proof.
  eexists.
  match goal with
  | |- exists r', ?G = Return ?r /\ _ =>
      assert (E : G = Return r) by (vm_compute; reflexivity);
      destruct (agents_agree (MkDate 2025 3 15) WaterMeterAgent.new
                  LocalLangChainStyleAgent.new _ _ E)
        as (r' & E' & _ & _ & T & _)
  end.
  exists r'. split; [vm_compute; reflexivity|].
  split; [exact E'|]. split; [reflexivity|exact T].
Defined.

(** ** Duplicates *)

(** X19.  In [LocalLangChainStyleAgent], a successful reading that is new
    to the history is recorded, and parsing the same input again on that
    instance and with the same clock returns the same result with the one
    warning "Potential duplicate reading" appended, and leaves the history
    as it is. *)
Theorem local_second_parse_is_flagged now self raw r :
  LocalLangChainStyleAgent.returned
    (LocalLangChainStyleAgent.parse_reading now self raw)
  = LocalLangChainStyleAgent.Parsed r ->
  success (LocalLangChainStyleAgent.base r) = PyBool true ->
  mem (reading_signature
         (meter_tag_of (LocalLangChainStyleAgent.base r))
         (reading_value_of (LocalLangChainStyleAgent.base r))
         (reading_date (LocalLangChainStyleAgent.base r)))
      (LocalLangChainStyleAgent.parsing_history self) = false ->
  LocalLangChainStyleAgent.parse_reading now
    (LocalLangChainStyleAgent.self_after
       (LocalLangChainStyleAgent.parse_reading now self raw)) raw
  = LocalLangChainStyleAgent.MkRun
      (LocalLangChainStyleAgent.self_after
         (LocalLangChainStyleAgent.parse_reading now self raw))
      (LocalLangChainStyleAgent.decisions
         (LocalLangChainStyleAgent.parse_reading now self raw))
      (LocalLangChainStyleAgent.Parsed
         (LocalLangChainStyleAgent.with_warning r
            "Potential duplicate reading")).
Proof.
  unfold LocalLangChainStyleAgent.parse_reading.
  destruct (LocalLangChainStyleAgent._execute_react_loop now
              LocalLangChainStyleAgent.max_steps (initial_state raw) [])
    as [log [st|e]]; [|discriminate].
  set (r0 := LocalLangChainStyleAgent._generate_result st).
  destruct (LocalLangChainStyleAgent._check_duplicates self r0)
    as [self1 r1] eqn:CD.
  cbn [LocalLangChainStyleAgent.returned LocalLangChainStyleAgent.self_after
       LocalLangChainStyleAgent.decisions].
  intros H S M. injection H as ->.
  unfold LocalLangChainStyleAgent._check_duplicates in CD.
  destruct (truthy (success (LocalLangChainStyleAgent.base r0))) eqn:T.
  - destruct (mem _ (LocalLangChainStyleAgent.parsing_history self)) eqn:M0;
      injection CD as <- <-.
    + cbn [LocalLangChainStyleAgent.with_warning
           LocalLangChainStyleAgent.base meter_tag_of reading_value_of
           reading_date] in M.
      rewrite M in M0. discriminate.
    + unfold LocalLangChainStyleAgent._check_duplicates. rewrite T.
      cbn [LocalLangChainStyleAgent.parsing_history].
      rewrite mem_remember. reflexivity.
  - injection CD as <- <-. rewrite S in T. discriminate.
Qed.

Lemma local_second_parse_is_flagged_witness :
  exists r,
    LocalLangChainStyleAgent.returned
      (LocalLangChainStyleAgent.parse_reading (MkDate 2025 3 15)
         (LocalLangChainStyleAgent.self_after
            (LocalLangChainStyleAgent.parse_reading (MkDate 2025 3 15)
               LocalLangChainStyleAgent.new "WM003 garden 42 liters today"))
         "WM003 garden 42 liters today")
    = LocalLangChainStyleAgent.Parsed
        (LocalLangChainStyleAgent.with_warning r
           "Potential duplicate reading").
Proof.
  eexists.
  match goal with
  | |- _ = LocalLangChainStyleAgent.Parsed
             (LocalLangChainStyleAgent.with_warning ?r _) =>
      assert (E : LocalLangChainStyleAgent.returned
                    (LocalLangChainStyleAgent.parse_reading (MkDate 2025 3 15)
                       LocalLangChainStyleAgent.new
                       "WM003 garden 42 liters today")
                  = LocalLangChainStyleAgent.Parsed r)
        by (vm_compute; reflexivity);
      rewrite (local_second_parse_is_flagged _ _ _ _ E);
        [reflexivity|vm_compute; reflexivity|vm_compute; reflexivity]
  end.
Defined.

(** X20.  In [WaterMeterAgent], every result of a text that is not blank
    carries the warning "Potential duplicate reading" at least twice,
    whatever the input and the history: the first VALIDATE records the
    signature and the two that follow find it. *)
Theorem every_full_parse_reports_a_duplicate now self raw r :
  WaterMeterAgent.returned (WaterMeterAgent.parse_reading now self raw)
  = Return r ->
  is_blank (clean_text_tool raw) = false ->
  2 <= List.length
         (List.filter (String.eqb "Potential duplicate reading")
            (result_warnings r)).
Proof.
  intros H B.
  destruct (parse_date_tool now (clean_text_tool raw)) as [d|e] eqn:Dt.
  - destruct (parse_reading_reports_itself now self raw d B Dt)
      as (r' & E & Hc).
    rewrite E in H. injection H as <-. exact Hc.
  - rewrite (parse_reading_raises now self raw e B Dt) in H. discriminate.
Qed.

Lemma every_full_parse_reports_a_duplicate_witness :
  exists r,
    WaterMeterAgent.returned
      (WaterMeterAgent.parse_reading (MkDate 2025 3 15) WaterMeterAgent.new
         "Bathroom 7 liters")
    = Return r
    /\ 2 <= List.length
              (List.filter (String.eqb "Potential duplicate reading")
                 (result_warnings r)).
Proof.
  eexists.
  match goal with
  | |- ?G = Return ?r /\ _ =>
      assert (E : G = Return r) by (vm_compute; reflexivity);
      split; [exact E|];
      apply (every_full_parse_reports_a_duplicate _ _ _ _ E)
  end.
  vm_compute. reflexivity.
Defined.

(** ** The decisions of [LocalLangChainStyleAgent] *)

(** X21.  The decisions of a call of
    [LocalLangChainStyleAgent.parse_reading] are one of three sequences,
    chosen by the cleaned text and the date stage alone: no action is
    decided twice, VALIDATE included, and the loop ends on FAIL, on
    COMPLETE or on the exception of the date stage, within seven of its
    eight steps. *)
Theorem local_decisions_are_fixed now self raw :
  LocalLangChainStyleAgent.decisions
    (LocalLangChainStyleAgent.parse_reading now self raw)
  = if is_blank (clean_text_tool raw) then [CLEAN_TEXT; FAIL]
    else
      match parse_date_tool now (clean_text_tool raw) with
      | Return _ =>
          [CLEAN_TEXT; IDENTIFY_METER; EXTRACT_READING; IDENTIFY_UNIT;
           PARSE_DATE; VALIDATE; COMPLETE]
      | Raise _ =>
          [CLEAN_TEXT; IDENTIFY_METER; EXTRACT_READING; IDENTIFY_UNIT;
           PARSE_DATE]
      end.
Proof.
  unfold LocalLangChainStyleAgent.parse_reading.
  destruct (local_loop_shapes now raw)
    as [(B & st & H)|[(B & e & Dt & H)|(B & d & st & Dt & H & _)]];
    cbv zeta in *; rewrite H, B, ?Dt.
  - destruct (LocalLangChainStyleAgent._check_duplicates self _).
    reflexivity.
  - reflexivity.
  - destruct (LocalLangChainStyleAgent._check_duplicates self _).
    reflexivity.
Qed.
